(** * pymaestro: the Maestro USB servo controller protocol layer

  A shallow embedding of [maestro/usc/protocol.py], [maestro/usc/settings.py]
  and [maestro/usc/main.py], and the properties of the parameter table, the
  numeric codecs, the settings writer, the status decoders and the script
  uploader.

  Python integers are unbounded, so they are [Z]; [>>], [<<], [&] and [|]
  are [Z.shiftr], [Z.shiftl], [Z.land] and [Z.lor] (all of them agree with
  Python on negative numbers), [%] with a positive divisor is [Z.modulo].
  Byte arrays and lists are [list Z], dictionaries are [gmap]. *)

From Stdlib Require Import ZArith Lia Bool.
From stdpp Require Import base option list strings gmap.

Local Open Scope Z_scope.

(** ** protocol.py *)

Module Protocol.

(** [class uscRequest(IntEnum)] *)
Definition REQUEST_GET_PARAMETER : Z := 0x81.
Definition REQUEST_SET_PARAMETER : Z := 0x82.
Definition REQUEST_GET_VARIABLES : Z := 0x83.
Definition REQUEST_SET_SERVO_VARIABLE : Z := 0x84.
Definition REQUEST_SET_TARGET : Z := 0x85.
Definition REQUEST_CLEAR_ERRORS : Z := 0x86.
Definition REQUEST_GET_SERVO_SETTINGS : Z := 0x87.
Definition REQUEST_GET_STACK : Z := 0x88.
Definition REQUEST_GET_CALL_STACK : Z := 0x89.
Definition REQUEST_SET_PWM : Z := 0x8A.
Definition REQUEST_REINITIALIZE : Z := 0x90.
Definition REQUEST_ERASE_SCRIPT : Z := 0xA0.
Definition REQUEST_WRITE_SCRIPT : Z := 0xA1.
Definition REQUEST_SET_SCRIPT_DONE : Z := 0xA2.
Definition REQUEST_RESTART_SCRIPT_AT_SUBROUTINE : Z := 0xA3.
Definition REQUEST_RESTART_SCRIPT_AT_SUBROUTINE_WITH_PARAMETER : Z := 0xA4.
Definition REQUEST_RESTART_SCRIPT : Z := 0xA5.
Definition REQUEST_START_BOOTLOADER : Z := 0xFF.

(** [class uscParameter(IntEnum)]: the members the protocol layer names. *)
Definition PARAMETER_INITIALIZED : Z := 0.
Definition PARAMETER_SERVOS_AVAILABLE : Z := 1.
Definition PARAMETER_SERVO_PERIOD : Z := 2.
Definition PARAMETER_SERIAL_MODE : Z := 3.
Definition PARAMETER_SERIAL_FIXED_BAUD_RATE : Z := 4.
Definition PARAMETER_SERIAL_TIMEOUT : Z := 6.
Definition PARAMETER_SERIAL_ENABLE_CRC : Z := 8.
Definition PARAMETER_SERIAL_NEVER_SUSPEND : Z := 9.
Definition PARAMETER_SERIAL_DEVICE_NUMBER : Z := 10.
Definition PARAMETER_SERIAL_BAUD_DETECT_TYPE : Z := 11.
Definition PARAMETER_IO_MASK_C : Z := 16.
Definition PARAMETER_OUTPUT_MASK_C : Z := 17.
Definition PARAMETER_CHANNEL_MODES_0_3 : Z := 12.
Definition PARAMETER_CHANNEL_MODES_4_7 : Z := 13.
Definition PARAMETER_CHANNEL_MODES_8_11 : Z := 14.
Definition PARAMETER_CHANNEL_MODES_12_15 : Z := 15.
Definition PARAMETER_CHANNEL_MODES_16_19 : Z := 16.
Definition PARAMETER_CHANNEL_MODES_20_23 : Z := 17.
Definition PARAMETER_MINI_MAESTRO_SERVO_PERIOD_L : Z := 18.
Definition PARAMETER_MINI_MAESTRO_SERVO_PERIOD_HU : Z := 19.
Definition PARAMETER_ENABLE_PULLUPS : Z := 21.
Definition PARAMETER_SCRIPT_CRC : Z := 22.
Definition PARAMETER_SCRIPT_DONE : Z := 24.
Definition PARAMETER_SERIAL_MINI_SSC_OFFSET : Z := 25.
Definition PARAMETER_SERVO_MULTIPLIER : Z := 26.
Definition PARAMETER_SERVO0_HOME : Z := 30.
Definition PARAMETER_SERVO0_MIN : Z := 32.
Definition PARAMETER_SERVO0_MAX : Z := 33.
Definition PARAMETER_SERVO0_NEUTRAL : Z := 34.
Definition PARAMETER_SERVO0_RANGE : Z := 36.
Definition PARAMETER_SERVO0_SPEED : Z := 37.
Definition PARAMETER_SERVO0_ACCELERATION : Z := 38.

(** [class uscSerialMode(IntEnum)] *)
Definition SERIAL_MODE_USB_DUAL_PORT : Z := 0.
Definition SERIAL_MODE_USB_CHAINED : Z := 1.
Definition SERIAL_MODE_UART_DETECT_BAUD_RATE : Z := 2.
Definition SERIAL_MODE_UART_FIXED_BAUD_RATE : Z := 3.

(** [class ChannelMode(IntEnum)] and its integer values. *)
Inductive ChannelMode := Servo | ServoMultiplied | Output | Input.

Definition ChannelMode_value (m : ChannelMode) : Z :=
  match m with Servo => 0 | ServoMultiplied => 1 | Output => 2 | Input => 3 end.

#[export] Instance ChannelMode_eq_dec : EqDecision ChannelMode.
Proof. solve_decision. Defined.

(** [class HomeMode(IntEnum)] *)
Inductive HomeMode := Off | Ignore | Goto.

Definition HomeMode_value (m : HomeMode) : Z :=
  match m with Off => 0 | Ignore => 1 | Goto => 2 end.

#[export] Instance HomeMode_eq_dec : EqDecision HomeMode.
Proof. solve_decision. Defined.

(** *** [struct.Struct] with the ['<'] prefix

    Little-endian, standard sizes, no alignment padding. A format is the
    list of its items after the repeat counts are expanded. *)
Inductive fmt_item :=
| fmt_B   (* unsigned char, 1 byte *)
| fmt_H   (* unsigned short, 2 bytes *)
| fmt_h.  (* signed short, 2 bytes *)

Definition item_size (c : fmt_item) : nat :=
  match c with fmt_B => 1 | fmt_H => 2 | fmt_h => 2 end.

Definition struct_size (fmt : list fmt_item) : nat :=
  foldr (fun c n => (item_size c + n)%nat) 0%nat fmt.

Definition le16 (lo hi : Z) : Z := lo + 256 * hi.

Definition signed16 (u : Z) : Z := if 32768 <=? u then u - 65536 else u.

(** Decoding of the items one after the other; [None] when the bytes run
    out before the format does. *)
Fixpoint unpack_items (fmt : list fmt_item) (packed : list Z) : option (list Z) :=
  match fmt with
  | [] => Some []
  | fmt_B :: fmt' =>
      match packed with
      | b :: rest => cons b <$> unpack_items fmt' rest
      | _ => None
      end
  | fmt_H :: fmt' =>
      match packed with
      | lo :: hi :: rest => cons (le16 lo hi) <$> unpack_items fmt' rest
      | _ => None
      end
  | fmt_h :: fmt' =>
      match packed with
      | lo :: hi :: rest => cons (signed16 (le16 lo hi)) <$> unpack_items fmt' rest
      | _ => None
      end
  end.

(** [Struct.unpack]: [struct.error] (here [None]) unless the buffer has
    exactly [Struct.size] bytes. *)
Definition struct_unpack (fmt : list fmt_item) (packed : list Z) : option (list Z) :=
  if decide (length packed = struct_size fmt) then unpack_items fmt packed else None.

(** Python's [t[a:b]] on a list. *)
Definition slice {A} (l : list A) (a b : nat) : list A := take (b - a) (drop a l).

(** [class ServoStatus]: [struct.Struct('<HHHB')]. *)
Definition ServoStatus_struct : list fmt_item := [fmt_H; fmt_H; fmt_H; fmt_B].

Record ServoStatus := {
  position : Z;
  target : Z;
  speed : Z;
  acceleration : Z
}.

Definition ServoStatus_init (packed : list Z) : option ServoStatus :=
  unpacked ← struct_unpack ServoStatus_struct packed;
  position ← unpacked !! 0%nat;
  target ← unpacked !! 1%nat;
  speed ← unpacked !! 2%nat;
  acceleration ← unpacked !! 3%nat;
  Some {| position := position; target := target; speed := speed;
          acceleration := acceleration |}.

(** [class MicroMaestroVariables]: [struct.Struct('<BBH3h32h10HBB')]. *)
Definition MicroMaestroVariables_struct : list fmt_item :=
  [fmt_B; fmt_B; fmt_H] ++ replicate 3 fmt_h ++ replicate 32 fmt_h
    ++ replicate 10 fmt_H ++ [fmt_B; fmt_B].

Record MicroMaestroVariables := {
  stackPointer : Z;
  callStackPointer : Z;
  errors : Z;
  buffer : list Z;
  stack : list Z;
  callStack : list Z;
  scriptDone : Z;
  buffer2 : Z
}.

Definition MicroMaestroVariables_init (packed : list Z) : option MicroMaestroVariables :=
  unpacked ← struct_unpack MicroMaestroVariables_struct packed;
  stackPointer ← unpacked !! 0%nat;
  callStackPointer ← unpacked !! 1%nat;
  errors ← unpacked !! 2%nat;
  scriptDone ← unpacked !! 48%nat;
  buffer2 ← unpacked !! 49%nat;
  Some {| stackPointer := stackPointer; callStackPointer := callStackPointer;
          errors := errors;
          buffer := slice unpacked 3 6;
          stack := slice unpacked 6 38;
          callStack := slice unpacked 38 48;
          scriptDone := scriptDone; buffer2 := buffer2 |}.

(** [class MiniMaestroVariables]: [struct.Struct('<BBHHBB')]. *)
Definition MiniMaestroVariables_struct : list fmt_item :=
  [fmt_B; fmt_B; fmt_H; fmt_H; fmt_B; fmt_B].

Record MiniMaestroVariables := {
  mini_stackPointer : Z;
  mini_callStackPointer : Z;
  mini_errors : Z;
  mini_programCounter : Z;
  mini_scriptDone : Z;
  mini_performanceFlags : Z
}.

Definition MiniMaestroVariables_init (packed : list Z) : option MiniMaestroVariables :=
  unpacked ← struct_unpack MiniMaestroVariables_struct packed;
  sp ← unpacked !! 0%nat;
  csp ← unpacked !! 1%nat;
  err ← unpacked !! 2%nat;
  pc ← unpacked !! 3%nat;
  sd ← unpacked !! 4%nat;
  pf ← unpacked !! 5%nat;
  Some {| mini_stackPointer := sp; mini_callStackPointer := csp; mini_errors := err;
          mini_programCounter := pc; mini_scriptDone := sd;
          mini_performanceFlags := pf |}.

End Protocol.

(** ** settings.py *)

Module Settings.
Import Protocol.

(** [class ChannelSetting]; the fields are plain Python integers. *)
Record ChannelSetting := {
  name : string;
  mode : ChannelMode;
  homeMode : HomeMode;
  home : Z;
  minimum : Z;
  maximum : Z;
  neutral : Z;
  range : Z;
  speed : Z;
  acceleration : Z
}.

(** [ChannelSetting.__init__] *)
Definition ChannelSetting_init : ChannelSetting := {|
  name := "";
  mode := Servo;
  homeMode := Off;
  home := 6000;
  minimum := 3968;
  maximum := 8000;
  neutral := 6000;
  range := 1905;
  speed := 0;
  acceleration := 0
|}.

(** Modelled from the spec: the compiled program ([BytecodeProgram] of the
    package [maestro.bytecode], which is not among the sources). The spec's
    CompiledProgram has a byte sequence, a mapping from subroutine names to
    device addresses, a mapping from subroutine names to an opcode of at
    least 128 or the indirect-call-only marker, and a checksum.
    [subroutineAddresses] lists the dictionary's items in iteration order. *)
Record BytecodeProgram := {
  byteList : list Z;
  subroutineAddresses : list (string * Z);
  subroutineCommands : gmap string Z;
  crc : Z
}.

(** [class UscSettings] *)
Record UscSettings := {
  servosAvailable : Z;
  servoPeriod : Z;
  miniMaestroServoPeriod : Z;
  servoMultiplier : Z;
  serialMode : Z;
  fixedBaudRate : Z;
  enableCrc : bool;
  neverSuspend : bool;
  serialDeviceNumber : Z;
  miniSscOffset : Z;
  serialTimeout : Z;
  scriptDone : bool;
  channelSettings : list ChannelSetting;
  enablePullups : bool;
  scriptInconsistent : bool;
  script : option string;
  bytecodeProgram : option BytecodeProgram
}.

(** [UscSettings.__init__] *)
Definition UscSettings_init : UscSettings := {|
  servosAvailable := 6;
  servoPeriod := 156;
  miniMaestroServoPeriod := 80000;
  servoMultiplier := 1;
  serialMode := SERIAL_MODE_UART_DETECT_BAUD_RATE;
  fixedBaudRate := 9600;
  enableCrc := false;
  neverSuspend := false;
  serialDeviceNumber := 12;
  miniSscOffset := 0;
  serialTimeout := 0;
  scriptDone := true;
  channelSettings := [];
  enablePullups := true;
  scriptInconsistent := false;
  script := None;
  bytecodeProgram := None
|}.

(** [UscSettings.__len__] *)
Definition len (s : UscSettings) : Z := Z.of_nat (length (channelSettings s)).

Definition set_channelSettings (s : UscSettings) (cs : list ChannelSetting) : UscSettings :=
  {| servosAvailable := servosAvailable s;
     servoPeriod := servoPeriod s;
     miniMaestroServoPeriod := miniMaestroServoPeriod s;
     servoMultiplier := servoMultiplier s;
     serialMode := serialMode s;
     fixedBaudRate := fixedBaudRate s;
     enableCrc := enableCrc s;
     neverSuspend := neverSuspend s;
     serialDeviceNumber := serialDeviceNumber s;
     miniSscOffset := miniSscOffset s;
     serialTimeout := serialTimeout s;
     scriptDone := scriptDone s;
     channelSettings := cs;
     enablePullups := enablePullups s;
     scriptInconsistent := scriptInconsistent s;
     script := script s;
     bytecodeProgram := bytecodeProgram s |}.

Definition set_serialDeviceNumber (s : UscSettings) (n : Z) : UscSettings :=
  {| servosAvailable := servosAvailable s;
     servoPeriod := servoPeriod s;
     miniMaestroServoPeriod := miniMaestroServoPeriod s;
     servoMultiplier := servoMultiplier s;
     serialMode := serialMode s;
     fixedBaudRate := fixedBaudRate s;
     enableCrc := enableCrc s;
     neverSuspend := neverSuspend s;
     serialDeviceNumber := n;
     miniSscOffset := miniSscOffset s;
     serialTimeout := serialTimeout s;
     scriptDone := scriptDone s;
     channelSettings := channelSettings s;
     enablePullups := enablePullups s;
     scriptInconsistent := scriptInconsistent s;
     script := script s;
     bytecodeProgram := bytecodeProgram s |}.

End Settings.

(** ** main.py *)

Module Usc.
Import Protocol Settings.

(** [class Range] *)
Record Range := {
  bytes : Z;
  minimumValue : Z;
  maximumValue : Z
}.

Definition Range_signed (r : Range) : bool := minimumValue r <? 0.
Definition Range_u16 : Range := {| bytes := 2; minimumValue := 0; maximumValue := 0xFFFF |}.
Definition Range_u12 : Range := {| bytes := 2; minimumValue := 0; maximumValue := 0x0FFF |}.
Definition Range_u10 : Range := {| bytes := 2; minimumValue := 0; maximumValue := 0x03FF |}.
Definition Range_u8 : Range := {| bytes := 1; minimumValue := 0; maximumValue := 0xFF |}.
Definition Range_u7 : Range := {| bytes := 1; minimumValue := 0; maximumValue := 0x7F |}.
Definition Range_boolean : Range := {| bytes := 1; minimumValue := 0; maximumValue := 1 |}.

(** The exceptions the protocol layer raises, by raise site, and the
    built-in ones its list, dictionary, byte array and struct operations
    raise. [OutOfFuel] stands for a loop of the model that ran out of fuel;
    no Python exception corresponds to it. *)
Inductive exn :=
| ArgumentOutOfRange (argumentName argumentValue minimum maximum : Z)
| InvalidChannelNumber (channel : Z)
| InvalidParameterId (parameterId : Z)
| ScriptTooLong (length : Z)
| ShortRead (got expected : Z)
| UnknownOutput (out : string)
| NoProgram
| IndexError
| KeyError (key : string)
| NameError (name : string)
| ValueError
| StructError
| ZeroDivisionError
| OutOfFuel.

Inductive result (A : Type) :=
| Ok (a : A)
| Raise (e : exn).
Arguments Ok {A} a.
Arguments Raise {A} e.

#[export] Instance result_ret : MRet result := fun A a => Ok a.
#[export] Instance result_bind : MBind result := fun A B f m =>
  match m with Ok a => f a | Raise e => Raise e end.

Definition of_option {A} (e : exn) (o : option A) : result A :=
  match o with Some a => Ok a | None => Raise e end.

Definition is_Ok {A} (r : result A) : Prop := exists a, r = Ok a.

(** Constants of [class Usc]. *)
Definition INSTRUCTION_FREQUENCY : Z := 12000000.
Definition servoParameterBytes : Z := 9.
Definition MicroMaestroStackSize : Z := 32.
Definition MicroMaestroCallStackSize : Z := 10.
Definition MiniMaestroStackSize : Z := 126.
Definition MiniMaestroCallStackSize : Z := 126.

(** [Usc.specifyServo] *)
Definition specifyServo (p servo : Z) : Z := p + servo * servoParameterBytes.

(** [Usc._exponentialSpeedToNormalSpeed] *)
Definition _exponentialSpeedToNormalSpeed (exponentialSpeed : Z) : Z :=
  let mantissa := Z.shiftr exponentialSpeed 3 in
  let exponent := Z.land exponentialSpeed 7 in
  mantissa * Z.shiftl 1 exponent.

(** The [while True] loop of [Usc._normalSpeedToExponentialSpeed]; one unit
    of fuel per iteration, [None] when the fuel runs out. *)
Fixpoint normalSpeed_loop (fuel : nat) (mantissa exponent : Z) : option Z :=
  match fuel with
  | O => None
  | S fuel' =>
      if mantissa <? 32 then Some (exponent + Z.shiftl mantissa 3)
      else if exponent =? 7 then Some 0xFF
      else normalSpeed_loop fuel' (Z.shiftr mantissa 1) (exponent + 1)
  end.

(** [Usc._normalSpeedToExponentialSpeed]; the loop leaves by its eighth
    iteration at the latest (lemma [normalSpeed_loop_total]). *)
Definition _normalSpeedToExponentialSpeed (normalSpeed : Z) : option Z :=
  normalSpeed_loop 8 normalSpeed 0.

(** [int(a / b)] for integers [a] and [b <> 0]: true division, then
    truncation towards zero. For operands below 2^53 in absolute value the
    correctly rounded quotient cannot reach the next integer, so the result
    is the exact truncated quotient [Z.quot]. Beyond that the source rounds,
    and from about 2^1024 on it raises OverflowError, which the model does
    not: what is proved of the transforms is for bounded operands. *)
Definition int_truediv (a b : Z) : Z := Z.quot a b.

(** [Usc._convertSpbrgToBps]: [int((F + (spbrg + 1) / 2) / (spbrg + 1))].
    The halves are exact in binary floating point, so the value is the
    truncation of the rational (2F + spbrg + 1) / (2 (spbrg + 1)). *)
Definition _convertSpbrgToBps (spbrg : Z) : result Z :=
  if spbrg =? 0 then Ok 0
  else if spbrg + 1 =? 0 then Raise ZeroDivisionError
  else Ok (int_truediv (2 * INSTRUCTION_FREQUENCY + (spbrg + 1)) (2 * (spbrg + 1))).

(** [Usc._convertBpsToSpbrg]: [int((F - bps / 2) / bps)], the truncation of
    the rational (2F - bps) / (2 bps). *)
Definition _convertBpsToSpbrg (bps : Z) : Z :=
  if bps =? 0 then 0
  else int_truediv (2 * INSTRUCTION_FREQUENCY - bps) (2 * bps).

(** [Usc._channelToPort] *)
Definition _channelToPort (channel : Z) : result Z :=
  if channel <=? 3 then Ok channel
  else if channel <? 6 then Ok (channel + 2)
  else Raise (InvalidChannelNumber channel).

(** [x in [...]] on integers. *)
Definition Zmem (x : Z) (l : list Z) : bool := existsb (Z.eqb x) l.

(** [Usc.getRange] *)
Definition getRange (parameterId : Z) : result Range :=
  if Zmem parameterId [PARAMETER_INITIALIZED;
                       PARAMETER_SERVOS_AVAILABLE;
                       PARAMETER_SERVO_PERIOD;
                       PARAMETER_MINI_MAESTRO_SERVO_PERIOD_L;
                       PARAMETER_SERVO_MULTIPLIER;
                       PARAMETER_CHANNEL_MODES_0_3;
                       PARAMETER_CHANNEL_MODES_4_7;
                       PARAMETER_CHANNEL_MODES_8_11;
                       PARAMETER_CHANNEL_MODES_12_15;
                       PARAMETER_CHANNEL_MODES_16_19;
                       PARAMETER_CHANNEL_MODES_20_23;
                       PARAMETER_ENABLE_PULLUPS]
  then Ok Range_u8
  else if Zmem parameterId [PARAMETER_MINI_MAESTRO_SERVO_PERIOD_HU;
                            PARAMETER_SERIAL_TIMEOUT;
                            PARAMETER_SERIAL_FIXED_BAUD_RATE;
                            PARAMETER_SCRIPT_CRC]
  then Ok Range_u16
  else if Zmem parameterId [PARAMETER_SERIAL_NEVER_SUSPEND;
                            PARAMETER_SERIAL_ENABLE_CRC;
                            PARAMETER_SCRIPT_DONE]
  then Ok Range_boolean
  else if parameterId =? PARAMETER_SERIAL_DEVICE_NUMBER then Ok Range_u7
  else if parameterId =? PARAMETER_SERIAL_MODE
  then Ok {| bytes := 1; minimumValue := 0; maximumValue := 3 |}
  else if parameterId =? PARAMETER_SERIAL_BAUD_DETECT_TYPE
  then Ok {| bytes := 1; minimumValue := 0; maximumValue := 1 |}
  else if parameterId =? PARAMETER_SERIAL_MINI_SSC_OFFSET
  then Ok {| bytes := 1; minimumValue := 0; maximumValue := 254 |}
  else
    let servoParameter :=
      ((parameterId - PARAMETER_SERVO0_HOME) mod 9) + PARAMETER_SERVO0_HOME in
    if Zmem servoParameter [PARAMETER_SERVO0_SPEED;
                            PARAMETER_SERVO0_MAX;
                            PARAMETER_SERVO0_MIN;
                            PARAMETER_SERVO0_ACCELERATION]
    then Ok Range_u8
    else if Zmem servoParameter [PARAMETER_SERVO0_HOME;
                                 PARAMETER_SERVO0_NEUTRAL]
    then Ok {| bytes := 2; minimumValue := 0; maximumValue := 32440 |}
    else if servoParameter =? PARAMETER_SERVO0_RANGE
    then Ok {| bytes := 1; minimumValue := 1; maximumValue := 50 |}
    else Raise (InvalidParameterId parameterId).

(** [Usc.requireArgumentRange] *)
Definition requireArgumentRange (argumentValue minimum maximum argumentName : Z)
  : result unit :=
  if (argumentValue <? minimum) || (argumentValue >? maximum)
  then Raise (ArgumentOutOfRange argumentName argumentValue minimum maximum)
  else Ok tt.

(** *** The device

    [self.dev] is a USB device driven through [ctrl_transfer] only. The model
    keeps the log of the control transfers issued so far, oldest first, and
    the device's answers as a function of the request. *)
Inductive payload :=
| NoData
| DataOut (data : list Z)
| LengthIn (wLength : Z).

Record transfer := {
  bmRequestType : Z;
  bRequest : Z;
  wValue : Z;
  wIndex : Z;
  data_or_wLength : payload
}.

Record usb := {
  log : list transfer;
  reply : transfer -> list Z
}.

(** Computations that issue transfers and may raise: the state is threaded
    through, and an exception keeps the transfers issued before it. *)
Definition M (A : Type) : Type := usb -> result A * usb.

#[export] Instance M_ret : MRet M := fun A a d => (Ok a, d).
#[export] Instance M_bind : MBind M := fun A B f m d =>
  match m d with
  | (Ok a, d') => f a d'
  | (Raise e, d') => (Raise e, d')
  end.

Definition lift {A} (r : result A) : M A := fun d => (r, d).

(** [self.dev.ctrl_transfer(...)] *)
Definition ctrl_transfer (bmRequestType bRequest wValue wIndex : Z)
    (data_or_wLength : payload) : M (list Z) := fun d =>
  let t := {| bmRequestType := bmRequestType; bRequest := bRequest;
              wValue := wValue; wIndex := wIndex;
              data_or_wLength := data_or_wLength |} in
  (Ok (reply d t), {| log := log d ++ [t]; reply := reply d |}).

(** [for x in l: s = body(x, s)] in either monad. *)
Fixpoint for_each {T : Type -> Type} `{!MBind T, !MRet T} {A S : Type}
    (l : list A) (body : A -> S -> T S) (s : S) : T S :=
  match l with
  | [] => mret s
  | x :: l' => s' ← body x s; for_each l' body s'
  end.

(** [range(n)] *)
Definition range_ (n : Z) : list Z := seqZ 0 n.

(** Indexing of a Python list or byte array: negative indices count from
    the end, anything else out of range raises [IndexError]. *)
Definition py_index {A} (l : list A) (i : Z) : result nat :=
  let n := Z.of_nat (length l) in
  let k := if i <? 0 then i + n else i in
  if (k <? 0) || (n <=? k) then Raise IndexError else Ok (Z.to_nat k).

Definition getitem {A} (l : list A) (i : Z) : result A :=
  k ← py_index l i; of_option IndexError (l !! k).

(** [a[i] = x] on a [bytearray]: the index is checked first, then the value
    must be in [range(256)]. *)
Definition bytearray_setitem (a : list Z) (i x : Z) : result (list Z) :=
  k ← py_index a i;
  if (x <? 0) || (255 <? x) then Raise ValueError else Ok (<[k := x]> a).

(** [bytearray((v,) * n)] *)
Definition bytearray_fill (v : Z) (n : nat) : list Z := replicate n v.

(** [Opcode.QUIT] and [Opcode.CALL] as main.py evaluates them. The module
    binds no name [Opcode]: its imports are [time], [usb], the names of
    protocol.py, [UscSettings] and [ChannelSetting], and it defines [Range]
    and [Usc] only. Looking the name up raises NameError before the
    attribute is read. *)
Definition Opcode_QUIT : result Z := Raise (NameError "Opcode").
Definition Opcode_CALL : result Z := Raise (NameError "Opcode").

(** The attributes [Usc.__init__] derives from the product identifier. *)
Record Usc := {
  productID : Z;
  servoCount : Z;
  microMaestro : bool;
  subroutineOffsetBlocks : Z;
  maxScriptLength : Z
}.

Definition productIDArray : list Z := [0x0089; 0x008a; 0x008b; 0x008c].

Definition Usc_with_servoCount (productID servoCount : Z) : Usc :=
  let microMaestro := servoCount =? 6 in
  {| productID := productID;
     servoCount := servoCount;
     microMaestro := microMaestro;
     subroutineOffsetBlocks := if negb microMaestro then 512 else 64;
     maxScriptLength := if negb microMaestro then 8192 else 1024 |}.

(** [Usc.__init__], the part that selects the variant. *)
Definition Usc_init (productID : Z) : option Usc :=
  if productID =? 0x0089 then Some (Usc_with_servoCount productID 6)
  else if productID =? 0x008a then Some (Usc_with_servoCount productID 12)
  else if productID =? 0x008b then Some (Usc_with_servoCount productID 18)
  else if productID =? 0x008c then Some (Usc_with_servoCount productID 24)
  else None.

Section Methods.
Variable self : Usc.

(** [Usc.eraseScript] *)
Definition eraseScript : M unit :=
  ctrl_transfer 0x40 REQUEST_ERASE_SCRIPT 0 0 NoData;; mret tt.

(** [Usc.setScriptDone] *)
Definition setScriptDone (value : Z) : M unit :=
  ctrl_transfer 0x40 REQUEST_SET_SCRIPT_DONE value 0 NoData;; mret tt.

(** The inner loop of [Usc.writeScript]: one 16-byte block. *)
Definition writeScript_block_bytes (bytecode : list Z) (block : Z) : result (list Z) :=
  for_each (range_ 16) (fun j block_bytes =>
    if block * 16 + j <? Z.of_nat (length bytecode)
    then b ← getitem bytecode (block * 16 + j); bytearray_setitem block_bytes j b
    else bytearray_setitem block_bytes j 0xFF)
    (bytearray_fill 0x00 16).

(** [Usc.writeScript] *)
Definition writeScript (bytecode : list Z) : M unit :=
  for_each (range_ ((Z.of_nat (length bytecode) + 15) `div` 16)) (fun block (_ : unit) =>
    block_bytes ← lift (writeScript_block_bytes bytecode block);
    ctrl_transfer 0x40 REQUEST_WRITE_SCRIPT 0 block (DataOut block_bytes);;
    mret tt) tt.

(** The first loop of [Usc.setSubroutines]: the 256-byte address table. *)
Definition subroutineData_of (subroutineAddresses : list (string * Z))
    (subroutineCommands : gmap string Z) : result (list Z) :=
  for_each subroutineAddresses (fun '(name, value) subroutineData =>
    bytecode ← of_option (KeyError name) (subroutineCommands !! name);
    call ← Opcode_CALL;
    if bytecode =? call then Ok subroutineData
    else
      subroutineData ← bytearray_setitem subroutineData (2 * (bytecode - 128)) (value `mod` 256);
      bytearray_setitem subroutineData (2 * (bytecode - 128) + 1) (Z.shiftr value 8))
    (bytearray_fill 0xFF 256).

(** [Usc.setSubroutines] *)
Definition setSubroutines (subroutineAddresses : list (string * Z))
    (subroutineCommands : gmap string Z) : M unit :=
  subroutineData ← lift (subroutineData_of subroutineAddresses subroutineCommands);
  for_each (range_ 16) (fun block (_ : unit) =>
    block_bytes ← lift (for_each (range_ 16) (fun j block_bytes =>
      b ← getitem subroutineData (block * 16 + j); bytearray_setitem block_bytes j b)
      (bytearray_fill 0x00 16));
    ctrl_transfer 0x40 REQUEST_WRITE_SCRIPT 0 (block + subroutineOffsetBlocks self)
      (DataOut block_bytes);;
    mret tt) tt.

(** What [Usc.getVariables] returns, by facet. *)
Inductive variables_out :=
| OutMicroVariables (v : MicroMaestroVariables)
| OutMiniVariables (v : MiniMaestroVariables)
| OutServos (servos : list ServoStatus)
| OutRaw (values : list Z).

(** The loop that cuts the per-channel records out of a buffer. *)
Definition servos_of (servo_packed : list Z) : result (list ServoStatus) :=
  let size := struct_size ServoStatus_struct in
  for_each (range_ (servoCount self)) (fun i servos =>
    s ← of_option StructError
          (ServoStatus_init (slice servo_packed (Z.to_nat i * size) ((Z.to_nat i + 1) * size)));
    Ok (servos ++ [s])) [].

(** [Usc._getVariableMicroMaestro] *)
Definition _getVariableMicroMaestro : M (MicroMaestroVariables * list ServoStatus) :=
  let vsize := struct_size MicroMaestroVariables_struct in
  packed ← ctrl_transfer 0xC0 REQUEST_GET_VARIABLES 0 0
             (LengthIn (Z.of_nat vsize
                        + servoCount self * Z.of_nat (struct_size ServoStatus_struct)));
  let var_packed := slice packed 0 vsize in
  let servo_packed := drop vsize packed in
  variables ← lift (of_option StructError (MicroMaestroVariables_init var_packed));
  servos ← lift (servos_of servo_packed);
  mret (variables, servos).

(** [Usc._getVariableMiniMaestro] *)
Definition _getVariableMiniMaestro (out : string) : M variables_out :=
  if decide (out = "variables") then
    let size := Z.of_nat (struct_size MiniMaestroVariables_struct) in
    packed ← ctrl_transfer 0xC0 REQUEST_GET_VARIABLES 0 0 (LengthIn size);
    if negb (Z.of_nat (length packed) =? size)
    then lift (Raise (ShortRead (Z.of_nat (length packed)) size))
    else v ← lift (of_option StructError (MiniMaestroVariables_init packed));
         mret (OutMiniVariables v)
  else if decide (out = "servos") then
    let size := Z.of_nat (struct_size ServoStatus_struct) in
    packed ← ctrl_transfer 0xC0 REQUEST_GET_SERVO_SETTINGS 0 0
               (LengthIn (servoCount self * size));
    if negb (Z.of_nat (length packed) =? size * servoCount self)
    then lift (Raise (ShortRead (Z.of_nat (length packed)) size))
    else servos ← lift (servos_of packed); mret (OutServos servos)
  else if decide (out = "stack") then
    packed ← ctrl_transfer 0xC0 REQUEST_GET_STACK 0 0 (LengthIn (2 * MiniMaestroStackSize));
    mret (OutRaw packed)
  else if decide (out = "callStack") then
    packed ← ctrl_transfer 0xC0 REQUEST_GET_CALL_STACK 0 0
               (LengthIn (2 * MiniMaestroCallStackSize));
    mret (OutRaw packed)
  else lift (Raise (UnknownOutput out)).

(** [Usc.getVariables] *)
Definition getVariables (out : string) : M variables_out :=
  if microMaestro self then
    '(variables, servos) ← _getVariableMicroMaestro;
    if decide (out = "variables") then mret (OutMicroVariables variables)
    else if decide (out = "servos") then mret (OutServos servos)
    else if decide (out = "stack") then mret (OutRaw (Protocol.stack variables))
    else if decide (out = "callStack") then mret (OutRaw (Protocol.callStack variables))
    else lift (Raise (UnknownOutput out))
  else _getVariableMiniMaestro out.

(** [Usc._reinitialize]; the final [time.sleep] does not touch the device. *)
Definition _reinitialize (waitTime : Z) : M unit :=
  ctrl_transfer 0x40 REQUEST_REINITIALIZE 0 0 NoData;;
  if negb (microMaestro self) then getVariables "variables";; mret tt
  else mret tt.

(** [Usc._setRawParameterNoChecks] *)
Definition _setRawParameterNoChecks (parameter value numBytes : Z) : M unit :=
  let index := Z.shiftl numBytes 8 + parameter in
  ctrl_transfer 0x40 REQUEST_SET_PARAMETER value index NoData;; mret tt.

(** [Usc._setRawParameter] *)
Definition _setRawParameter (parameter value : Z) : M unit :=
  parameterRange ← lift (getRange parameter);
  lift (requireArgumentRange value (minimumValue parameterRange)
          (maximumValue parameterRange) parameter);;
  _setRawParameterNoChecks parameter value (bytes parameterRange).

(** [Usc.loadProgram] *)
Definition loadProgram (program : option BytecodeProgram) (CRC : bool) : M unit :=
  setScriptDone 1;;
  program ← lift (of_option NoProgram program);
  let byteList := byteList program in
  if Z.of_nat (length byteList) >? maxScriptLength self
  then lift (Raise (ScriptTooLong (Z.of_nat (length byteList))))
  else
    byteList ←
      (if Z.of_nat (length byteList) <? maxScriptLength self
       then quit ← lift Opcode_QUIT; mret (byteList ++ [quit])
       else mret byteList);
    eraseScript;;
    setSubroutines (subroutineAddresses program) (subroutineCommands program);;
    writeScript byteList;;
    (if CRC then _setRawParameter PARAMETER_SCRIPT_CRC (crc program) else mret tt);;
    _reinitialize 100.

(** [int(b)] on a Python [bool]. *)
Definition int_of_bool (b : bool) : Z := if b then 1 else 0.

(** The home value [Usc.setUscSettings] writes for a channel: the stored
    home mode, overridden for an input channel, selects 0, 1 or the stored
    home position. *)
Definition correctedHome (setting : ChannelSetting) : Z :=
  let correctedHomeMode := homeMode setting in
  let correctedHomeMode :=
    if decide (mode setting = Input) then Ignore else correctedHomeMode in
  if decide (correctedHomeMode = Off) then 0
  else if decide (correctedHomeMode = Ignore) then 1
  else home setting.

(** The variables the channel loop of [Usc.setUscSettings] updates. *)
Record masks := {
  ioMask : Z;
  outputMask : Z;
  channelModeBytes : list Z
}.

(** The body of the loop [for i in range(self.servoCount)] of
    [Usc.setUscSettings]. *)
Definition setUscSettings_channel (settings : UscSettings) (i : Z) (st : masks) : M masks :=
  setting ← lift (getitem (channelSettings settings) i);
  st ← lift (
    if microMaestro self then
      ioMask ←
        (if decide (mode setting = Input \/ mode setting = Output)
         then port ← _channelToPort i; Ok (Z.lor (ioMask st) (Z.shiftl 1 port))
         else Ok (ioMask st));
      outputMask ←
        (if decide (mode setting = Output)
         then port ← _channelToPort i; Ok (Z.lor (outputMask st) (Z.shiftl 1 port))
         else Ok (outputMask st));
      Ok {| ioMask := ioMask; outputMask := outputMask;
            channelModeBytes := channelModeBytes st |}
    else
      old ← getitem (channelModeBytes st) (Z.shiftr i 2);
      bs ← bytearray_setitem (channelModeBytes st) (Z.shiftr i 2)
             (Z.lor old (Z.shiftl (ChannelMode_value (mode setting))
                                  (Z.shiftl (Z.land i 3) 1)));
      Ok {| ioMask := ioMask st; outputMask := outputMask st;
            channelModeBytes := bs |});
  let home := correctedHome setting in
  _setRawParameter (specifyServo PARAMETER_SERVO0_HOME i) home;;
  _setRawParameter (specifyServo PARAMETER_SERVO0_MIN i) (int_truediv (minimum setting) 64);;
  _setRawParameter (specifyServo PARAMETER_SERVO0_MAX i) (int_truediv (maximum setting) 64);;
  _setRawParameter (specifyServo PARAMETER_SERVO0_NEUTRAL i) (neutral setting);;
  _setRawParameter (specifyServo PARAMETER_SERVO0_RANGE i) (int_truediv (range setting) 127);;
  exponentialSpeed ← lift (of_option OutOfFuel
                             (_normalSpeedToExponentialSpeed (Settings.speed setting)));
  _setRawParameter (specifyServo PARAMETER_SERVO0_SPEED i) exponentialSpeed;;
  _setRawParameter (specifyServo PARAMETER_SERVO0_ACCELERATION i)
    (Settings.acceleration setting);;
  mret st.

(** [Usc.setUscSettings] *)
Definition setUscSettings (settings : UscSettings) (newScript : bool) : M unit :=
  _setRawParameter PARAMETER_SERIAL_MODE (serialMode settings);;
  _setRawParameter PARAMETER_SERIAL_FIXED_BAUD_RATE
    (_convertBpsToSpbrg (fixedBaudRate settings));;
  _setRawParameter PARAMETER_SERIAL_ENABLE_CRC (int_of_bool (enableCrc settings));;
  _setRawParameter PARAMETER_SERIAL_NEVER_SUSPEND (int_of_bool (neverSuspend settings));;
  _setRawParameter PARAMETER_SERIAL_DEVICE_NUMBER (serialDeviceNumber settings);;
  _setRawParameter PARAMETER_SERIAL_MINI_SSC_OFFSET (miniSscOffset settings);;
  _setRawParameter PARAMETER_SERIAL_TIMEOUT (serialTimeout settings);;
  _setRawParameter PARAMETER_SCRIPT_DONE (int_of_bool (Settings.scriptDone settings));;
  (if microMaestro self then
     _setRawParameter PARAMETER_SERVOS_AVAILABLE (servosAvailable settings);;
     _setRawParameter PARAMETER_SERVO_PERIOD (servoPeriod settings)
   else
     _setRawParameter PARAMETER_MINI_MAESTRO_SERVO_PERIOD_L
       (Z.land (miniMaestroServoPeriod settings) 0xFF);;
     _setRawParameter PARAMETER_MINI_MAESTRO_SERVO_PERIOD_HU
       (Z.shiftr (miniMaestroServoPeriod settings) 8);;
     let multiplier :=
       if servoMultiplier settings <? 1 then 0
       else if servoMultiplier settings >? 256 then 255
       else servoMultiplier settings - 1 in
     _setRawParameter PARAMETER_SERVO_MULTIPLIER multiplier);;
  (if servoCount self >? 18
   then _setRawParameter PARAMETER_ENABLE_PULLUPS (int_of_bool (enablePullups settings))
   else mret tt);;
  st ← for_each (range_ (servoCount self)) (setUscSettings_channel settings)
         {| ioMask := 0; outputMask := 0; channelModeBytes := bytearray_fill 0 6 |};
  (if microMaestro self then
     _setRawParameter PARAMETER_IO_MASK_C (ioMask st);;
     _setRawParameter PARAMETER_OUTPUT_MASK_C (outputMask st)
   else
     for_each (range_ 6) (fun i (_ : unit) =>
       b ← lift (getitem (channelModeBytes st) i);
       _setRawParameter (PARAMETER_CHANNEL_MODES_0_3 + i) b) tt);;
  if newScript then loadProgram (bytecodeProgram settings) true else mret tt.

(** [Usc._getRawParameter]: [struct.unpack('<B', array)] or
    [struct.unpack('<H', array)] on the bytes the device answers. *)
Definition _getRawParameter (parameter : Z) : M Z :=
  parameterRange ← lift (getRange parameter);
  array ← ctrl_transfer 0xC0 REQUEST_GET_PARAMETER 0 parameter
            (LengthIn (bytes parameterRange));
  unpacked ← lift (of_option StructError
                     (struct_unpack (if bytes parameterRange =? 1 then [fmt_B] else [fmt_H])
                                    array));
  lift (getitem unpacked 0).

(** What [Usc.getUscSettings] stores for a raw home value. *)
Definition decodeHome (home : Z) : HomeMode * Z :=
  if home =? 0 then (Off, 0)
  else if home =? 1 then (Ignore, 0)
  else (Goto, home).

(** The integer [(channelModeBytes[i >> 2] >> ((i & 3) << 1)) & 3] as a
    member of [ChannelMode]. *)
Definition ChannelMode_of_value (v : Z) : ChannelMode :=
  if v =? 0 then Servo else if v =? 1 then ServoMultiplied
  else if v =? 2 then Output else Input.

(** The body of the channel loop of [Usc.getUscSettings]. *)
Definition getUscSettings_channel (ioMask outputMask : Z) (channelModeBytes : list Z)
    (i : Z) (acc : list ChannelSetting) : M (list ChannelSetting) :=
  mode ← lift (
    if microMaestro self then
      port ← _channelToPort i;
      let bitmask := Z.shiftl 1 port in
      if Z.land ioMask bitmask =? 0 then Ok Servo
      else if Z.land outputMask bitmask =? 0 then Ok Input
      else Ok Output
    else
      b ← getitem channelModeBytes (Z.shiftr i 2);
      Ok (ChannelMode_of_value (Z.land (Z.shiftr b (Z.shiftl (Z.land i 3) 1)) 3)));
  home ← _getRawParameter (specifyServo PARAMETER_SERVO0_HOME i);
  let '(homeMode, home) := decodeHome home in
  rawMin ← _getRawParameter (specifyServo PARAMETER_SERVO0_MIN i);
  rawMax ← _getRawParameter (specifyServo PARAMETER_SERVO0_MAX i);
  neutral ← _getRawParameter (specifyServo PARAMETER_SERVO0_NEUTRAL i);
  rawRange ← _getRawParameter (specifyServo PARAMETER_SERVO0_RANGE i);
  rawSpeed ← _getRawParameter (specifyServo PARAMETER_SERVO0_SPEED i);
  acceleration ← _getRawParameter (specifyServo PARAMETER_SERVO0_ACCELERATION i);
  mret (acc ++ [{| name := ""; mode := mode; homeMode := homeMode; home := home;
                   minimum := 64 * rawMin; maximum := 64 * rawMax;
                   neutral := neutral; range := 127 * rawRange;
                   Settings.speed := _exponentialSpeedToNormalSpeed rawSpeed;
                   Settings.acceleration := acceleration |}]).

(** [Usc.getUscSettings] *)
Definition getUscSettings : M UscSettings :=
  let settings := UscSettings_init in
  serialMode ← _getRawParameter PARAMETER_SERIAL_MODE;
  spbrg ← _getRawParameter PARAMETER_SERIAL_FIXED_BAUD_RATE;
  fixedBaudRate ← lift (_convertSpbrgToBps spbrg);
  enableCrc ← _getRawParameter PARAMETER_SERIAL_ENABLE_CRC;
  neverSuspend ← _getRawParameter PARAMETER_SERIAL_NEVER_SUSPEND;
  serialDeviceNumber ← _getRawParameter PARAMETER_SERIAL_DEVICE_NUMBER;
  miniSscOffset ← _getRawParameter PARAMETER_SERIAL_MINI_SSC_OFFSET;
  serialTimeout ← _getRawParameter PARAMETER_SERIAL_TIMEOUT;
  scriptDone ← _getRawParameter PARAMETER_SCRIPT_DONE;
  '(servosAvailable, servoPeriod, miniMaestroServoPeriod, servoMultiplier) ←
    (if microMaestro self then
       servosAvailable ← _getRawParameter PARAMETER_SERVOS_AVAILABLE;
       servoPeriod ← _getRawParameter PARAMETER_SERVO_PERIOD;
       mret (servosAvailable, servoPeriod,
             Settings.miniMaestroServoPeriod settings, Settings.servoMultiplier settings)
     else
       hu ← _getRawParameter PARAMETER_MINI_MAESTRO_SERVO_PERIOD_HU;
       l ← _getRawParameter PARAMETER_MINI_MAESTRO_SERVO_PERIOD_L;
       m ← _getRawParameter PARAMETER_SERVO_MULTIPLIER;
       mret (Settings.servosAvailable settings, Settings.servoPeriod settings,
             Z.lor (Z.shiftl hu 8) l, m + 1));
  enablePullups ←
    (if servoCount self >? 18
     then v ← _getRawParameter PARAMETER_ENABLE_PULLUPS; mret (negb (v =? 0))
     else mret (Settings.enablePullups settings));
  '(ioMask, outputMask, channelModeBytes) ←
    (if microMaestro self then
       ioMask ← _getRawParameter PARAMETER_IO_MASK_C;
       outputMask ← _getRawParameter PARAMETER_OUTPUT_MASK_C;
       mret (ioMask, outputMask, [])
     else
       bs ← for_each (range_ 6) (fun i bs =>
              b ← _getRawParameter (PARAMETER_CHANNEL_MODES_0_3 + i); mret (bs ++ [b])) [];
       mret (0, 0, bs));
  channelSettings ← for_each (range_ (servoCount self))
                      (getUscSettings_channel ioMask outputMask channelModeBytes) [];
  mret {| servosAvailable := servosAvailable;
          servoPeriod := servoPeriod;
          miniMaestroServoPeriod := miniMaestroServoPeriod;
          servoMultiplier := servoMultiplier;
          serialMode := serialMode;
          fixedBaudRate := fixedBaudRate;
          enableCrc := negb (enableCrc =? 0);
          neverSuspend := negb (neverSuspend =? 0);
          serialDeviceNumber := serialDeviceNumber;
          miniSscOffset := miniSscOffset;
          serialTimeout := serialTimeout;
          Settings.scriptDone := negb (scriptDone =? 0);
          channelSettings := channelSettings;
          enablePullups := enablePullups;
          scriptInconsistent := Settings.scriptInconsistent settings;
          script := Settings.script settings;
          bytecodeProgram := Settings.bytecodeProgram settings |}.

(** The warnings of [Usc.fixSettings], with the numbers their texts
    format. *)
Inductive warning :=
| TooManyChannels (loaded device : Z)
| TooFewChannels (loaded device : Z)
| SerialDeviceNumberChanged.

(** The [while len(settings) < self.servoCount] loop of [Usc.fixSettings];
    one unit of fuel per iteration. *)
Fixpoint fixSettings_pad (fuel : nat) (settings : UscSettings) : option UscSettings :=
  if len settings <? servoCount self then
    match fuel with
    | O => None
    | S fuel' =>
        let cs := ChannelSetting_init in
        let cs :=
          if microMaestro self && (servosAvailable settings <=? len settings)
          then {| name := name cs; mode := Input; homeMode := homeMode cs; home := home cs;
                  minimum := minimum cs; maximum := maximum cs; neutral := neutral cs;
                  range := range cs; Settings.speed := Settings.speed cs;
                  Settings.acceleration := Settings.acceleration cs |}
          else cs in
        fixSettings_pad fuel' (set_channelSettings settings (channelSettings settings ++ [cs]))
    end
  else Some settings.

(** The body of the loop [for cs in settings.channelSettings] of
    [Usc.fixSettings]. *)
Definition fixSettings_channel (cs : ChannelSetting) : ChannelSetting :=
  if decide (mode cs = Input) then
    {| name := name cs; mode := mode cs; homeMode := Ignore; home := home cs;
       minimum := 0; maximum := 1024; neutral := 1024; range := 1905;
       Settings.speed := 0; Settings.acceleration := 0 |}
  else if decide (mode cs = Output) then
    {| name := name cs; mode := mode cs; homeMode := homeMode cs; home := home cs;
       minimum := 3986; maximum := 8000; neutral := 6000; range := 1905;
       Settings.speed := 0; Settings.acceleration := 0 |}
  else cs.

(** [Usc.fixSettings]: the settings object is updated in place and the
    warnings are returned; here both are returned. The padding loop runs
    [servoCount - len(settings)] times, which is the fuel it is given. *)
Definition fixSettings (settings : UscSettings) : option (UscSettings * list warning) :=
  let warnings := [] in
  let '(settings, warnings) :=
    if len settings >? servoCount self
    then (set_channelSettings settings
            (take (Z.to_nat (servoCount self)) (channelSettings settings)),
          warnings ++ [TooManyChannels (len settings) (servoCount self)])
    else (settings, warnings) in
  '(settings, warnings) ←
    (if len settings <? servoCount self
     then settings' ← fixSettings_pad (Z.to_nat (servoCount self - len settings)) settings;
          Some (settings', warnings ++ [TooFewChannels (len settings) (servoCount self)])
     else Some (settings, warnings));
  let settings :=
    set_channelSettings settings (fixSettings_channel <$> channelSettings settings) in
  if serialDeviceNumber settings >=? 128
  then Some (set_serialDeviceNumber settings 12, warnings ++ [SerialDeviceNumberChanged])
  else Some (settings, warnings).

(** [Usc.getProductID] *)
Definition getProductID : Z := productID self.

(** [Usc.stackSize] and [Usc.callStackSize] *)
Definition stackSize : Z :=
  if microMaestro self then MicroMaestroStackSize else MiniMaestroStackSize.

Definition callStackSize : Z :=
  if microMaestro self then MicroMaestroCallStackSize else MiniMaestroCallStackSize.

(** [Usc.microsecondsToPosition] *)
Definition microsecondsToPosition (us : Z) : Z := us * 4.

(** The two attributes [_privateFirmwareVersionMajor] and
    [_privateFirmwareVersionMinor] of the object; [Usc.__init__] sets both
    to 0xFF. *)
Record firmware := {
  _privateFirmwareVersionMajor : Z;
  _privateFirmwareVersionMinor : Z
}.

Definition firmware_init : firmware :=
  {| _privateFirmwareVersionMajor := 0xFF; _privateFirmwareVersionMinor := 0xFF |}.

(** [Usc.getFirmwareVersion]: the attributes are threaded explicitly, since
    the minor number is assigned before the byte of the major number is
    looked up, and an exception keeps what has been assigned. *)
Definition getFirmwareVersion (fw : firmware) (d : usb) : result unit * firmware * usb :=
  match ctrl_transfer 0x80 6 0x0100 0x0000 (LengthIn 0x0012) d with
  | (Raise e, d') => (Raise e, fw, d')
  | (Ok buffer, d') =>
      match getitem buffer 12 with
      | Raise e => (Raise e, fw, d')
      | Ok b12 =>
          let fw := {| _privateFirmwareVersionMajor := _privateFirmwareVersionMajor fw;
                       _privateFirmwareVersionMinor :=
                         Z.land b12 0xF + Z.land (Z.shiftr b12 4) 0xF * 10 |} in
          match getitem buffer 13 with
          | Raise e => (Raise e, fw, d')
          | Ok b13 =>
              (Ok tt,
               {| _privateFirmwareVersionMajor :=
                    Z.land b13 0xF + Z.land (Z.shiftr b13 4) 0xF * 10;
                  _privateFirmwareVersionMinor := _privateFirmwareVersionMinor fw |},
               d')
          end
      end
  end.

(** [Usc.firmwareVersionMajor] and [Usc.firmwareVersionMinor] *)
Definition firmwareVersionMajor (fw : firmware) (d : usb) : result Z * firmware * usb :=
  if _privateFirmwareVersionMajor fw =? 0xFF then
    match getFirmwareVersion fw d with
    | (Ok _, fw', d') => (Ok (_privateFirmwareVersionMajor fw'), fw', d')
    | (Raise e, fw', d') => (Raise e, fw', d')
    end
  else (Ok (_privateFirmwareVersionMajor fw), fw, d).

Definition firmwareVersionMinor (fw : firmware) (d : usb) : result Z * firmware * usb :=
  if _privateFirmwareVersionMinor fw =? 0xFF then
    match getFirmwareVersion fw d with
    | (Ok _, fw', d') => (Ok (_privateFirmwareVersionMinor fw'), fw', d')
    | (Raise e, fw', d') => (Raise e, fw', d')
    end
  else (Ok (_privateFirmwareVersionMinor fw), fw, d).

(** [Usc.restartScript], [Usc.startBootloader], [Usc.clearErrors] *)
Definition restartScript : M unit :=
  ctrl_transfer 0x40 REQUEST_RESTART_SCRIPT 0 0 NoData;; mret tt.

Definition startBootloader : M unit :=
  ctrl_transfer 0x40 REQUEST_START_BOOTLOADER 0 0 NoData;; mret tt.

Definition clearErrors : M unit :=
  ctrl_transfer 0x40 REQUEST_CLEAR_ERRORS 0 0 NoData;; mret tt.

(** [Usc.reinitalize] *)
Definition reinitalize : M unit := _reinitialize 50.

(** [Usc.setTarget], [Usc.setSpeed], [Usc.setAcceleration], [Usc.setPWM] *)
Definition setTarget (servo value : Z) : M unit :=
  ctrl_transfer 0x40 REQUEST_SET_TARGET value servo NoData;; mret tt.

Definition setSpeed (servo value : Z) : M unit :=
  ctrl_transfer 0x40 REQUEST_SET_SERVO_VARIABLE value servo NoData;; mret tt.

Definition setAcceleration (servo value : Z) : M unit :=
  ctrl_transfer 0x40 REQUEST_SET_SERVO_VARIABLE value (Z.lor servo 0x80) NoData;; mret tt.

Definition setPWM (dutyCycle period : Z) : M unit :=
  ctrl_transfer 0x40 REQUEST_SET_PWM dutyCycle period NoData;; mret tt.

(** [Usc.disablePWM] *)
Definition disablePWM : M unit :=
  if getProductID =? 0x008a then setTarget 8 0 else setTarget 12 0.

(** [Usc.restoreDefaultConfiguration] *)
Definition restoreDefaultConfiguration : M unit :=
  _setRawParameterNoChecks PARAMETER_INITIALIZED 0xFF 1;;
  _reinitialize 1500.

End Methods.

End Usc.

(** ** Definitions the properties are stated with *)

Module Props.
Import Protocol Settings Usc.

(** The identifiers [Usc.getRange] lists one by one, in the order of its
    tests. *)
Definition deviceWideParameters : list Z :=
  [PARAMETER_INITIALIZED; PARAMETER_SERVOS_AVAILABLE; PARAMETER_SERVO_PERIOD;
   PARAMETER_MINI_MAESTRO_SERVO_PERIOD_L; PARAMETER_SERVO_MULTIPLIER;
   PARAMETER_CHANNEL_MODES_0_3; PARAMETER_CHANNEL_MODES_4_7;
   PARAMETER_CHANNEL_MODES_8_11; PARAMETER_CHANNEL_MODES_12_15;
   PARAMETER_CHANNEL_MODES_16_19; PARAMETER_CHANNEL_MODES_20_23;
   PARAMETER_ENABLE_PULLUPS;
   PARAMETER_MINI_MAESTRO_SERVO_PERIOD_HU; PARAMETER_SERIAL_TIMEOUT;
   PARAMETER_SERIAL_FIXED_BAUD_RATE; PARAMETER_SCRIPT_CRC;
   PARAMETER_SERIAL_NEVER_SUSPEND; PARAMETER_SERIAL_ENABLE_CRC; PARAMETER_SCRIPT_DONE;
   PARAMETER_SERIAL_DEVICE_NUMBER; PARAMETER_SERIAL_MODE;
   PARAMETER_SERIAL_BAUD_DETECT_TYPE; PARAMETER_SERIAL_MINI_SSC_OFFSET].

Definition listed (parameterId : Z) : bool := Zmem parameterId deviceWideParameters.

(** The servo-0 slot [Usc.getRange] folds an identifier onto. *)
Definition foldedSlot (parameterId : Z) : Z :=
  ((parameterId - PARAMETER_SERVO0_HOME) mod 9) + PARAMETER_SERVO0_HOME.

Definition is_ok {A} (r : result A) : bool :=
  match r with Ok _ => true | Raise _ => false end.

(** The wording "round((12_000_000 - bps/2) / bps)": the integer nearest to
    the exact quotient a / b for b > 0, ties to the even neighbour as
    Python's [round] does. *)
Definition round_nearest (a b : Z) : Z :=
  let q := a `div` b in
  let r := a `mod` b in
  if 2 * r <? b then q
  else if b <? 2 * r then q + 1
  else if Z.even q then q else q + 1.

Definition rounded_BpsToSpbrg (bps : Z) : Z :=
  if bps =? 0 then 0
  else round_nearest (2 * INSTRUCTION_FREQUENCY - bps) (2 * bps).

(** A servo channel whose home mode is Goto. *)
Definition goto_channel (home : Z) : ChannelSetting :=
  {| name := ""; mode := Servo; homeMode := Goto; home := home;
     minimum := 3968; maximum := 8000; neutral := 6000; range := 1905;
     Settings.speed := 0; Settings.acceleration := 0 |}.

(** The transfer [Usc._setRawParameterNoChecks] issues. *)
Definition set_parameter_transfer (parameter value numBytes : Z) : transfer :=
  {| bmRequestType := 0x40; bRequest := REQUEST_SET_PARAMETER; wValue := value;
     wIndex := Z.shiftl numBytes 8 + parameter; data_or_wLength := NoData |}.

(** [d'] is [d] after some more transfers, all of which satisfy [P]. *)
Definition extends_with (P : transfer -> Prop) (d d' : usb) : Prop :=
  exists l, log d' = log d ++ l /\ reply d' = reply d /\ Forall P l.

(** Whatever its outcome, [m] only adds transfers that satisfy [P]. *)
Definition issues {A} (P : transfer -> Prop) (m : M A) : Prop :=
  forall d, extends_with P d (m d).2.

(** A parameter write on the wire carries a value inside the range
    [Usc.getRange] declares for its parameter. *)
Definition range_checked (t : transfer) : Prop :=
  bRequest t = REQUEST_SET_PARAMETER ->
  exists parameter r,
    getRange parameter = Ok r /\
    t = set_parameter_transfer parameter (wValue t) (bytes r) /\
    minimumValue r <= wValue t <= maximumValue r.

(** The bits of [m] are the ports of the channels below [k] whose setting
    satisfies [Q]. *)
Definition mask_bits (Q : ChannelSetting -> Prop) (cs : list ChannelSetting)
    (k m : Z) : Prop :=
  forall p, Z.testbit m p = true <->
    exists j s, 0 <= j < k /\ cs !! Z.to_nat j = Some s /\
                _channelToPort j = Ok p /\ Q s.

Definition valid_byte (b : Z) : Prop := 0 <= b <= 255.

(** The transfers of [Usc.eraseScript] and of one block of script
    memory. *)
Definition erase_script_transfer : transfer :=
  {| bmRequestType := 0x40; bRequest := REQUEST_ERASE_SCRIPT; wValue := 0;
     wIndex := 0; data_or_wLength := NoData |}.

Definition write_script_transfer (block : Z) (data : list Z) : transfer :=
  {| bmRequestType := 0x40; bRequest := REQUEST_WRITE_SCRIPT; wValue := 0;
     wIndex := block; data_or_wLength := DataOut data |}.

Definition transfer_data (t : transfer) : list Z :=
  match data_or_wLength t with DataOut data => data | _ => [] end.

(** [l] followed by as many 0xFF as it takes to fill its last 16-byte
    block. *)
Definition pad16 (l : list Z) : list Z :=
  l ++ replicate (Z.to_nat ((- Z.of_nat (length l)) `mod` 16)) 0xFF.

(** The [k]-th 16-byte block of [l], and the transfers that write the
    blocks of [l] one after the other from block number [base] on. *)
Definition block_of (l : list Z) (k : Z) : list Z :=
  take 16 (drop (Z.to_nat (16 * k)) l).

Definition block_transfers (base : Z) (l : list Z) : list transfer :=
  (fun k => write_script_transfer (k + base) (block_of l k))
    <$> seqZ 0 (Z.of_nat (length l) `div` 16).

(** The transfer [Usc.setScriptDone] issues. *)
Definition set_script_done_transfer (value : Z) : transfer :=
  {| bmRequestType := 0x40; bRequest := REQUEST_SET_SCRIPT_DONE; wValue := value;
     wIndex := 0; data_or_wLength := NoData |}.


(** The program of the scenario: subroutine "foo" at address 300, bound to
    opcode 130; two bytes of code. *)
Definition foo_program : BytecodeProgram :=
  {| byteList := [130; 5]; subroutineAddresses := [("foo"%string, 300)];
     subroutineCommands := {["foo"%string := 130]}; crc := 0 |}.

(** Fields of a buffer by byte offset: one byte, an unsigned and a signed
    little-endian 16-bit value. *)
Definition byte_at (packed : list Z) (offset : nat) : Z := default 0 (packed !! offset).

Definition u16_at (packed : list Z) (offset : nat) : Z :=
  le16 (byte_at packed offset) (byte_at packed (offset + 1)).

Definition s16_at (packed : list Z) (offset : nat) : Z := signed16 (u16_at packed offset).

(** The read [Usc._getVariableMicroMaestro] issues. *)
Definition get_variables_transfer (wLength : Z) : transfer :=
  {| bmRequestType := 0xC0; bRequest := REQUEST_GET_VARIABLES; wValue := 0;
     wIndex := 0; data_or_wLength := LengthIn wLength |}.

(** The wording "3 reserved bytes" as a format: ['<BBH3B32h10HBB']. *)
Definition three_reserved_bytes_struct : list fmt_item :=
  [fmt_B; fmt_B; fmt_H] ++ replicate 3 fmt_B ++ replicate 32 fmt_h
    ++ replicate 10 fmt_H ++ [fmt_B; fmt_B].

(** A device that answers every read with the bytes 0, 1, ..., 137. *)
Definition counting_device : usb := {| log := []; reply := fun _ => seqZ 0 138 |}.

(** A device that answers every request with no bytes, before any
    transfer. *)
Definition silent_device : usb := {| log := []; reply := fun _ => [] |}.

(** [ChannelSetting()] with another mode. *)
Definition channel_with_mode (m : ChannelMode) : ChannelSetting :=
  {| name := ""; mode := m; homeMode := Off; home := 6000;
     minimum := 3968; maximum := 8000; neutral := 6000; range := 1905;
     Settings.speed := 0; Settings.acceleration := 0 |}.

(** [UscSettings()] with six channels: four servos, an input on channel 4
    and an output on channel 5. *)
Definition six_channel_settings : UscSettings :=
  set_channelSettings UscSettings_init
    [ChannelSetting_init; ChannelSetting_init; ChannelSetting_init; ChannelSetting_init;
     channel_with_mode Input; channel_with_mode Output].

(** The channel settings the padding loop of [Usc.fixSettings] appends:
    [ChannelSetting()], possibly with the mode set to Input. *)
Definition is_padding (cs : ChannelSetting) : Prop :=
  cs = ChannelSetting_init \/ cs = channel_with_mode Input.

Definition micro : Usc := Usc_with_servoCount 0x0089 6.
Definition mini12 : Usc := Usc_with_servoCount 0x008a 12.

(** The descriptor read of [Usc.getFirmwareVersion]. *)
Definition descriptor_transfer : transfer :=
  {| bmRequestType := 0x80; bRequest := 6; wValue := 0x0100; wIndex := 0x0000;
     data_or_wLength := LengthIn 0x0012 |}.

(** What the firmware-version code makes of one byte: the low nibble plus
    ten times the high nibble. *)
Definition bcd_value (b : Z) : Z := Z.land b 0xF + Z.land (Z.shiftr b 4) 0xF * 10.

(** A device that answers the descriptor read with eighteen bytes, the
    thirteenth and fourteenth of which are 0x02 and 0x01 (version 1.02). *)
Definition versioned_device : usb :=
  {| log := [];
     reply := fun _ => [18; 1; 0; 2; 0; 0; 0; 8; 0xfb; 0x1f; 0x89; 0; 0x02; 0x01; 1; 2; 5; 1] |}.

(** The transfer of [Usc.setSpeed] and [Usc.setAcceleration]. *)
Definition servo_variable_transfer (value index : Z) : transfer :=
  {| bmRequestType := 0x40; bRequest := REQUEST_SET_SERVO_VARIABLE; wValue := value;
     wIndex := index; data_or_wLength := NoData |}.

(** The values one item of a struct format can take. *)
Definition item_range (c : fmt_item) (v : Z) : Prop :=
  match c with
  | fmt_B => 0 <= v <= 255
  | fmt_H => 0 <= v <= 65535
  | fmt_h => -32768 <= v <= 32767
  end.

(** The four facet names [Usc.getVariables] knows. *)
Definition known_facet (out : string) : Prop :=
  out = "variables"%string \/ out = "servos"%string \/ out = "stack"%string
  \/ out = "callStack"%string.

(** A compact device that answers the status read with 138 zero bytes. *)
Definition idle_device : usb := {| log := []; reply := fun _ => replicate 138 0 |}.

(** A decoded channel record whose fields are in the ranges of its
    format. *)
Definition status_in_range (s : ServoStatus) : Prop :=
  0 <= position s <= 65535 /\ 0 <= target s <= 65535 /\
  0 <= Protocol.speed s <= 65535 /\ 0 <= Protocol.acceleration s <= 255.

(** A program of 1024 bytes whose only subroutine has no opcode. *)
Definition orphan_program : BytecodeProgram :=
  {| byteList := replicate 1024 5; subroutineAddresses := [("foo"%string, 300)];
     subroutineCommands := ∅; crc := 0 |}.

(** The read [Usc._getRawParameter] issues. *)
Definition get_parameter_transfer (parameter numBytes : Z) : transfer :=
  {| bmRequestType := 0xC0; bRequest := REQUEST_GET_PARAMETER; wValue := 0;
     wIndex := parameter; data_or_wLength := LengthIn numBytes |}.

(** A device that answers every read with the two bytes 0x70, 0x17. *)
Definition two_byte_device : usb := {| log := []; reply := fun _ => [0x70; 0x17] |}.

(** Settings for the compact variant with two channels too many and a
    serial device number of 200. *)
Definition unfit_settings : UscSettings :=
  set_serialDeviceNumber
    (set_channelSettings UscSettings_init (replicate 8 (channel_with_mode Output))) 200.

(** *** The parameter store seen through the transfers

    The value the parameter writes of a log leave at a parameter: that of
    the last write whose index has the parameter in its low byte. *)
Fixpoint stored (l : list transfer) (p : Z) : option Z :=
  match l with
  | [] => None
  | t :: l' =>
      match stored l' p with
      | Some v => Some v
      | None =>
          if (bRequest t =? REQUEST_SET_PARAMETER) && (wIndex t `mod` 256 =? p)
          then Some (wValue t) else None
      end
  end.

(** A value as the one or two little-endian bytes of a parameter. *)
Definition le_bytes (numBytes v : Z) : list Z :=
  if numBytes =? 1 then [v `mod` 256] else [v `mod` 256; (v `div` 256) `mod` 256].

(** A device that answers the read of a parameter with the value the
    writes of [l] have left there. *)
Definition remembers (l : list transfer) (answer : transfer -> list Z) : Prop :=
  forall p numBytes v,
    stored l p = Some v -> answer (get_parameter_transfer p numBytes) = le_bytes numBytes v.

Definition echo_device (l : list transfer) : usb :=
  {| log := [];
     reply := fun t =>
       match stored l (wIndex t), data_or_wLength t with
       | Some v, LengthIn n => le_bytes n v
       | _, _ => []
       end |}.

(** What [getUscSettings] makes of a channel that [setUscSettings] has
    written: the name is not stored, the compact variant has no multiplied
    servo mode, and the numeric fields pass through their raw values. *)
Definition written_mode (self : Usc) (m : ChannelMode) : ChannelMode :=
  if microMaestro self then match m with ServoMultiplied => Servo | _ => m end else m.

Definition read_back_channel (self : Usc) (c : ChannelSetting) : ChannelSetting :=
  {| name := "";
     mode := written_mode self (mode c);
     homeMode := (decodeHome (correctedHome c)).1;
     home := (decodeHome (correctedHome c)).2;
     minimum := 64 * int_truediv (minimum c) 64;
     maximum := 64 * int_truediv (maximum c) 64;
     neutral := neutral c;
     range := 127 * int_truediv (range c) 127;
     Settings.speed :=
       _exponentialSpeedToNormalSpeed
         (default 0 (_normalSpeedToExponentialSpeed (Settings.speed c)));
     Settings.acceleration := Settings.acceleration c |}.

(** The seven parameter writes of a channel, in the order of the loop. *)
Definition channel_transfers (i : Z) (c : ChannelSetting) (exponentialSpeed : Z)
  : list transfer :=
  [set_parameter_transfer (specifyServo PARAMETER_SERVO0_HOME i) (correctedHome c) 2;
   set_parameter_transfer (specifyServo PARAMETER_SERVO0_MIN i)
     (int_truediv (minimum c) 64) 1;
   set_parameter_transfer (specifyServo PARAMETER_SERVO0_MAX i)
     (int_truediv (maximum c) 64) 1;
   set_parameter_transfer (specifyServo PARAMETER_SERVO0_NEUTRAL i) (neutral c) 2;
   set_parameter_transfer (specifyServo PARAMETER_SERVO0_RANGE i)
     (int_truediv (range c) 127) 1;
   set_parameter_transfer (specifyServo PARAMETER_SERVO0_SPEED i) exponentialSpeed 1;
   set_parameter_transfer (specifyServo PARAMETER_SERVO0_ACCELERATION i)
     (Settings.acceleration c) 1].

(** The raw value a channel leaves at the offset [o] of its nine parameter
    slots; [b] is its encoded speed. *)
Definition channel_raw (c : ChannelSetting) (b : Z) (o : Z) : option Z :=
  if o =? 0 then Some (correctedHome c)
  else if o =? 2 then Some (int_truediv (minimum c) 64)
  else if o =? 3 then Some (int_truediv (maximum c) 64)
  else if o =? 4 then Some (neutral c)
  else if o =? 6 then Some (int_truediv (range c) 127)
  else if o =? 7 then Some b
  else if o =? 8 then Some (Settings.acceleration c)
  else None.

(** The encoded speed of a channel (the encoder always returns). *)
Definition encoded_speed (c : ChannelSetting) : Z :=
  default 0 (_normalSpeedToExponentialSpeed (Settings.speed c)).

(** The writes of the channels below [n], channel after channel. *)
Definition channels_transfers (cs : list ChannelSetting) (n : Z) : list transfer :=
  concat ((fun i => match cs !! Z.to_nat i with
                    | Some c => channel_transfers i c (encoded_speed c)
                    | None => []
                    end) <$> seqZ 0 n).

(** The raw values of a channel are within the widths of its parameters. *)
Definition channel_in_range (c : ChannelSetting) : Prop :=
  0 <= correctedHome c <= 32440 /\ 0 <= int_truediv (minimum c) 64 <= 255 /\
  0 <= int_truediv (maximum c) 64 <= 255 /\ 0 <= neutral c <= 32440 /\
  1 <= int_truediv (range c) 127 <= 50 /\ 0 <= encoded_speed c <= 255 /\
  0 <= Settings.acceleration c <= 255.

(** The value [v] passes the range check of parameter [p]. *)
Definition in_range (p v : Z) : Prop :=
  exists r, getRange p = Ok r /\ minimumValue r <= v <= maximumValue r.

(** The writes of [l] have left the checked value [v] at parameter [p]. *)
Definition written (l : list transfer) (p v : Z) : Prop :=
  stored l p = Some v /\ in_range p v.

(** On every device that remembers the writes of [l], the computation [m]
    returns [v] and leaves the answers of the device as they were. *)
Definition returns {A} (l : list transfer) (m : M A) (v : A) : Prop :=
  forall dr, remembers l (reply dr) ->
    exists dr', m dr = (Ok v, dr') /\ reply dr' = reply dr.

Definition result_default {A} (a : A) (r : result A) : A :=
  match r with Ok x => x | Raise _ => a end.

(** What [getUscSettings] makes of the settings that [setUscSettings] has
    written: the fields of the other variant, the script fields and, below
    nineteen channels, the pull-up flag are those of [UscSettings()]; the
    baud rate has gone through the divisor, the multiplier through its
    clamp, and the channel list holds one channel per servo. *)
Definition read_back (self : Usc) (s : UscSettings) : UscSettings :=
  let init := UscSettings_init in
  {| servosAvailable :=
       if microMaestro self then servosAvailable s else servosAvailable init;
     servoPeriod := if microMaestro self then servoPeriod s else servoPeriod init;
     miniMaestroServoPeriod :=
       if microMaestro self then miniMaestroServoPeriod init else miniMaestroServoPeriod s;
     servoMultiplier :=
       if microMaestro self then servoMultiplier init
       else if servoMultiplier s <? 1 then 1
       else if servoMultiplier s >? 256 then 256
       else servoMultiplier s;
     serialMode := serialMode s;
     fixedBaudRate :=
       result_default 0 (_convertSpbrgToBps (_convertBpsToSpbrg (fixedBaudRate s)));
     enableCrc := enableCrc s;
     neverSuspend := neverSuspend s;
     serialDeviceNumber := serialDeviceNumber s;
     miniSscOffset := miniSscOffset s;
     serialTimeout := serialTimeout s;
     Settings.scriptDone := Settings.scriptDone s;
     channelSettings :=
       read_back_channel self <$> take (Z.to_nat (servoCount self)) (channelSettings s);
     enablePullups :=
       if servoCount self >? 18 then enablePullups s else enablePullups init;
     scriptInconsistent := scriptInconsistent init;
     script := script init;
     bytecodeProgram := bytecodeProgram init |}.

(** The two bits of channel [j] in the packed channel modes of the extended
    variant: [(channelModeBytes[j >> 2] >> ((j & 3) << 1)) & 3], with 0 for
    a byte that is not there. *)
Definition mode_field (channelModeBytes : list Z) (j : Z) : Z :=
  Z.land (Z.shiftr (default 0 (channelModeBytes !! Z.to_nat (Z.shiftr j 2)))
                   (Z.shiftl (Z.land j 3) 1)) 3.

(** [UscSettings()] with twelve channels: an input on channel 4, an output
    on channel 5, a multiplied servo on channel 6 and servos elsewhere. *)
Definition twelve_channel_settings : UscSettings :=
  set_channelSettings UscSettings_init
    (replicate 4 ChannelSetting_init
       ++ [channel_with_mode Input; channel_with_mode Output;
           channel_with_mode ServoMultiplied]
       ++ replicate 5 ChannelSetting_init).

(** A status read: a device-to-host transfer of [wLength] bytes with value
    and index 0. *)
Definition status_read_transfer (request wLength : Z) : transfer :=
  {| bmRequestType := 0xC0; bRequest := request; wValue := 0; wIndex := 0;
     data_or_wLength := LengthIn wLength |}.













End Props.

Import Protocol Settings Usc Props.

(** ** The definitions on concrete inputs *)

Example getRange_servo5_range : getRange (specifyServo PARAMETER_SERVO0_RANGE 5)
  = Ok {| bytes := 1; minimumValue := 1; maximumValue := 50 |}.
Proof. reflexivity. Qed.

Example getRange_servo0_home_high_byte : getRange 31 = Raise (InvalidParameterId 31).
Proof. reflexivity. Qed.

Example normalSpeed_160 : _normalSpeedToExponentialSpeed 160 = Some 163.
Proof. reflexivity. Qed.

Example normalSpeed_saturates : _normalSpeedToExponentialSpeed 7999 = Some 0xFF.
Proof. reflexivity. Qed.

Example exponentialSpeed_163 : _exponentialSpeedToNormalSpeed 163 = 160.
Proof. reflexivity. Qed.

Example convertBpsToSpbrg_9600 : _convertBpsToSpbrg 9600 = 1249.
Proof. reflexivity. Qed.

Example convertSpbrgToBps_1249 : _convertSpbrgToBps 1249 = Ok 9600.
Proof. reflexivity. Qed.

Example channelToPort_5 : _channelToPort 5 = Ok 7.
Proof. reflexivity. Qed.

Example unpack_servo_status :
  ServoStatus_init [0x70; 0x17; 0x40; 0x1F; 0x0A; 0x00; 0x05]
  = Some {| position := 6000; target := 8000; Protocol.speed := 10;
            Protocol.acceleration := 5 |}.
Proof. reflexivity. Qed.

(** ** The parameter table *)

Lemma getRange_listed (parameterId : Z) :
  listed parameterId = true -> is_ok (getRange parameterId) = true.
Proof.
  unfold listed, deviceWideParameters, Zmem. cbn [existsb].
  rewrite !orb_true_iff.
  intros Hl.
  repeat (destruct Hl as [Hl | Hl];
          [apply Z.eqb_eq in Hl; subst parameterId; reflexivity |]).
  discriminate.
Qed.

Lemma getRange_unlisted (parameterId : Z) :
  listed parameterId = false ->
  getRange parameterId =
    let servoParameter := foldedSlot parameterId in
    if Zmem servoParameter [37; 33; 32; 38] then Ok Range_u8
    else if Zmem servoParameter [30; 34]
    then Ok {| bytes := 2; minimumValue := 0; maximumValue := 32440 |}
    else if servoParameter =? 36
    then Ok {| bytes := 1; minimumValue := 1; maximumValue := 50 |}
    else Raise (InvalidParameterId parameterId).
Proof.
  unfold listed, deviceWideParameters, Zmem. cbn [existsb].
  rewrite !orb_false_iff. intros Hl.
  unfold getRange, Zmem. cbn [existsb].
  repeat match type of Hl with
         | _ /\ _ => let H1 := fresh in destruct Hl as [H1 Hl]; rewrite ?H1
         end.
  cbn [orb]. reflexivity.
Qed.

Lemma foldedSlot_bounds (parameterId : Z) : 30 <= foldedSlot parameterId <= 38.
Proof.
  unfold foldedSlot, PARAMETER_SERVO0_HOME.
  pose proof (Z.mod_pos_bound (parameterId - 30) 9). lia.
Qed.

Lemma foldedSlot_unlisted (parameterId : Z) : listed (foldedSlot parameterId) = false.
Proof.
  pose proof (foldedSlot_bounds parameterId) as Hb.
  unfold listed, deviceWideParameters, Zmem. cbn [existsb].
  rewrite !orb_false_iff.
  repeat split; try reflexivity; apply Z.eqb_neq;
    unfold PARAMETER_INITIALIZED, PARAMETER_SERVOS_AVAILABLE, PARAMETER_SERVO_PERIOD,
      PARAMETER_MINI_MAESTRO_SERVO_PERIOD_L, PARAMETER_SERVO_MULTIPLIER,
      PARAMETER_CHANNEL_MODES_0_3, PARAMETER_CHANNEL_MODES_4_7,
      PARAMETER_CHANNEL_MODES_8_11, PARAMETER_CHANNEL_MODES_12_15,
      PARAMETER_CHANNEL_MODES_16_19, PARAMETER_CHANNEL_MODES_20_23,
      PARAMETER_ENABLE_PULLUPS, PARAMETER_MINI_MAESTRO_SERVO_PERIOD_HU,
      PARAMETER_SERIAL_TIMEOUT, PARAMETER_SERIAL_FIXED_BAUD_RATE, PARAMETER_SCRIPT_CRC,
      PARAMETER_SERIAL_NEVER_SUSPEND, PARAMETER_SERIAL_ENABLE_CRC, PARAMETER_SCRIPT_DONE,
      PARAMETER_SERIAL_DEVICE_NUMBER, PARAMETER_SERIAL_MODE,
      PARAMETER_SERIAL_BAUD_DETECT_TYPE, PARAMETER_SERIAL_MINI_SSC_OFFSET; lia.
Qed.

Lemma foldedSlot_idem (parameterId : Z) :
  foldedSlot (foldedSlot parameterId) = foldedSlot parameterId.
Proof.
  pose proof (foldedSlot_bounds parameterId) as Hb.
  unfold foldedSlot at 1. unfold PARAMETER_SERVO0_HOME.
  rewrite Z.mod_small by lia. lia.
Qed.

(** Below the per-servo region the only identifiers that fold onto slot 31
    or slot 35 are listed ones. *)
Lemma below_servo_region_ok :
  forallb (fun parameterId => is_ok (getRange parameterId)) (seqZ 0 30) = true.
Proof. vm_compute. reflexivity. Qed.

(** C10: [getRange] succeeds on every identifier below the per-servo region
    (0 to 29). An identifier that is not listed is folded by
    ((id - 30) mod 9) + 30 onto a servo-0 slot and gets that slot's range,
    e.g. 5, 7, 20, 23, 27, 28 and 29. [getRange] raises exactly when the
    identifier is not listed and its folded slot is 31 or 35, and that needs
    an identifier of at least 30. *)
Theorem getRange_below_servo_region (parameterId : Z) (Hid : 0 <= parameterId) :
  (parameterId < PARAMETER_SERVO0_HOME -> exists r, getRange parameterId = Ok r) /\
  (listed parameterId = false ->
     forall r, getRange (foldedSlot parameterId) = Ok r -> getRange parameterId = Ok r) /\
  ((exists e, getRange parameterId = Raise e) <->
     listed parameterId = false /\
     (foldedSlot parameterId = 31 \/ foldedSlot parameterId = 35)) /\
  ((exists e, getRange parameterId = Raise e) -> PARAMETER_SERVO0_HOME <= parameterId) /\
  Forall (fun id => listed id = false /\ getRange id = getRange (foldedSlot id))
         [5; 7; 20; 23; 27; 28; 29].
Proof.
  assert (Hbelow : parameterId < PARAMETER_SERVO0_HOME -> exists r, getRange parameterId = Ok r).
  { intros Hlt. unfold PARAMETER_SERVO0_HOME in Hlt.
    pose proof below_servo_region_ok as Hall.
    rewrite forallb_forall in Hall.
    specialize (Hall parameterId).
    destruct (getRange parameterId) as [r | e] eqn:Hr; [eauto |].
    exfalso. cbn in Hall. enough (false = true) by discriminate.
    apply Hall. apply list_elem_of_In, elem_of_seqZ. lia. }
  assert (Hraise : (exists e, getRange parameterId = Raise e) <->
            listed parameterId = false /\
            (foldedSlot parameterId = 31 \/ foldedSlot parameterId = 35)).
  { destruct (listed parameterId) eqn:Hl.
    - apply getRange_listed in Hl. split.
      + intros [e He]. rewrite He in Hl. discriminate.
      + intros [? _]. discriminate.
    - rewrite (getRange_unlisted _ Hl). cbn zeta.
      pose proof (foldedSlot_bounds parameterId) as Hb.
      unfold Zmem. cbn [existsb].
      destruct (Z.eqb_spec (foldedSlot parameterId) 37); [split; [intros [? ?]|]; (discriminate || lia)|].
      destruct (Z.eqb_spec (foldedSlot parameterId) 33); [split; [intros [? ?]|]; (discriminate || lia)|].
      destruct (Z.eqb_spec (foldedSlot parameterId) 32); [split; [intros [? ?]|]; (discriminate || lia)|].
      destruct (Z.eqb_spec (foldedSlot parameterId) 38); [split; [intros [? ?]|]; (discriminate || lia)|].
      destruct (Z.eqb_spec (foldedSlot parameterId) 30); [split; [intros [? ?]|]; (discriminate || lia)|].
      destruct (Z.eqb_spec (foldedSlot parameterId) 34); [split; [intros [? ?]|]; (discriminate || lia)|].
      destruct (Z.eqb_spec (foldedSlot parameterId) 36); [split; [intros [? ?]|]; (discriminate || lia)|].
      cbn [orb]. split; [intros _; split; [reflexivity | lia] | intros _; eauto]. }
  split; [exact Hbelow |]. split; [| split; [exact Hraise | split]].
  - intros Hl r Hr.
    rewrite (getRange_unlisted _ (foldedSlot_unlisted parameterId)) in Hr.
    rewrite (getRange_unlisted _ Hl).
    cbn zeta in *. rewrite foldedSlot_idem in Hr.
    destruct (Zmem (foldedSlot parameterId) [37; 33; 32; 38]); [exact Hr |].
    destruct (Zmem (foldedSlot parameterId) [30; 34]); [exact Hr |].
    destruct (foldedSlot parameterId =? 36); [exact Hr | discriminate].
  - intros Hex.
    destruct (Z.lt_ge_cases parameterId PARAMETER_SERVO0_HOME) as [Hlt | Hge]; [| exact Hge].
    destruct (Hbelow Hlt) as [r Hr]. destruct Hex as [e He]. congruence.
  - repeat constructor.
Qed.

Lemma getRange_below_servo_region_witness :
  exists r, getRange 23 = Ok r.
Proof.
  apply (proj1 (getRange_below_servo_region 23 ltac:(lia))).
  reflexivity.
Defined.

(** ** The speed codec *)

Lemma normalSpeed_loop_spec (fuel : nat) (v e : Z) :
  0 <= e <= 7 -> 8 - e <= Z.of_nat fuel ->
  exists b, normalSpeed_loop fuel (Z.shiftr v e) e = Some b /\
    ((exists e', e <= e' <= 7 /\ Z.shiftr v e' < 32 /\
                 (forall k, e <= k < e' -> 32 <= Z.shiftr v k) /\
                 b = e' + Z.shiftl (Z.shiftr v e') 3)
     \/ ((forall k, e <= k <= 7 -> 32 <= Z.shiftr v k) /\ b = 0xFF)).
Proof.
  revert e. induction fuel as [| fuel IH]; intros e He Hfuel; [lia |].
  cbn [normalSpeed_loop].
  destruct (Z.ltb_spec (Z.shiftr v e) 32) as [Hlt | Hge].
  - eexists; split; [reflexivity |]. left. exists e.
    repeat split; try lia.
  - destruct (Z.eqb_spec e 7) as [-> | Hne].
    + eexists; split; [reflexivity |]. right. split; [| reflexivity].
      intros k Hk. replace k with 7 by lia. exact Hge.
    + rewrite Z.shiftr_shiftr by lia.
      destruct (IH (e + 1)) as (b & Hb & Hcases); [lia | lia |].
      exists b. split; [exact Hb |].
      destruct Hcases as [(e' & He' & Hlt & Hmin & ->) | [Hall ->]].
      * left. exists e'. repeat split; try lia.
        intros k Hk. destruct (Z.eq_dec k e) as [-> | Hk']; [exact Hge | apply Hmin; lia].
      * right. split; [| reflexivity].
        intros k Hk. destruct (Z.eq_dec k e) as [-> | Hk']; [exact Hge | apply Hall; lia].
Qed.


Lemma exponentialSpeed_decode (b : Z) :
  _exponentialSpeedToNormalSpeed b = Z.shiftr b 3 * 2 ^ Z.land b 7.
Proof.
  unfold _exponentialSpeedToNormalSpeed. cbn zeta.
  rewrite Z.shiftl_1_l. reflexivity.
Qed.

Lemma exponentialSpeed_of_parts (q e : Z) :
  0 <= e <= 7 -> _exponentialSpeedToNormalSpeed (e + Z.shiftl q 3) = q * 2 ^ e.
Proof.
  intros He. rewrite exponentialSpeed_decode.
  rewrite Z.shiftl_mul_pow2 by lia. change (2 ^ 3) with 8.
  rewrite Z.shiftr_div_pow2 by lia. change (2 ^ 3) with 8.
  change 7 with (Z.ones 3) at 1. rewrite Z.land_ones by lia. change (2 ^ 3) with 8.
  rewrite Z.div_add by lia. rewrite Z.div_small by lia.
  rewrite Z.add_mod, Z.mod_mul, Z.add_0_r, Z.mod_mod by lia.
  rewrite Z.mod_small by lia. reflexivity.
Qed.

(** C3: the encoder returns e + ((v >> e) << 3) for the smallest exponent e
    in 0..7 with v >> e < 32, and 0xFF when there is none; the decoder
    returns (b >> 3) * 2^(b & 7). Hence a speed m * 2^e with m < 32 and
    e <= 7 survives the round trip, and for any speed v >= 0 the decoded
    value d satisfies d <= v and (v - d) <= 2^exponent * v (relative error at
    most 2^exponent); below the saturation point 4096 even v - d < 2^exponent. *)
Theorem speed_codec (v : Z) :
  (exists b, _normalSpeedToExponentialSpeed v = Some b /\
     ((exists e, 0 <= e <= 7 /\ Z.shiftr v e < 32 /\
                 (forall k, 0 <= k < e -> 32 <= Z.shiftr v k) /\
                 b = e + Z.shiftl (Z.shiftr v e) 3)
      \/ ((forall k, 0 <= k <= 7 -> 32 <= Z.shiftr v k) /\ b = 0xFF))) /\
  (forall b, _exponentialSpeedToNormalSpeed b = Z.shiftr b 3 * 2 ^ Z.land b 7) /\
  (forall m e, 0 <= m < 32 -> 0 <= e <= 7 -> v = m * 2 ^ e ->
     exists b, _normalSpeedToExponentialSpeed v = Some b /\
               _exponentialSpeedToNormalSpeed b = v) /\
  (0 <= v ->
     exists b, _normalSpeedToExponentialSpeed v = Some b /\
               _exponentialSpeedToNormalSpeed b <= v /\
               v - _exponentialSpeedToNormalSpeed b <= 2 ^ Z.land b 7 * v /\
               (v < 4096 -> v - _exponentialSpeedToNormalSpeed b < 2 ^ Z.land b 7)).
Proof.
  destruct (normalSpeed_loop_spec 8 v 0) as (b & Hb & Hcases); [lia | lia |].
  rewrite Z.shiftr_0_r in Hb. fold (_normalSpeedToExponentialSpeed v) in Hb.
  split; [exists b; split; [exact Hb | exact Hcases] |].
  split; [exact exponentialSpeed_decode |].
  split.
  - intros m e Hm He Hv. exists b. split; [exact Hb |].
    assert (Hshift : Z.shiftr v e = m).
    { rewrite Z.shiftr_div_pow2 by lia. subst v. apply Z.div_mul.
      apply Z.pow_nonzero; lia. }
    destruct Hcases as [(e' & He' & Hlt & Hmin & ->) | [Hall ->]].
    + assert (e' <= e).
      { destruct (Z.le_gt_cases e' e) as [Hle | Hgt]; [exact Hle |].
        specialize (Hmin e ltac:(lia)). lia. }
      rewrite exponentialSpeed_of_parts by lia.
      rewrite Z.shiftr_div_pow2 by lia.
      assert (Hsplit : v = m * 2 ^ (e - e') * 2 ^ e').
      { rewrite <- Z.mul_assoc, <- Z.pow_add_r by lia.
        replace (e - e' + e') with e by lia. exact Hv. }
      rewrite Hsplit at 1. rewrite Z.div_mul by (apply Z.pow_nonzero; lia).
      symmetry. exact Hsplit.
    + specialize (Hall e ltac:(lia)). lia.
  - intros Hv. exists b. split; [exact Hb |].
    destruct Hcases as [(e' & He' & Hlt & Hmin & ->) | [Hall ->]].
    + rewrite exponentialSpeed_of_parts by lia.
      assert (Hland : Z.land (e' + Z.shiftl (Z.shiftr v e') 3) 7 = e').
      { rewrite Z.shiftl_mul_pow2 by lia. change (2 ^ 3) with 8.
        change 7 with (Z.ones 3). rewrite Z.land_ones by lia. change (2 ^ 3) with 8.
        rewrite Z.add_mod, Z.mod_mul, Z.add_0_r, Z.mod_mod by lia.
        apply Z.mod_small. lia. }
      rewrite Hland. rewrite Z.shiftr_div_pow2 by lia.
      assert (Hpow : 0 < 2 ^ e') by (apply Z.pow_pos_nonneg; lia).
      pose proof (Z.mul_div_le v (2 ^ e') Hpow) as Hle.
      pose proof (Z.mod_pos_bound v (2 ^ e') Hpow) as Hmod.
      pose proof (Z.div_mod v (2 ^ e') ltac:(lia)) as Hdm.
      assert (0 <= v / 2 ^ e') by (apply Z.div_pos; lia).
      repeat split; nia.
    + specialize (Hall 7 ltac:(lia)).
      rewrite Z.shiftr_div_pow2 in Hall by lia. change (2 ^ 7) with 128 in Hall.
      assert (4096 <= v).
      { pose proof (Z.mul_div_le v 128 ltac:(lia)). lia. }
      change (_exponentialSpeedToNormalSpeed 255) with 3968.
      change (Z.land 255 7) with 7. change (2 ^ 7) with 128.
      repeat split; lia.
Qed.

Lemma speed_codec_witness :
  exists b, _normalSpeedToExponentialSpeed 160 = Some b /\
            _exponentialSpeedToNormalSpeed b = 160.
Proof.
  apply (proj1 (proj2 (proj2 (speed_codec 160))) 20 3); [lia | lia | reflexivity].
Defined.

(** ** The baud-rate transform *)

(** On the positive inputs that leave a non-negative numerator the
    truncation is the floor of the quotient. *)
Lemma convertBpsToSpbrg_floor (bps : Z) :
  0 < bps <= 2 * INSTRUCTION_FREQUENCY ->
  _convertBpsToSpbrg bps = (2 * INSTRUCTION_FREQUENCY - bps) `div` (2 * bps).
Proof.
  intros Hb. unfold _convertBpsToSpbrg, int_truediv.
  destruct (Z.eqb_spec bps 0); [lia |].
  apply Z.quot_div_nonneg; lia.
Qed.

(** C7, as the code has it: the transform truncates the quotient
    (12_000_000 - bps/2) / bps towards zero instead of rounding it to the
    nearest integer: for bps <> 0 the result n satisfies
    2F - bps = 2 bps n + r with |r| < |2 bps| and r of the sign of 2F - bps;
    for 0 < bps <= 24_000_000 it is the floor of the quotient, above that it
    is 0. The value 0 is mapped to 0 in both directions. *)
Theorem convertBpsToSpbrg_truncates (bps : Z) :
  _convertBpsToSpbrg 0 = 0 /\ _convertSpbrgToBps 0 = Ok 0 /\
  (bps <> 0 ->
     exists r, 2 * INSTRUCTION_FREQUENCY - bps = 2 * bps * _convertBpsToSpbrg bps + r /\
               Z.abs r < Z.abs (2 * bps) /\
               0 <= r * (2 * INSTRUCTION_FREQUENCY - bps)) /\
  (0 < bps <= 2 * INSTRUCTION_FREQUENCY ->
     2 * bps * _convertBpsToSpbrg bps <= 2 * INSTRUCTION_FREQUENCY - bps
       < 2 * bps * (_convertBpsToSpbrg bps + 1)) /\
  (2 * INSTRUCTION_FREQUENCY < bps -> _convertBpsToSpbrg bps = 0).
Proof.
  split; [reflexivity |]. split; [reflexivity |]. split; [| split].
  - intros Hne. unfold _convertBpsToSpbrg, int_truediv.
    destruct (Z.eqb_spec bps 0); [contradiction |].
    exists (Z.rem (2 * INSTRUCTION_FREQUENCY - bps) (2 * bps)).
    split; [apply Z.quot_rem'; lia |].
    split; [apply Z.rem_bound_abs; lia | apply Z.rem_sign_mul; lia].
  - intros Hb. rewrite (convertBpsToSpbrg_floor bps Hb).
    pose proof (Z.div_mod (2 * INSTRUCTION_FREQUENCY - bps) (2 * bps) ltac:(lia)) as Hdm.
    pose proof (Z.mod_pos_bound (2 * INSTRUCTION_FREQUENCY - bps) (2 * bps) ltac:(lia)).
    lia.
  - intros Hb. unfold _convertBpsToSpbrg, int_truediv.
    destruct (Z.eqb_spec bps 0); [unfold INSTRUCTION_FREQUENCY in Hb; lia |].
    rewrite <- (Z.opp_involutive (2 * INSTRUCTION_FREQUENCY - bps)).
    rewrite Z.quot_opp_l by lia.
    rewrite Z.quot_small; [reflexivity |].
    unfold INSTRUCTION_FREQUENCY in *. lia.
Qed.

Lemma convertBpsToSpbrg_truncates_witness :
  2 * 9600 * _convertBpsToSpbrg 9600 <= 2 * INSTRUCTION_FREQUENCY - 9600
    < 2 * 9600 * (_convertBpsToSpbrg 9600 + 1).
Proof.
  apply (proj1 (proj2 (proj2 (proj2 (convertBpsToSpbrg_truncates 9600))))).
  unfold INSTRUCTION_FREQUENCY. lia.
Defined.

(** At 7000 bits per second the quotient is 1713.78...: the nearest integer
    is 1714, the code returns 1713, more than one half away from the
    quotient. *)
Lemma convertBpsToSpbrg_not_rounded :
  _convertBpsToSpbrg 7000 = 1713 /\
  rounded_BpsToSpbrg 7000 = 1714 /\
  _convertBpsToSpbrg 7000 <> rounded_BpsToSpbrg 7000 /\
  2 * 7000 < 2 * ((2 * INSTRUCTION_FREQUENCY - 7000) - 2 * 7000 * _convertBpsToSpbrg 7000).
Proof. vm_compute. repeat split; congruence. Qed.

(** ** Home encoding *)

(** C5, as the code has it: an input channel is written as Ignore (raw 1)
    whatever its stored home mode; otherwise Off is written as 0, Ignore as
    1 and Goto as the stored home position, unchecked: the raw value is in
    [2, 32440] exactly when the stored position is. Decoding maps 0 to
    (Off, 0), 1 to (Ignore, 0) and every v >= 2 to (Goto, v), so a Goto
    home in [2, 32440] survives the round trip. *)
Theorem home_codec (setting : ChannelSetting) :
  (mode setting = Input -> correctedHome setting = 1) /\
  (mode setting <> Input -> homeMode setting = Off -> correctedHome setting = 0) /\
  (mode setting <> Input -> homeMode setting = Ignore -> correctedHome setting = 1) /\
  (mode setting <> Input -> homeMode setting = Goto ->
     correctedHome setting = home setting /\
     (2 <= correctedHome setting <= 32440 <-> 2 <= home setting <= 32440) /\
     (2 <= home setting <= 32440 ->
        decodeHome (correctedHome setting) = (Goto, home setting))) /\
  decodeHome 0 = (Off, 0) /\
  decodeHome 1 = (Ignore, 0) /\
  (forall v, 2 <= v -> decodeHome v = (Goto, v)).
Proof.
  assert (Hdec : forall v, 2 <= v -> decodeHome v = (Goto, v)).
  { intros v Hv. unfold decodeHome.
    destruct (Z.eqb_spec v 0); [lia |]. destruct (Z.eqb_spec v 1); [lia |]. reflexivity. }
  assert (Hmode : forall hm, mode setting <> Input -> homeMode setting = hm ->
            correctedHome setting =
              match hm with Off => 0 | Ignore => 1 | Goto => home setting end).
  { intros hm Hm Hh. unfold correctedHome. cbn zeta.
    destruct (decide (mode setting = Input)); [contradiction |].
    rewrite Hh. destruct hm; reflexivity. }
  split.
  { intros Hm. unfold correctedHome. cbn zeta. rewrite Hm. reflexivity. }
  split; [intros Hm Hh; exact (Hmode Off Hm Hh) |].
  split; [intros Hm Hh; exact (Hmode Ignore Hm Hh) |].
  split.
  { intros Hm Hh. rewrite (Hmode Goto Hm Hh).
    split; [reflexivity |]. split; [tauto |].
    intros Hr. apply Hdec. lia. }
  split; [reflexivity |]. split; [reflexivity | exact Hdec].
Qed.

Lemma home_codec_witness :
  correctedHome (goto_channel 6000) = 6000 /\
  decodeHome (correctedHome (goto_channel 6000)) = (Goto, 6000).
Proof.
  destruct (proj1 (proj2 (proj2 (proj2 (home_codec (goto_channel 6000))))))
    as (Henc & _ & Hrt); [discriminate | reflexivity |].
  split; [exact Henc | apply Hrt; cbn; lia].
Defined.

(** A Goto channel whose stored home position is 1 is written as the raw
    value 1, the sentinel of Ignore: the value passes the range check of the
    home parameter and reads back as (Ignore, 0). *)
Lemma home_goto_produces_sentinel :
  homeMode (goto_channel 1) = Goto /\ mode (goto_channel 1) <> Input /\
  correctedHome (goto_channel 1) = 1 /\
  ~ (2 <= correctedHome (goto_channel 1) <= 32440) /\
  getRange (specifyServo PARAMETER_SERVO0_HOME 0)
    = Ok {| bytes := 2; minimumValue := 0; maximumValue := 32440 |} /\
  requireArgumentRange (correctedHome (goto_channel 1)) 0 32440
    (specifyServo PARAMETER_SERVO0_HOME 0) = Ok tt /\
  decodeHome (correctedHome (goto_channel 1)) = (Ignore, 0).
Proof.
  split; [reflexivity |]. split; [discriminate |]. split; [reflexivity |].
  split; [| repeat split; reflexivity].
  change (correctedHome (goto_channel 1)) with 1. lia.
Qed.

(** ** Reasoning about runs *)

Lemma bind_run {A B} (m : M A) (f : A -> M B) (d : usb) :
  (m ≫= f) d =
    match m d with
    | (Ok a, d') => f a d'
    | (Raise e, d') => (Raise e, d')
    end.
Proof. reflexivity. Qed.

Lemma bind_Ok_inv {A B} (m : M A) (f : A -> M B) (d d' : usb) (b : B) :
  (m ≫= f) d = (Ok b, d') ->
  exists a d1, m d = (Ok a, d1) /\ f a d1 = (Ok b, d').
Proof.
  rewrite bind_run. destruct (m d) as [[a | e] d1]; [eauto | discriminate].
Qed.

Lemma lift_Ok_inv {A} (r : result A) (d d' : usb) (a : A) :
  lift r d = (Ok a, d') -> r = Ok a /\ d' = d.
Proof. unfold lift. intros [= -> ->]. split; reflexivity. Qed.

Lemma requireArgumentRange_Ok (v lo hi nm : Z) :
  requireArgumentRange v lo hi nm = Ok tt <-> lo <= v <= hi.
Proof.
  unfold requireArgumentRange.
  destruct (Z.ltb_spec v lo), (Z.gtb_spec v hi); cbn [orb];
    split; intros; try discriminate; try reflexivity; lia.
Qed.

Lemma requireArgumentRange_Raise (v lo hi nm : Z) :
  v < lo \/ hi < v ->
  requireArgumentRange v lo hi nm = Raise (ArgumentOutOfRange nm v lo hi).
Proof.
  unfold requireArgumentRange.
  destruct (Z.ltb_spec v lo), (Z.gtb_spec v hi); cbn [orb]; intros; try reflexivity; lia.
Qed.

(** A parameter write that returns has passed the range check and issued
    exactly one transfer. *)
Lemma setRawParameter_Ok_inv (parameter value : Z) (d d' : usb) (u : unit) :
  _setRawParameter parameter value d = (Ok u, d') ->
  exists r, getRange parameter = Ok r /\
            minimumValue r <= value <= maximumValue r /\
            log d' = log d ++ [set_parameter_transfer parameter value (bytes r)] /\
            reply d' = reply d.
Proof.
  unfold _setRawParameter. intros Hrun.
  apply bind_Ok_inv in Hrun as (r & d1 & Hr & Hrun).
  apply lift_Ok_inv in Hr as [Hr ->].
  apply bind_Ok_inv in Hrun as ([] & d2 & Hchk & Hrun).
  apply lift_Ok_inv in Hchk as [Hchk ->].
  apply requireArgumentRange_Ok in Hchk.
  exists r. split; [exact Hr |]. split; [exact Hchk |].
  unfold _setRawParameterNoChecks in Hrun. cbn in Hrun.
  injection Hrun as Hd. subst d'. cbn. split; reflexivity.
Qed.


Lemma for_each_seqZ_inv {St} (I : Z -> St -> usb -> Prop) (body : Z -> St -> M St)
    (n : nat) (a : Z) (s s' : St) (d d' : usb) :
  I a s d ->
  (forall i s1 d1 s2 d2, a <= i < a + Z.of_nat n -> I i s1 d1 ->
     body i s1 d1 = (Ok s2, d2) -> I (i + 1) s2 d2) ->
  for_each (seqZ a (Z.of_nat n)) body s d = (Ok s', d') ->
  I (a + Z.of_nat n) s' d'.
Proof.
  revert a s d. induction n as [| n IH]; intros a s d Hinit Hstep Hrun.
  - cbn in Hrun. injection Hrun as <- <-. rewrite Z.add_0_r. exact Hinit.
  - rewrite seqZ_cons in Hrun by lia. cbn [for_each] in Hrun.
    apply bind_Ok_inv in Hrun as (s1 & d1 & Hbody & Hrun).
    replace (Z.pred (Z.of_nat (S n))) with (Z.of_nat n) in Hrun by lia.
    replace (a + Z.of_nat (S n)) with (Z.succ a + Z.of_nat n) by lia.
    apply (IH (Z.succ a) s1 d1); [| | exact Hrun].
    + replace (Z.succ a) with (a + 1) by lia.
      apply (Hstep a s d); [lia | exact Hinit | exact Hbody].
    + intros i s2 d2 s3 d3 Hi. apply Hstep. lia.
Qed.

(** ** Channel modes on the compact variant *)

Lemma channelToPort_spec (channel : Z) :
  (0 <= channel <= 3 -> _channelToPort channel = Ok channel) /\
  (4 <= channel <= 5 -> _channelToPort channel = Ok (channel + 2)) /\
  (6 <= channel -> _channelToPort channel = Raise (InvalidChannelNumber channel)).
Proof.
  unfold _channelToPort.
  destruct (Z.leb_spec channel 3), (Z.ltb_spec channel 6);
    repeat split; intros; try reflexivity; lia.
Qed.

Lemma channelToPort_inj (i j p : Z) :
  _channelToPort i = Ok p -> _channelToPort j = Ok p -> i = j.
Proof.
  unfold _channelToPort.
  destruct (Z.leb_spec i 3), (Z.ltb_spec i 6), (Z.leb_spec j 3), (Z.ltb_spec j 6);
    intros Hi Hj; try discriminate; injection Hi as Hi; injection Hj as Hj; lia.
Qed.

Lemma channelToPort_nonneg (i p : Z) : 0 <= i -> _channelToPort i = Ok p -> 0 <= p.
Proof.
  unfold _channelToPort.
  destruct (Z.leb_spec i 3), (Z.ltb_spec i 6);
    intros Hi Hp; try discriminate; injection Hp as Hp; lia.
Qed.

Lemma testbit_port (p q : Z) : 0 <= p -> Z.testbit (Z.shiftl 1 p) q = (p =? q).
Proof. intros Hp. rewrite Z.shiftl_1_l. apply Z.pow2_bits_eqb. exact Hp. Qed.

Lemma getitem_nonneg {A} (l : list A) (i : Z) (x : A) :
  0 <= i -> getitem l i = Ok x <-> l !! Z.to_nat i = Some x.
Proof.
  intros Hi. unfold getitem, py_index. cbn zeta.
  destruct (Z.ltb_spec i 0); [lia |].
  destruct (Z.ltb_spec i 0); [lia |]. cbn [orb].
  destruct (Z.leb_spec (Z.of_nat (length l)) i) as [Hge | Hlt]; cbn.
  - split; [discriminate |]. intros Hl. apply lookup_lt_Some in Hl. lia.
  - destruct (l !! Z.to_nat i) as [y |]; cbn; split; congruence.
Qed.

(** What one round of the channel loop does to the two masks on the compact
    variant. *)
Lemma setUscSettings_channel_micro (self : Usc) (settings : UscSettings)
    (i : Z) (st st' : masks) (d d' : usb) :
  microMaestro self = true -> 0 <= i < 6 ->
  setUscSettings_channel self settings i st d = (Ok st', d') ->
  exists setting port,
    channelSettings settings !! Z.to_nat i = Some setting /\
    _channelToPort i = Ok port /\
    ioMask st' = (if bool_decide (mode setting = Input \/ mode setting = Output)
                  then Z.lor (ioMask st) (Z.shiftl 1 port) else ioMask st) /\
    outputMask st' = (if bool_decide (mode setting = Output)
                      then Z.lor (outputMask st) (Z.shiftl 1 port) else outputMask st).
Proof.
  intros Hmicro Hi Hrun. unfold setUscSettings_channel in Hrun. rewrite Hmicro in Hrun.
  apply bind_Ok_inv in Hrun as (setting & d1 & Hget & Hrun).
  apply lift_Ok_inv in Hget as [Hget ->].
  apply bind_Ok_inv in Hrun as (st1 & d1 & Hst & Hrun).
  apply lift_Ok_inv in Hst as [Hst ->].
  do 5 (apply bind_Ok_inv in Hrun as (? & ? & _ & Hrun)).
  apply bind_Ok_inv in Hrun as (? & ? & _ & Hrun).
  do 2 (apply bind_Ok_inv in Hrun as (? & ? & _ & Hrun)).
  injection Hrun as -> _.
  assert (Hport : exists port, _channelToPort i = Ok port).
  { unfold _channelToPort. destruct (Z.leb_spec i 3), (Z.ltb_spec i 6); eauto. lia. }
  destruct Hport as [port Hport]. rewrite Hport in Hst. cbn in Hst.
  exists setting, port. split; [apply getitem_nonneg; [lia | exact Hget] |].
  split; [exact Hport |].
  destruct (decide (mode setting = Input \/ mode setting = Output)) as [Hio | Hio],
    (decide (mode setting = Output)) as [Hout | Hout];
    cbn in Hst; injection Hst as Hst; subst st';
    rewrite ?(bool_decide_eq_true_2 _ Hio), ?(bool_decide_eq_false_2 _ Hio),
      ?(bool_decide_eq_true_2 _ Hout), ?(bool_decide_eq_false_2 _ Hout);
    cbn; split; reflexivity.
Qed.

Lemma mask_bits_step (Q : ChannelSetting -> Prop) `{!forall s, Decision (Q s)}
    (cs : list ChannelSetting) (i port m m' : Z) (setting : ChannelSetting) :
  0 <= i -> cs !! Z.to_nat i = Some setting -> _channelToPort i = Ok port ->
  m' = (if bool_decide (Q setting) then Z.lor m (Z.shiftl 1 port) else m) ->
  mask_bits Q cs i m -> mask_bits Q cs (i + 1) m'.
Proof.
  intros Hi Hget Hport -> Hm p. specialize (Hm p).
  assert (Hlast : forall j s, 0 <= j < i + 1 -> ~ j < i ->
            cs !! Z.to_nat j = Some s -> s = setting /\ j = i).
  { intros j s Hj Hnlt Hs. assert (j = i) as -> by lia. split; congruence. }
  case_bool_decide as HQ.
  - rewrite Z.lor_spec, orb_true_iff, Hm.
    rewrite (testbit_port port p) by (eapply channelToPort_nonneg; eauto).
    rewrite Z.eqb_eq. split.
    + intros [(j & s & Hj & Hs & Hp & Hq) | <-].
      * exists j, s. repeat split; auto; lia.
      * exists i, setting. repeat split; auto; lia.
    + intros (j & s & Hj & Hs & Hp & Hq).
      destruct (Z.lt_ge_cases j i) as [Hlt | Hge].
      * left. exists j, s. repeat split; auto; lia.
      * right. destruct (Hlast j s Hj ltac:(lia) Hs) as [-> ->]. congruence.
  - rewrite Hm. split.
    + intros (j & s & Hj & Hs & Hp & Hq). exists j, s. repeat split; auto; lia.
    + intros (j & s & Hj & Hs & Hp & Hq).
      destruct (Z.lt_ge_cases j i) as [Hlt | Hge].
      * exists j, s. repeat split; auto; lia.
      * destruct (Hlast j s Hj ltac:(lia) Hs) as [-> ->]. contradiction.
Qed.

Lemma mask_bits_channel (Q : ChannelSetting -> Prop) (cs : list ChannelSetting)
    (k m channel port : Z) (setting : ChannelSetting) :
  mask_bits Q cs k m -> 0 <= channel < k ->
  cs !! Z.to_nat channel = Some setting -> _channelToPort channel = Ok port ->
  Z.testbit m port = true <-> Q setting.
Proof.
  intros Hm Hc Hs Hp. rewrite (Hm port). split.
  - intros (j & s & Hj & Hjs & Hjp & Hq).
    assert (j = channel) as -> by (eapply channelToPort_inj; eauto).
    congruence.
  - intros Hq. exists channel, setting. repeat split; auto; lia.
Qed.

(** The masks the channel loop leaves on the compact variant. *)
Lemma micro_masks_loop (self : Usc) (settings : UscSettings) (st' : masks) (d d' : usb) :
  microMaestro self = true ->
  for_each (seqZ 0 6) (setUscSettings_channel self settings)
    {| ioMask := 0; outputMask := 0; channelModeBytes := bytearray_fill 0 6 |} d
    = (Ok st', d') ->
  mask_bits (fun s => mode s = Input \/ mode s = Output)
            (channelSettings settings) 6 (ioMask st') /\
  mask_bits (fun s => mode s = Output) (channelSettings settings) 6 (outputMask st').
Proof.
  intros Hmicro Hrun.
  change 6 with (0 + Z.of_nat 6).
  apply (for_each_seqZ_inv
           (fun k st _ =>
              mask_bits (fun s => mode s = Input \/ mode s = Output)
                        (channelSettings settings) k (ioMask st) /\
              mask_bits (fun s => mode s = Output)
                        (channelSettings settings) k (outputMask st))
           (setUscSettings_channel self settings) 6 0
           {| ioMask := 0; outputMask := 0; channelModeBytes := bytearray_fill 0 6 |}
           st' d d'); [| | exact Hrun].
  - cbn. split; intros p; rewrite Z.bits_0; split; try discriminate;
      intros (j & _ & Hj & _); lia.
  - intros i s1 d1 s2 d2 Hi [Hio Hout] Hbody.
    apply setUscSettings_channel_micro in Hbody
      as (setting & port & Hget & Hport & Heqio & Heqout); [| exact Hmicro | lia].
    split; eapply mask_bits_step; eauto; lia.
Qed.

Lemma Usc_init_micro (productID : Z) (self : Usc) :
  Usc_init productID = Some self -> microMaestro self = true ->
  servoCount self = 6 /\ maxScriptLength self = 1024 /\ subroutineOffsetBlocks self = 64.
Proof.
  unfold Usc_init. intros Hinit Hmicro.
  repeat match type of Hinit with
         | (if ?c then _ else _) = _ => destruct c
         end;
    try discriminate; injection Hinit as <-; cbn in Hmicro; try discriminate;
    repeat split; reflexivity.
Qed.

(** C6: [_channelToPort] maps channels 0 to 3 to themselves, 4 and 5 to 6
    and 7, and raises from 6 on. On the compact variant a settings write
    that goes through ends with the writes of ioMask and outputMask, and for
    every channel the bit at index channelToPort(channel) is set in both
    masks for Output, in ioMask only for Input, and in neither for Servo. *)
Theorem compact_channel_masks (productID : Z) (self : Usc)
    (settings : UscSettings) (d d' : usb) :
  Usc_init productID = Some self -> microMaestro self = true ->
  setUscSettings self settings false d = (Ok tt, d') ->
  (forall channel,
     (0 <= channel <= 3 -> _channelToPort channel = Ok channel) /\
     (4 <= channel <= 5 -> _channelToPort channel = Ok (channel + 2)) /\
     (6 <= channel -> _channelToPort channel = Raise (InvalidChannelNumber channel))) /\
  _channelToPort 4 = Ok 6 /\ _channelToPort 5 = Ok 7 /\
  exists l io out,
    log d' = l ++ [set_parameter_transfer PARAMETER_IO_MASK_C io 1;
                   set_parameter_transfer PARAMETER_OUTPUT_MASK_C out 1] /\
    forall channel setting,
      0 <= channel < 6 -> channelSettings settings !! Z.to_nat channel = Some setting ->
      exists port, _channelToPort channel = Ok port /\
        match mode setting with
        | Output => Z.testbit io port = true /\ Z.testbit out port = true
        | Input => Z.testbit io port = true /\ Z.testbit out port = false
        | Servo | ServoMultiplied => Z.testbit io port = false /\ Z.testbit out port = false
        end.
Proof.
  intros Hinit Hmicro Hrun.
  split; [exact channelToPort_spec |]. split; [reflexivity |]. split; [reflexivity |].
  destruct (Usc_init_micro _ _ Hinit Hmicro) as (Hcount & _ & _).
  unfold setUscSettings in Hrun. rewrite Hmicro, Hcount in Hrun.
  do 10 (apply bind_Ok_inv in Hrun as (? & ? & _ & Hrun)).
  apply bind_Ok_inv in Hrun as (st & d1 & Hloop & Hrun).
  apply bind_Ok_inv in Hrun as ([] & d2 & Htail & Hret).
  injection Hret as <-.
  apply bind_Ok_inv in Htail as ([] & d3 & Hio & Hout).
  apply setRawParameter_Ok_inv in Hio as (rio & Hrio & _ & Hlogio & _).
  apply setRawParameter_Ok_inv in Hout as (rout & Hrout & _ & Hlogout & _).
  injection Hrio as <-. injection Hrout as <-.
  apply micro_masks_loop in Hloop as [Hmio Hmout]; [| exact Hmicro].
  exists (log d1), (ioMask st), (outputMask st). split.
  { rewrite Hlogout, Hlogio, <- app_assoc. reflexivity. }
  intros channel setting Hc Hs.
  assert (Hport : exists port, _channelToPort channel = Ok port).
  { unfold _channelToPort. destruct (Z.leb_spec channel 3), (Z.ltb_spec channel 6); eauto. lia. }
  destruct Hport as [port Hport]. exists port. split; [exact Hport |].
  pose proof (mask_bits_channel _ _ _ _ _ _ _ Hmio Hc Hs Hport) as Hbio.
  pose proof (mask_bits_channel _ _ _ _ _ _ _ Hmout Hc Hs Hport) as Hbout.
  cbn beta in Hbio, Hbout.
  destruct (mode setting);
    destruct (Z.testbit (ioMask st) port), (Z.testbit (outputMask st) port);
    split; try reflexivity; exfalso;
    repeat match goal with
           | Hb : _ <-> _ |- _ => destruct Hb
           end;
    intuition congruence.
Qed.

Lemma compact_channel_masks_witness :
  exists l io out,
    log (setUscSettings micro six_channel_settings false
           silent_device).2
      = l ++ [set_parameter_transfer PARAMETER_IO_MASK_C io 1;
              set_parameter_transfer PARAMETER_OUTPUT_MASK_C out 1] /\
    Z.testbit io 7 = true /\ Z.testbit out 7 = true /\
    Z.testbit io 6 = true /\ Z.testbit out 6 = false.
Proof.
  destruct (compact_channel_masks 0x0089 micro six_channel_settings
              silent_device
              (setUscSettings micro six_channel_settings false
                 silent_device).2)
    as (_ & _ & _ & l & io & out & Hlog & Hbits).
  - reflexivity.
  - reflexivity.
  - vm_compute. reflexivity.
  - exists l, io, out. split; [exact Hlog |].
    destruct (Hbits 5 (channel_with_mode Output)) as (p5 & Hp5 & Hb5 & Hc5);
      [lia | reflexivity |].
    destruct (Hbits 4 (channel_with_mode Input)) as (p4 & Hp4 & Hb4 & Hc4);
      [lia | reflexivity |].
    injection Hp5 as <-. injection Hp4 as <-. auto.
Defined.

(** ** Validation and transfers *)

Lemma extends_with_refl (P : transfer -> Prop) (d : usb) : extends_with P d d.
Proof. exists []. rewrite app_nil_r. repeat split. constructor. Qed.

Lemma extends_with_trans (P : transfer -> Prop) (d1 d2 d3 : usb) :
  extends_with P d1 d2 -> extends_with P d2 d3 -> extends_with P d1 d3.
Proof.
  intros (l1 & Hl1 & Hr1 & HP1) (l2 & Hl2 & Hr2 & HP2).
  exists (l1 ++ l2). rewrite Hl2, Hl1, Hr2, Hr1, app_assoc.
  repeat split. apply Forall_app. split; assumption.
Qed.

Lemma issues_ret {A} (P : transfer -> Prop) (a : A) : issues P (mret a).
Proof. intros d. apply extends_with_refl. Qed.

Lemma issues_lift {A} (P : transfer -> Prop) (r : result A) : issues P (lift r).
Proof. intros d. apply extends_with_refl. Qed.

Lemma issues_ctrl_transfer (P : transfer -> Prop) (rt rq v i : Z) (pl : payload) :
  P {| bmRequestType := rt; bRequest := rq; wValue := v; wIndex := i;
       data_or_wLength := pl |} ->
  issues P (ctrl_transfer rt rq v i pl).
Proof.
  intros HP d. eexists. cbn. split; [reflexivity |]. split; [reflexivity |].
  repeat constructor. exact HP.
Qed.

Lemma issues_bind {A B} (P : transfer -> Prop) (m : M A) (f : A -> M B) :
  issues P m -> (forall a, issues P (f a)) -> issues P (m ≫= f).
Proof.
  intros Hm Hf d. rewrite bind_run. specialize (Hm d).
  destruct (m d) as [[a | e] d1]; cbn in Hm.
  - eapply extends_with_trans; [exact Hm | apply Hf].
  - exact Hm.
Qed.

Lemma issues_for_each {A St} (P : transfer -> Prop) (l : list A)
    (body : A -> St -> M St) (s : St) :
  (forall x s, issues P (body x s)) -> issues P (for_each l body s).
Proof.
  intros Hbody. revert s. induction l as [| x l IH]; intros s; cbn [for_each].
  - apply issues_ret.
  - apply issues_bind; [apply Hbody | exact IH].
Qed.

(** A parameter write puts nothing on the wire but a value it has checked. *)
Lemma issues_setRawParameter (parameter value : Z) :
  issues range_checked (_setRawParameter parameter value).
Proof.
  intros d. destruct (_setRawParameter parameter value d) as [[[] | e] d'] eqn:Hrun; cbn.
  - apply setRawParameter_Ok_inv in Hrun as (r & Hr & Hv & Hlog & Hrep).
    exists [set_parameter_transfer parameter value (bytes r)].
    split; [exact Hlog |]. split; [exact Hrep |].
    repeat constructor. intros _. exists parameter, r. cbn. auto.
  - unfold _setRawParameter in Hrun. rewrite bind_run in Hrun. unfold lift at 1 in Hrun.
    destruct (getRange parameter) as [r | e1].
    + rewrite bind_run in Hrun. unfold lift at 1 in Hrun.
      destruct (requireArgumentRange value (minimumValue r) (maximumValue r) parameter)
        as [[] | e2].
      * cbn in Hrun. discriminate.
      * injection Hrun as _ <-. apply extends_with_refl.
    + injection Hrun as _ <-. apply extends_with_refl.
Qed.

Lemma issues_setRawParameter_any (P : transfer -> Prop) (parameter value : Z) :
  (forall numBytes, P (set_parameter_transfer parameter value numBytes)) ->
  issues P (_setRawParameter parameter value).
Proof.
  intros HP. unfold _setRawParameter, _setRawParameterNoChecks.
  apply issues_bind; [apply issues_lift | intros r].
  apply issues_bind; [apply issues_lift | intros _].
  apply issues_bind; [| intros _; apply issues_ret].
  apply issues_ctrl_transfer. apply (HP (bytes r)).
Qed.

Ltac issues_step :=
  lazymatch goal with
  | |- issues _ (mbind _ _) => apply issues_bind; [| intros ?]
  | |- issues _ (mret _) => apply issues_ret
  | |- issues _ (lift _) => apply issues_lift
  | |- issues _ (_setRawParameter _ _) =>
      first [ apply issues_setRawParameter
            | apply issues_setRawParameter_any; intros ? ?; discriminate ]
  | |- issues _ (ctrl_transfer _ _ _ _ _) =>
      apply issues_ctrl_transfer; intros ?; discriminate
  | |- issues _ (for_each _ _ _) => apply issues_for_each; intros ? ?
  | |- issues _ (if ?c then _ else _) => destruct c
  | |- issues _ (match ?x with _ => _ end) => destruct x
  | |- issues _ (let _ := _ in _) => cbn zeta
  end.

Lemma setScriptDone_run (value : Z) (d : usb) :
  setScriptDone value d =
    (Ok tt, {| log := log d ++ [set_script_done_transfer value]; reply := reply d |}).
Proof. reflexivity. Qed.

(** A script that is too long stops the upload right after the
    set-script-done transfer. *)
Lemma loadProgram_too_long (self : Usc) (program : BytecodeProgram)
    (CRC : bool) (d : usb) :
  Z.of_nat (length (byteList program)) > maxScriptLength self ->
  loadProgram self (Some program) CRC d =
    (Raise (ScriptTooLong (Z.of_nat (length (byteList program)))),
     {| log := log d ++ [set_script_done_transfer 1]; reply := reply d |}).
Proof.
  intros Hlen.
  assert (Hgt : (Z.of_nat (length (byteList program)) >? maxScriptLength self) = true).
  { rewrite Z.gtb_ltb. apply Z.ltb_lt. lia. }
  unfold loadProgram. rewrite bind_run, setScriptDone_run.
  cbn [of_option]. rewrite bind_run. unfold lift at 1.
  rewrite Hgt. reflexivity.
Qed.


(** ** The subroutine address table *)

Lemma for_each_result_snoc {A St} (l : list A) (x : A) (body : A -> St -> result St)
    (s : St) :
  for_each (l ++ [x]) body s = (s' ← for_each l body s; body x s').
Proof.
  revert s. induction l as [| y l IH]; intros s; cbn.
  - destruct (body x s); reflexivity.
  - destruct (body y s) as [s1 | e]; cbn; [apply IH | reflexivity].
Qed.

Lemma bytearray_setitem_Ok (a : list Z) (i x : Z) :
  0 <= i < Z.of_nat (length a) -> 0 <= x <= 255 ->
  bytearray_setitem a i x = Ok (<[Z.to_nat i := x]> a).
Proof.
  intros Hi Hx. unfold bytearray_setitem, py_index. cbn zeta.
  destruct (Z.ltb_spec i 0); [lia |].
  destruct (Z.ltb_spec i 0); [lia |].
  destruct (Z.leb_spec (Z.of_nat (length a)) i); [lia |]. cbn.
  destruct (Z.ltb_spec x 0); [lia |].
  destruct (Z.ltb_spec 255 x); [lia |]. reflexivity.
Qed.

(** The table loop as the source runs it: the first subroutine ends it, by
    KeyError when its name has no command and by NameError, at the
    comparison with [Opcode.CALL], when it has one. *)
Lemma subroutineData_of_cons (name : string) (value : Z) (rest : list (string * Z))
    (commands : gmap string Z) :
  subroutineData_of ((name, value) :: rest) commands =
    match commands !! name with
    | Some _ => Raise (NameError "Opcode")
    | None => Raise (KeyError name)
    end.
Proof.
  unfold subroutineData_of. cbn [for_each]. destruct (commands !! name); reflexivity.
Qed.

(** ** Block writes *)

(** A loop that fills the sixteen bytes of a block one by one leaves the
    bytes it was given. *)
Lemma block_loop (g : Z -> result Z) (vals : list Z) :
  length vals = 16%nat ->
  (forall (j : nat) b, vals !! j = Some b -> g (Z.of_nat j) = Ok b /\ valid_byte b) ->
  for_each (range_ 16) (fun j block_bytes => b ← g j; bytearray_setitem block_bytes j b)
    (bytearray_fill 0x00 16) = Ok vals.
Proof.
  intros Hlen Hg.
  do 16 (destruct vals as [| ? vals]; [discriminate |]).
  destruct vals; [| discriminate]. clear Hlen.
  change (range_ 16) with [0; 1; 2; 3; 4; 5; 6; 7; 8; 9; 10; 11; 12; 13; 14; 15].
  cbn [for_each].
  repeat match goal with
         | |- context [g ?j] =>
             let Hj := fresh "Hj" in
             let Hb := fresh "Hb" in
             destruct (Hg (Z.to_nat j) _ eq_refl) as [Hj Hb];
             change (Z.of_nat (Z.to_nat j)) with j in Hj;
             unfold valid_byte in Hb;
             rewrite Hj; cbn [mbind result_bind];
             rewrite bytearray_setitem_Ok by (rewrite ?length_insert; cbn; lia);
             cbn [mbind result_bind]
         end.
  reflexivity.
Qed.

Lemma for_each_result_ext {A St} (l : list A) (body1 body2 : A -> St -> result St) (s : St) :
  (forall x s, body1 x s = body2 x s) -> for_each l body1 s = for_each l body2 s.
Proof.
  intros Hext. revert s. induction l as [| x l IH]; intros s; cbn; [reflexivity |].
  rewrite Hext. destruct (body2 x s); cbn; [apply IH | reflexivity].
Qed.

Lemma for_each_result_inv {A St} (I : St -> Prop) (l : list A)
    (body : A -> St -> result St) (s s' : St) :
  I s -> (forall x s1 s2, I s1 -> body x s1 = Ok s2 -> I s2) ->
  for_each l body s = Ok s' -> I s'.
Proof.
  intros Hinit Hstep. revert s Hinit. induction l as [| x l IH]; intros s Hinit; cbn.
  - intros [= <-]. exact Hinit.
  - destruct (body x s) as [s1 | e] eqn:Hb; cbn; [| discriminate].
    apply IH. eapply Hstep; eauto.
Qed.

(** A loop whose rounds each issue one transfer issues them in order. *)
Lemma for_each_transfers (f : Z -> transfer) (body : Z -> unit -> M unit)
    (n : nat) (a : Z) (d : usb) :
  (forall i d1, a <= i < a + Z.of_nat n ->
     body i tt d1 = (Ok tt, {| log := log d1 ++ [f i]; reply := reply d1 |})) ->
  for_each (seqZ a (Z.of_nat n)) body tt d =
    (Ok tt, {| log := log d ++ (f <$> seqZ a (Z.of_nat n)); reply := reply d |}).
Proof.
  revert a d. induction n as [| n IH]; intros a d Hbody.
  - rewrite seqZ_nil by lia. cbn. rewrite app_nil_r. destruct d; reflexivity.
  - rewrite seqZ_cons by lia.
    replace (Z.pred (Z.of_nat (S n))) with (Z.of_nat n) by lia.
    cbn [for_each]. rewrite bind_run, Hbody by lia.
    rewrite IH by (intros; apply Hbody; lia).
    cbn. rewrite <- app_assoc. reflexivity.
Qed.

Lemma length_pad16 (l : list Z) :
  Z.of_nat (length (pad16 l)) = 16 * ((Z.of_nat (length l) + 15) `div` 16).
Proof.
  unfold pad16. rewrite length_app, length_replicate, Nat2Z.inj_add.
  rewrite Z2Nat.id by (apply Z.mod_pos_bound; lia).
  generalize (Z.of_nat (length l)). intros n.
  Z.div_mod_to_equations. lia.
Qed.

Lemma length_block_of (l : list Z) (k : Z) :
  0 <= k -> 16 * k + 16 <= Z.of_nat (length l) -> length (block_of l k) = 16%nat.
Proof.
  intros Hk Hl. unfold block_of. rewrite length_take, length_drop. lia.
Qed.

Lemma lookup_block_of (l : list Z) (k : Z) (j : nat) (b : Z) :
  0 <= k -> block_of l k !! j = Some b ->
  (j < 16)%nat /\ l !! Z.to_nat (16 * k + Z.of_nat j) = Some b.
Proof.
  intros Hk. unfold block_of. rewrite lookup_take_Some, lookup_drop.
  intros [Hl Hj]. split; [exact Hj |].
  replace (Z.to_nat (16 * k + Z.of_nat j)) with (Z.to_nat (16 * k) + j)%nat by lia.
  exact Hl.
Qed.

(** The inner loop of [writeScript] cuts the block out of the padded byte
    code. *)
Lemma writeScript_block_bytes_spec (bytecode : list Z) (block : Z) :
  Forall valid_byte bytecode ->
  0 <= block < (Z.of_nat (length bytecode) + 15) `div` 16 ->
  writeScript_block_bytes bytecode block = Ok (block_of (pad16 bytecode) block).
Proof.
  intros Hvalid Hblock. unfold writeScript_block_bytes.
  rewrite (for_each_result_ext _ _
             (fun j block_bytes =>
                b ← (if block * 16 + j <? Z.of_nat (length bytecode)
                     then getitem bytecode (block * 16 + j) else Ok 0xFF);
                bytearray_setitem block_bytes j b)).
  2: { intros j s. destruct (block * 16 + j <? Z.of_nat (length bytecode)); reflexivity. }
  pose proof (length_pad16 bytecode) as Hlen.
  apply (block_loop (fun j => if block * 16 + j <? Z.of_nat (length bytecode)
                              then getitem bytecode (block * 16 + j) else Ok 0xFF)).
  - apply length_block_of; lia.
  - intros j b Hb. apply lookup_block_of in Hb as [Hj Hb]; [| lia].
    unfold pad16 in Hb.
    destruct (Z.ltb_spec (block * 16 + Z.of_nat j) (Z.of_nat (length bytecode))) as [Hin | Hout].
    + rewrite lookup_app_l in Hb by lia. split.
      * apply getitem_nonneg; [lia |].
        replace (block * 16 + Z.of_nat j) with (16 * block + Z.of_nat j) by lia. exact Hb.
      * eapply Forall_lookup_1; eauto.
    + rewrite lookup_app_r in Hb by lia.
      apply lookup_replicate in Hb as [-> _]. split; [reflexivity | unfold valid_byte; lia].
Qed.

(** [writeScript] sends the byte code, padded with 0xFF to a whole number
    of blocks, block by block from block 0 on. *)
Lemma writeScript_run (bytecode : list Z) (d : usb) :
  Forall valid_byte bytecode ->
  writeScript bytecode d =
    (Ok tt, {| log := log d ++ block_transfers 0 (pad16 bytecode); reply := reply d |}).
Proof.
  intros Hvalid. unfold writeScript, block_transfers, range_.
  rewrite length_pad16.
  assert (Hn : 0 <= (Z.of_nat (length bytecode) + 15) `div` 16)
    by (apply Z.div_pos; lia).
  set (q := (Z.of_nat (length bytecode) + 15) `div` 16) in *.
  replace (Z.div (16 * q) 16) with q by (rewrite Z.mul_comm, Z.div_mul; lia).
  rewrite <- (Z2Nat.id _ Hn).
  apply for_each_transfers.
  intros i d1 Hi. rewrite Z2Nat.id in Hi by exact Hn.
  rewrite bind_run. unfold lift at 1.
  rewrite writeScript_block_bytes_spec by (auto; subst q; lia).
  cbn. rewrite Z.add_0_r. reflexivity.
Qed.

Lemma bytearray_setitem_valid (a a' : list Z) (i x : Z) :
  bytearray_setitem a i x = Ok a' -> Forall valid_byte a ->
  length a' = length a /\ Forall valid_byte a'.
Proof.
  unfold bytearray_setitem. destruct (py_index a i) as [k | e]; cbn; [| discriminate].
  destruct (Z.ltb_spec x 0); cbn; [discriminate |].
  destruct (Z.ltb_spec 255 x); [discriminate |].
  intros [= <-] Hvalid. split; [apply length_insert |].
  apply Forall_insert; [exact Hvalid | unfold valid_byte; lia].
Qed.

(** Whatever the program, a table that was built has 256 valid bytes. *)
Lemma subroutineData_of_bytes (addresses : list (string * Z))
    (commands : gmap string Z) (t : list Z) :
  subroutineData_of addresses commands = Ok t ->
  length t = 256%nat /\ Forall valid_byte t.
Proof.
  unfold subroutineData_of.
  apply (for_each_result_inv (fun t => length t = 256%nat /\ Forall valid_byte t)).
  - split; [reflexivity |]. apply Forall_replicate. unfold valid_byte. lia.
  - intros [name value] t1 t2 _.
    destruct (commands !! name) as [op |]; cbn; discriminate.
Qed.

(** [setSubroutines] sends the table in sixteen blocks from block number
    [subroutineOffsetBlocks] on. *)
Lemma setSubroutines_run (self : Usc) (addresses : list (string * Z))
    (commands : gmap string Z) (t : list Z) (d : usb) :
  subroutineData_of addresses commands = Ok t ->
  setSubroutines self addresses commands d =
    (Ok tt, {| log := log d ++ block_transfers (subroutineOffsetBlocks self) t;
               reply := reply d |}).
Proof.
  intros Ht. destruct (subroutineData_of_bytes _ _ _ Ht) as [Hlen Hvalid].
  unfold setSubroutines. rewrite bind_run. unfold lift at 1. rewrite Ht.
  unfold block_transfers. rewrite Hlen.
  change (Z.of_nat 256 `div` 16) with (Z.of_nat 16).
  change (range_ 16) with (seqZ 0 (Z.of_nat 16)) at 1.
  apply for_each_transfers.
  intros i d1 Hi. rewrite bind_run. unfold lift at 1.
  rewrite (block_loop (fun j => getitem t (i * 16 + j)) (block_of t i)).
  - reflexivity.
  - apply length_block_of; lia.
  - intros j b Hb. apply lookup_block_of in Hb as [Hj Hb]; [| lia]. split.
    + apply getitem_nonneg; [lia |].
      replace (i * 16 + Z.of_nat j) with (16 * i + Z.of_nat j) by lia. exact Hb.
    + eapply Forall_lookup_1; eauto.
Qed.

Lemma eraseScript_run (d : usb) :
  eraseScript d = (Ok tt, {| log := log d ++ [erase_script_transfer]; reply := reply d |}).
Proof. reflexivity. Qed.

(** The payloads of the block transfers, one after the other, are the whole
    blocks of the list. *)
Lemma block_transfers_data (base : Z) (l : list Z) (q : nat) :
  flat_map transfer_data
    ((fun k => write_script_transfer (k + base) (block_of l k)) <$> seqZ 0 (Z.of_nat q))
  = take (16 * q) l.
Proof.
  induction q as [| q IH].
  - rewrite seqZ_nil by lia. reflexivity.
  - replace (Z.of_nat (S q)) with (Z.of_nat q + 1) by lia.
    rewrite seqZ_app by lia. rewrite fmap_app, flat_map_app, IH.
    rewrite (seqZ_cons _ 1) by lia. rewrite seqZ_nil by lia.
    cbn [fmap list_fmap flat_map transfer_data write_script_transfer data_or_wLength].
    rewrite app_nil_r. unfold block_of.
    replace (Z.to_nat (16 * (0 + Z.of_nat q))) with (16 * q)%nat by lia.
    rewrite take_take_drop. f_equal. lia.
Qed.

Lemma block_transfers_pad16 (base : Z) (l : list Z) :
  flat_map transfer_data (block_transfers base (pad16 l)) = pad16 l.
Proof.
  unfold block_transfers.
  pose proof (length_pad16 l) as Hlen.
  assert (Hq : 0 <= (Z.of_nat (length l) + 15) `div` 16) by (apply Z.div_pos; lia).
  set (q := (Z.of_nat (length l) + 15) `div` 16) in *.
  rewrite Hlen. replace (Z.div (16 * q) 16) with q by (rewrite Z.mul_comm, Z.div_mul; lia).
  rewrite <- (Z2Nat.id _ Hq). rewrite block_transfers_data.
  apply take_ge. lia.
Qed.

(** C2: the table of the claim is never built. The loop of
    [setSubroutines] compares the opcode of each subroutine with
    [Opcode.CALL], and main.py binds no name [Opcode]: with one subroutine
    or more the call raises before any transfer, NameError when the first
    subroutine has a command (KeyError when it has none), so no address is
    ever written at offset 2 * (opcode - 128). Only the table of a program
    without subroutines is built and sent: 256 times 0xFF, in sixteen
    blocks. For the subroutine at address 300 bound to opcode 130 the call
    raises NameError and sends nothing. *)
Theorem subroutine_table_never_built (self : Usc) (commands : gmap string Z) (d : usb) :
  (forall name value rest op,
     commands !! name = Some op ->
     setSubroutines self ((name, value) :: rest) commands d
       = (Raise (NameError "Opcode"), d)) /\
  (forall name value rest,
     commands !! name = None ->
     setSubroutines self ((name, value) :: rest) commands d
       = (Raise (KeyError name), d)) /\
  setSubroutines self [] commands d =
    (Ok tt, {| log := log d ++ block_transfers (subroutineOffsetBlocks self)
                                 (replicate 256 0xFF);
               reply := reply d |}) /\
  setSubroutines self [("foo"%string, 300)] {["foo"%string := 130]} d
    = (Raise (NameError "Opcode"), d).
Proof.
  assert (Hraise : forall name value rest,
            setSubroutines self ((name, value) :: rest) commands d =
              (match commands !! name with
               | Some _ => Raise (NameError "Opcode")
               | None => Raise (KeyError name)
               end, d)).
  { intros name value rest. unfold setSubroutines. rewrite bind_run. unfold lift at 1.
    rewrite subroutineData_of_cons. destruct (commands !! name); reflexivity. }
  split; [| split; [| split]].
  - intros name value rest op Hop. rewrite Hraise, Hop. reflexivity.
  - intros name value rest Hnone. rewrite Hraise, Hnone. reflexivity.
  - apply setSubroutines_run. reflexivity.
  - unfold setSubroutines. rewrite bind_run. unfold lift at 1.
    rewrite subroutineData_of_cons, lookup_singleton_eq. reflexivity.
Qed.

Lemma subroutine_table_never_built_witness :
  setSubroutines mini12 (subroutineAddresses foo_program) (subroutineCommands foo_program)
    silent_device = (Raise (NameError "Opcode"), silent_device).
Proof.
  apply (proj1 (subroutine_table_never_built mini12 (subroutineCommands foo_program)
                  silent_device) "foo"%string 300 [] 130).
  apply lookup_singleton_eq.
Defined.

(** ** The terminator of an uploaded script *)

Lemma Usc_init_maxScriptLength (productID : Z) (self : Usc) :
  Usc_init productID = Some self ->
  maxScriptLength self = 1024 \/ maxScriptLength self = 8192.
Proof.
  unfold Usc_init. intros Hinit.
  repeat match type of Hinit with
         | (if ?c then _ else _) = _ => destruct c
         end;
    try discriminate; injection Hinit as <-; cbn; auto.
Qed.

Lemma issues_reinitialize (P : transfer -> Prop) (self : Usc) (waitTime : Z) :
  (forall t, bRequest t <> REQUEST_WRITE_SCRIPT -> P t) ->
  issues P (_reinitialize self waitTime).
Proof.
  intros HP. unfold _reinitialize, getVariables, _getVariableMicroMaestro,
    _getVariableMiniMaestro.
  repeat first [ apply issues_ctrl_transfer; apply HP; discriminate | issues_step ].
Qed.

(** C4: no terminator is ever appended. For a byte code strictly shorter
    than maxScriptLength the source evaluates [Opcode.QUIT] to append it,
    and main.py binds no name [Opcode]: the upload raises NameError right
    after the set-script-done transfer, before the erase, and nothing is
    appended or written. A byte code of exactly maxScriptLength is uploaded
    without a terminator (shown for a program without subroutines, the only
    ones whose table is built): set-script-done, erase, the sixteen table
    blocks, then the blocks of the byte code alone, and after them no
    further write to script memory. A longer program raises the
    script-too-long error after the set-script-done transfer. *)
Theorem loadProgram_terminator_never_appended (productID : Z) (self : Usc)
    (program : BytecodeProgram) (CRC : bool) (d : usb) :
  Usc_init productID = Some self ->
  (Z.of_nat (length (byteList program)) < maxScriptLength self ->
   loadProgram self (Some program) CRC d =
     (Raise (NameError "Opcode"),
      {| log := log d ++ [set_script_done_transfer 1]; reply := reply d |})) /\
  (Z.of_nat (length (byteList program)) = maxScriptLength self ->
   Forall valid_byte (byteList program) -> subroutineAddresses program = [] ->
   exists tail,
     log (loadProgram self (Some program) CRC d).2 =
       log d ++ [set_script_done_transfer 1; erase_script_transfer]
         ++ block_transfers (subroutineOffsetBlocks self) (replicate 256 0xFF)
         ++ block_transfers 0 (byteList program) ++ tail /\
     flat_map transfer_data (block_transfers 0 (byteList program)) = byteList program /\
     Forall (fun t => bRequest t <> REQUEST_WRITE_SCRIPT) tail) /\
  (Z.of_nat (length (byteList program)) > maxScriptLength self ->
   loadProgram self (Some program) CRC d =
     (Raise (ScriptTooLong (Z.of_nat (length (byteList program)))),
      {| log := log d ++ [set_script_done_transfer 1]; reply := reply d |})).
Proof.
  intros Hinit.
  split; [| split].
  3: { intros Hlen. apply loadProgram_too_long. exact Hlen. }
  - intros Hlt. unfold loadProgram. rewrite bind_run, setScriptDone_run.
    cbn [of_option]. rewrite bind_run. unfold lift at 1.
    destruct (Z.gtb_spec (Z.of_nat (length (byteList program))) (maxScriptLength self));
      [lia |].
    destruct (Z.ltb_spec (Z.of_nat (length (byteList program))) (maxScriptLength self));
      [| lia].
    reflexivity.
  - intros Heq Hvalid Hnone.
    assert (Hpad : pad16 (byteList program) = byteList program).
    { unfold pad16.
      destruct (Usc_init_maxScriptLength _ _ Hinit) as [Hm | Hm];
        rewrite Heq, Hm; cbn; apply app_nil_r. }
    set (rest := ((if CRC then _setRawParameter PARAMETER_SCRIPT_CRC (crc program)
                   else mret tt);;
                  _reinitialize self 100) : M unit).
    assert (Hrest : issues (fun t => bRequest t <> REQUEST_WRITE_SCRIPT) rest).
    { unfold rest. apply issues_bind; [| intros _; apply issues_reinitialize; auto].
      destruct CRC; issues_step. }
    assert (Hrun : loadProgram self (Some program) CRC d =
              rest {| log := log d ++ [set_script_done_transfer 1; erase_script_transfer]
                               ++ block_transfers (subroutineOffsetBlocks self)
                                    (replicate 256 0xFF)
                               ++ block_transfers 0 (byteList program);
                      reply := reply d |}).
    { unfold loadProgram. rewrite bind_run, setScriptDone_run.
      cbn [of_option]. rewrite bind_run. unfold lift at 1.
      destruct (Z.gtb_spec (Z.of_nat (length (byteList program))) (maxScriptLength self));
        [lia |].
      destruct (Z.ltb_spec (Z.of_nat (length (byteList program))) (maxScriptLength self));
        [lia |].
      rewrite bind_run. cbn [mret M_ret]. rewrite bind_run, eraseScript_run.
      rewrite Hnone.
      rewrite bind_run, (setSubroutines_run self [] _ (replicate 256 0xFF) _ eq_refl).
      rewrite bind_run. rewrite (writeScript_run (byteList program) _ Hvalid), Hpad.
      cbn [log reply]. fold rest. f_equal. f_equal.
      rewrite <- !app_assoc. reflexivity. }
    destruct (Hrest {| log := log d ++ [set_script_done_transfer 1; erase_script_transfer]
                                ++ block_transfers (subroutineOffsetBlocks self)
                                     (replicate 256 0xFF)
                                ++ block_transfers 0 (byteList program);
                       reply := reply d |}) as (tail & Hlog & _ & Htail).
    rewrite <- Hrun in Hlog. cbn [log] in Hlog.
    exists tail.
    split; [rewrite Hlog, <- !app_assoc; reflexivity |].
    split; [| exact Htail].
    rewrite <- Hpad at 1. rewrite block_transfers_pad16. exact Hpad.
Qed.

Lemma loadProgram_terminator_never_appended_witness :
  loadProgram micro (Some foo_program) true silent_device =
    (Raise (NameError "Opcode"),
     {| log := [set_script_done_transfer 1]; reply := reply silent_device |}).
Proof.
  apply (proj1 (loadProgram_terminator_never_appended 0x0089 micro foo_program true
                  silent_device eq_refl)).
  cbn. lia.
Defined.

(** ** Reconciliation of the channel settings *)

Lemma channelSettings_set (s : UscSettings) (cs : list ChannelSetting) :
  channelSettings (set_channelSettings s cs) = cs.
Proof. reflexivity. Qed.

Lemma len_set_channelSettings (s : UscSettings) (cs : list ChannelSetting) :
  len (set_channelSettings s cs) = Z.of_nat (length cs).
Proof. reflexivity. Qed.

(** The padding loop ends within [servoCount - len(settings)] rounds and
    appends that many channel settings, leaving the other fields alone. *)
Lemma fixSettings_pad_spec (self : Usc) (fuel : nat) (settings : UscSettings) :
  servoCount self - len settings <= Z.of_nat fuel ->
  exists settings' padding,
    fixSettings_pad self fuel settings = Some settings' /\
    channelSettings settings' = channelSettings settings ++ padding /\
    Z.of_nat (length padding) = Z.max 0 (servoCount self - len settings) /\
    Forall is_padding padding /\
    serialDeviceNumber settings' = serialDeviceNumber settings.
Proof.
  revert settings. induction fuel as [| fuel IH]; intros settings Hfuel.
  - exists settings, []. cbn [fixSettings_pad].
    destruct (Z.ltb_spec (len settings) (servoCount self)); [lia |].
    rewrite app_nil_r. repeat split; [cbn; lia | constructor].
  - cbn [fixSettings_pad].
    destruct (Z.ltb_spec (len settings) (servoCount self)) as [Hlt | Hge].
    + match goal with
      | |- context [fixSettings_pad self fuel ?s1] =>
          destruct (IH s1) as (settings' & padding & Hrun & Hcs & Hlen & Hpad & Hsdn)
      end.
      { rewrite len_set_channelSettings, length_app. cbn. unfold len in *. lia. }
      rewrite channelSettings_set in Hcs.
      rewrite len_set_channelSettings, length_app in Hlen. cbn in Hlen.
      eexists settings', (_ :: padding). split; [exact Hrun |].
      split; [rewrite Hcs, <- app_assoc; reflexivity |].
      split; [cbn [length]; unfold len in *; lia |].
      split; [| exact Hsdn].
      constructor; [| exact Hpad].
      destruct (microMaestro self && (servosAvailable settings <=? len settings));
        [right | left]; reflexivity.
    + exists settings, []. rewrite app_nil_r.
      repeat split; [cbn; lia | constructor].
Qed.

(** C8, as the code has it: [fixSettings] returns, and leaves exactly
    servoCount channel settings: the first servoCount of a longer sequence,
    a shorter sequence followed by default channel settings (their mode
    possibly Input), each passed through the per-channel fix-up. The
    warnings are one for a truncation or a padding, followed by one for a
    serial device number of 128 or more; so the list is non-empty if and
    only if truncation or padding occurred or the serial device number was
    128 or more. *)
Theorem fixSettings_channel_count (self : Usc) (settings : UscSettings) :
  0 <= servoCount self ->
  exists settings' warnings,
    fixSettings self settings = Some (settings', warnings) /\
    Z.of_nat (length (channelSettings settings')) = servoCount self /\
    (len settings >= servoCount self ->
       channelSettings settings' =
         fixSettings_channel <$> take (Z.to_nat (servoCount self)) (channelSettings settings)) /\
    (len settings < servoCount self ->
       exists padding,
         Z.of_nat (length padding) = servoCount self - len settings /\
         Forall is_padding padding /\
         channelSettings settings' =
           fixSettings_channel <$> (channelSettings settings ++ padding)) /\
    warnings =
      (if len settings >? servoCount self
       then [TooManyChannels (len settings) (servoCount self)]
       else if len settings <? servoCount self
       then [TooFewChannels (len settings) (servoCount self)] else [])
      ++ (if serialDeviceNumber settings >=? 128 then [SerialDeviceNumberChanged] else []) /\
    (warnings <> [] <->
       len settings <> servoCount self \/ serialDeviceNumber settings >= 128).
Proof.
  intros Hcount. unfold fixSettings. cbn zeta.
  destruct (Z.gtb_spec (len settings) (servoCount self)) as [Hgt | Hle].
  - (* truncation *)
    rewrite len_set_channelSettings, length_take.
    destruct (Z.ltb_spec (Z.of_nat (Z.to_nat (servoCount self) `min` length (channelSettings settings)))
                (servoCount self)) as [Hlt | _]; [unfold len in *; lia |].
    cbn [mbind option_bind].
    destruct (Z.ltb_spec (len settings) (servoCount self)); [lia |].
    change (serialDeviceNumber (set_channelSettings _ _)) with (serialDeviceNumber settings).
    destruct (Z.geb_spec (serialDeviceNumber settings) 128);
      eexists _, _; (split; [reflexivity |]); cbn [channelSettings set_serialDeviceNumber
        set_channelSettings]; rewrite length_fmap, length_take;
      (split; [unfold len in *; lia |]);
      (split; [intros _; reflexivity |]);
      (split; [intros; lia |]);
      (split; [reflexivity |]);
      (split; [intros _; lia | intros _; discriminate]).
  - destruct (Z.ltb_spec (len settings) (servoCount self)) as [Hlt | Hge].
    + (* padding *)
      destruct (fixSettings_pad_spec self (Z.to_nat (servoCount self - len settings)) settings)
        as (settings1 & padding & Hrun & Hcs & Hlen & Hpad & Hsdn); [lia |].
      rewrite Hrun. cbn [mbind option_bind].
      change (serialDeviceNumber (set_channelSettings ?s _)) with (serialDeviceNumber s).
      rewrite Hsdn.
      destruct (Z.geb_spec (serialDeviceNumber settings) 128);
        eexists _, _; (split; [reflexivity |]); cbn [channelSettings set_serialDeviceNumber
          set_channelSettings]; rewrite length_fmap, Hcs, length_app;
        (split; [unfold len in *; lia |]);
        (split; [intros; lia |]);
        (split; [intros _; exists padding; repeat split; [lia | exact Hpad] |]);
        (split; [reflexivity |]);
        (split; [intros _; lia | intros _; discriminate]).
    + (* the length is right already *)
      cbn [mbind option_bind].
      change (serialDeviceNumber (set_channelSettings ?s _)) with (serialDeviceNumber s).
      assert (Htake : take (Z.to_nat (servoCount self)) (channelSettings settings)
                      = channelSettings settings).
      { apply take_ge. unfold len in *. lia. }
      destruct (Z.geb_spec (serialDeviceNumber settings) 128);
        eexists _, _; (split; [reflexivity |]); cbn [channelSettings set_serialDeviceNumber
          set_channelSettings]; rewrite length_fmap;
        (split; [unfold len in *; lia |]);
        (split; [intros _; rewrite Htake; reflexivity |]);
        (split; [intros; lia |]);
        (split; [reflexivity |]).
      * split; [intros _; lia | intros _; discriminate].
      * split; [intros Hw; contradiction | intros [Hne | Hsd]; lia].
Qed.

Lemma fixSettings_channel_count_witness :
  exists settings' warnings,
    fixSettings micro (set_channelSettings UscSettings_init [ChannelSetting_init])
      = Some (settings', warnings) /\
    Z.of_nat (length (channelSettings settings')) = 6.
Proof.
  destruct (fixSettings_channel_count micro
              (set_channelSettings UscSettings_init [ChannelSetting_init]))
    as (settings' & warnings & Hrun & Hlen & _); [cbn; lia |].
  exists settings', warnings. split; [exact Hrun | exact Hlen].
Defined.

(** With six channel settings on the compact variant nothing is truncated
    or padded, yet a serial device number of 200 leaves one warning. *)
Lemma fixSettings_warns_without_resizing :
  len (set_serialDeviceNumber six_channel_settings 200) = servoCount micro /\
  snd <$> fixSettings micro (set_serialDeviceNumber six_channel_settings 200)
    = Some [SerialDeviceNumberChanged] /\
  (fun r => channelSettings r.1)
    <$> fixSettings micro (set_serialDeviceNumber six_channel_settings 200)
    = Some (fixSettings_channel <$> channelSettings six_channel_settings).
Proof. vm_compute. repeat split; reflexivity. Qed.

(** ** The status buffer of the compact variant *)

(** C9, as the code has it: the combined buffer of the compact variant is
    a 96-byte variables record followed by one 7-byte record per channel.
    The variables record is: stack pointer (offset 0, 1 byte), call-stack
    pointer (1, 1 byte), error flags (2, 2 bytes), three reserved signed
    16-bit slots (4 to 9), 32 signed 16-bit stack slots (10 to 73), 10
    unsigned 16-bit call-stack slots (74 to 93), script-done flag (94) and
    one reserved byte (95). A channel record is 2-byte position, 2-byte
    target, 2-byte speed and 1-byte acceleration. *)
Theorem micro_status_layout (self : Usc) (d : usb) (packed : list Z) :
  microMaestro self = true -> servoCount self = 6 ->
  reply d (get_variables_transfer 138) = packed ->
  length packed = 138%nat ->
  struct_size MicroMaestroVariables_struct = 96%nat /\
  struct_size ServoStatus_struct = 7%nat /\
  _getVariableMicroMaestro self d =
    (Ok ({| stackPointer := byte_at packed 0;
            callStackPointer := byte_at packed 1;
            errors := u16_at packed 2;
            buffer := (fun k => s16_at packed (4 + 2 * k)) <$> seq 0 3;
            stack := (fun k => s16_at packed (10 + 2 * k)) <$> seq 0 32;
            callStack := (fun k => u16_at packed (74 + 2 * k)) <$> seq 0 10;
            Protocol.scriptDone := byte_at packed 94;
            buffer2 := byte_at packed 95 |},
         (fun i => {| position := u16_at packed (96 + 7 * i);
                      target := u16_at packed (98 + 7 * i);
                      Protocol.speed := u16_at packed (100 + 7 * i);
                      Protocol.acceleration := byte_at packed (102 + 7 * i) |})
           <$> seq 0 6),
     {| log := log d ++ [get_variables_transfer 138]; reply := reply d |}).
Proof.
  intros Hmicro Hcount Hreply Hlen.
  split; [reflexivity |]. split; [reflexivity |].
  unfold _getVariableMicroMaestro, servos_of. rewrite Hcount.
  rewrite bind_run.
  change (ctrl_transfer 192 REQUEST_GET_VARIABLES 0 0
            (LengthIn (Z.of_nat (struct_size MicroMaestroVariables_struct)
                       + 6 * Z.of_nat (struct_size ServoStatus_struct))) d)
    with (Ok (reply d (get_variables_transfer 138)),
          {| log := log d ++ [get_variables_transfer 138]; reply := reply d |}).
  rewrite Hreply. cbn beta iota.
  do 138 (destruct packed as [| ? packed]; [discriminate |]).
  destruct packed; [| discriminate]. clear Hlen Hreply.
  reflexivity.
Qed.

Lemma micro_status_layout_witness :
  exists variables servos,
    (_getVariableMicroMaestro micro counting_device).1 = Ok (variables, servos) /\
    Protocol.stack variables !! 0%nat = Some (10 + 256 * 11) /\
    position <$> servos !! 0%nat = Some (96 + 256 * 97).
Proof.
  destruct (micro_status_layout micro counting_device (seqZ 0 138)
              eq_refl eq_refl eq_refl eq_refl) as (_ & _ & Hrun).
  rewrite Hrun. eexists _, _. split; [reflexivity |]. split; reflexivity.
Defined.

(** The variables record has 96 bytes, not the 93 of a record with three
    reserved bytes: in the buffer 0, 1, ..., 137 the first stack slot is read
    at offsets 10 and 11, where three reserved bytes would put it at offsets
    7 and 8, and a 93-byte record is refused. *)
Lemma micro_variables_reserved_slots :
  struct_size MicroMaestroVariables_struct = 96%nat /\
  struct_size three_reserved_bytes_struct = 93%nat /\
  (v ← MicroMaestroVariables_init (slice (seqZ 0 138) 0 96); Protocol.stack v !! 0%nat)
    = Some (le16 10 11) /\
  (unpacked ← struct_unpack three_reserved_bytes_struct (slice (seqZ 0 138) 0 93);
   slice unpacked 6 38 !! 0%nat) = Some (le16 7 8) /\
  MicroMaestroVariables_init (slice (seqZ 0 138) 0 93) = None.
Proof. vm_compute. repeat split; reflexivity. Qed.

(** ** More on the parameter table *)

Lemma listed_below_servo_region (parameterId : Z) :
  listed parameterId = true -> 0 <= parameterId < PARAMETER_SERVO0_HOME.
Proof.
  unfold listed, deviceWideParameters, Zmem. cbn [existsb].
  rewrite !orb_true_iff. intros Hl.
  repeat (destruct Hl as [Hl | Hl];
          [apply Z.eqb_eq in Hl; subst parameterId; vm_compute; split; congruence |]).
  discriminate.
Qed.

Lemma getRange_fits_width_aux (parameterId : Z) (r : Range) :
  getRange parameterId = Ok r ->
  (bytes r = 1 \/ bytes r = 2) /\
  0 <= minimumValue r <= maximumValue r /\
  maximumValue r < 2 ^ (8 * bytes r).
Proof.
  intros Hr. destruct (listed parameterId) eqn:Hl.
  - revert Hl Hr. unfold listed, deviceWideParameters, Zmem. cbn [existsb].
    rewrite !orb_true_iff. intros Hl.
    repeat (destruct Hl as [Hl | Hl];
            [apply Z.eqb_eq in Hl; subst parameterId; intros [= <-]; vm_compute;
             repeat split; (congruence || (left; reflexivity) || (right; reflexivity)) |]).
    discriminate.
  - rewrite (getRange_unlisted _ Hl) in Hr. cbn zeta in Hr.
    destruct (Zmem (foldedSlot parameterId) [37; 33; 32; 38]);
      [injection Hr as <-; vm_compute; repeat split; (congruence || (left; reflexivity)) |].
    destruct (Zmem (foldedSlot parameterId) [30; 34]);
      [injection Hr as <-; vm_compute; repeat split; (congruence || (right; reflexivity)) |].
    destruct (foldedSlot parameterId =? 36);
      [injection Hr as <-; vm_compute; repeat split; (congruence || (left; reflexivity)) |].
    discriminate.
Qed.

(** Every range [getRange] returns is one or two bytes wide, starts at 0 or
    above and ends within what its width can hold. *)
Theorem getRange_fits_width (parameterId : Z) (r : Range) :
  getRange parameterId = Ok r ->
  (bytes r = 1 \/ bytes r = 2) /\
  0 <= minimumValue r <= maximumValue r /\
  maximumValue r < 2 ^ (8 * bytes r).
Proof. exact (getRange_fits_width_aux parameterId r). Qed.

Lemma getRange_fits_width_witness :
  (bytes Range_u16 = 1 \/ bytes Range_u16 = 2) /\
  0 <= minimumValue Range_u16 <= maximumValue Range_u16 /\
  maximumValue Range_u16 < 2 ^ (8 * bytes Range_u16).
Proof. apply (getRange_fits_width PARAMETER_SERIAL_TIMEOUT Range_u16). reflexivity. Defined.

(** The range of a per-servo parameter does not depend on the servo: the
    seven servo-0 parameters keep their range at every channel, and the
    second bytes of home and neutral (slots 31 and 35) have none at any
    channel. *)
Theorem getRange_per_servo (p servo : Z) :
  0 <= servo -> PARAMETER_SERVO0_HOME <= p <= PARAMETER_SERVO0_ACCELERATION ->
  (p <> 31 -> p <> 35 -> getRange (specifyServo p servo) = getRange p) /\
  (p = 31 \/ p = 35 ->
     getRange (specifyServo p servo) = Raise (InvalidParameterId (specifyServo p servo))).
Proof.
  unfold PARAMETER_SERVO0_HOME, PARAMETER_SERVO0_ACCELERATION. intros Hservo Hp.
  assert (Hun : forall q, 30 <= q -> listed q = false).
  { intros q Hq. destruct (listed q) eqn:Hl; [| reflexivity].
    apply listed_below_servo_region in Hl. unfold PARAMETER_SERVO0_HOME in Hl. lia. }
  assert (Hfold : foldedSlot (specifyServo p servo) = p).
  { unfold foldedSlot, specifyServo, servoParameterBytes, PARAMETER_SERVO0_HOME.
    replace (p + servo * 9 - 30) with (p - 30 + servo * 9) by lia.
    rewrite Z.mod_add by lia. rewrite Z.mod_small by lia. lia. }
  assert (Hfold0 : foldedSlot p = p).
  { unfold foldedSlot, PARAMETER_SERVO0_HOME. rewrite Z.mod_small by lia. lia. }
  rewrite (getRange_unlisted (specifyServo p servo))
    by (apply Hun; unfold specifyServo, servoParameterBytes; lia).
  rewrite (getRange_unlisted p) by (apply Hun; lia).
  cbn zeta. rewrite Hfold, Hfold0. split.
  - intros H31 H35.
    assert (Hcases : p = 30 \/ p = 32 \/ p = 33 \/ p = 34 \/ p = 36 \/ p = 37 \/ p = 38) by lia.
    destruct Hcases as [-> | [-> | [-> | [-> | [-> | [-> | ->]]]]]]; reflexivity.
  - intros [-> | ->]; reflexivity.
Qed.

Lemma getRange_per_servo_witness :
  getRange (specifyServo PARAMETER_SERVO0_RANGE 23) = getRange PARAMETER_SERVO0_RANGE.
Proof.
  apply (proj1 (getRange_per_servo PARAMETER_SERVO0_RANGE 23 ltac:(lia)
                  ltac:(vm_compute; split; congruence))); vm_compute; congruence.
Defined.

(** ** More on the speed codec *)

(** A non-negative speed is encoded as a byte, which the range check of
    the speed parameter accepts; a negative speed is encoded as eight times
    itself, which the check refuses. *)
Theorem normalSpeed_encoded_range (v : Z) :
  exists b, _normalSpeedToExponentialSpeed v = Some b /\
    (0 <= v -> 0 <= b <= 255 /\
               requireArgumentRange b 0 255 PARAMETER_SERVO0_SPEED = Ok tt) /\
    (v < 0 -> b = 8 * v /\
              requireArgumentRange b 0 255 PARAMETER_SERVO0_SPEED
                = Raise (ArgumentOutOfRange PARAMETER_SERVO0_SPEED b 0 255)).
Proof.
  destruct (normalSpeed_loop_spec 8 v 0) as (b & Hb & Hcases); [lia | lia |].
  rewrite Z.shiftr_0_r in Hb. exists b. split; [exact Hb |]. split.
  - intros Hv.
    assert (Hrange : 0 <= b <= 255).
    { destruct Hcases as [(e & He & Hlt & _ & ->) | [_ ->]]; [| lia].
      rewrite Z.shiftl_mul_pow2 by lia. change (2 ^ 3) with 8.
      assert (0 <= Z.shiftr v e) by (apply Z.shiftr_nonneg; exact Hv). lia. }
    split; [exact Hrange | apply requireArgumentRange_Ok; exact Hrange].
  - intros Hv.
    assert (Hb8 : b = 8 * v).
    { unfold _normalSpeedToExponentialSpeed in Hb. cbn [normalSpeed_loop] in Hb.
      destruct (Z.ltb_spec v 32); [| lia]. injection Hb as <-.
      rewrite Z.shiftl_mul_pow2 by lia. change (2 ^ 3) with 8. lia. }
    split; [exact Hb8 |]. apply requireArgumentRange_Raise. lia.
Qed.

Lemma normalSpeed_encoded_range_witness :
  exists b, _normalSpeedToExponentialSpeed 3000 = Some b /\ 0 <= b <= 255.
Proof.
  destruct (normalSpeed_encoded_range 3000) as (b & Hb & Hpos & _).
  exists b. split; [exact Hb | apply Hpos; lia].
Defined.

Lemma exponentialSpeed_stable_bytes :
  forallb (fun b =>
             match _normalSpeedToExponentialSpeed (_exponentialSpeedToNormalSpeed b) with
             | Some b' => _exponentialSpeedToNormalSpeed b' =? _exponentialSpeedToNormalSpeed b
             | None => false
             end) (seqZ 0 256) = true.
Proof. vm_compute. reflexivity. Qed.

(** A speed read from the device survives being written back: encoding the
    decoded value of any byte gives a byte that decodes to the same speed
    (not always the same byte: 1 and 0 both mean speed 0). *)
Theorem exponentialSpeed_read_write_read (b : Z) :
  0 <= b <= 255 ->
  exists b', _normalSpeedToExponentialSpeed (_exponentialSpeedToNormalSpeed b) = Some b' /\
             _exponentialSpeedToNormalSpeed b' = _exponentialSpeedToNormalSpeed b.
Proof.
  intros Hb. pose proof exponentialSpeed_stable_bytes as Hall.
  rewrite forallb_forall in Hall. specialize (Hall b).
  destruct (_normalSpeedToExponentialSpeed (_exponentialSpeedToNormalSpeed b)) as [b' |].
  - exists b'. split; [reflexivity |]. apply Z.eqb_eq. apply Hall.
    apply list_elem_of_In, elem_of_seqZ. lia.
  - enough (false = true) by discriminate.
    apply Hall. apply list_elem_of_In, elem_of_seqZ. lia.
Qed.

Lemma exponentialSpeed_read_write_read_witness :
  exists b', _normalSpeedToExponentialSpeed (_exponentialSpeedToNormalSpeed 1) = Some b' /\
             _exponentialSpeedToNormalSpeed b' = _exponentialSpeedToNormalSpeed 1.
Proof. apply (exponentialSpeed_read_write_read 1). lia. Defined.

(** ** More on the baud-rate transform *)

Lemma convertBpsToSpbrg_above (bps : Z) :
  2 * INSTRUCTION_FREQUENCY < bps -> _convertBpsToSpbrg bps = 0.
Proof.
  intros Hb. unfold _convertBpsToSpbrg, int_truediv.
  destruct (Z.eqb_spec bps 0); [unfold INSTRUCTION_FREQUENCY in Hb; lia |].
  rewrite <- (Z.opp_involutive (2 * INSTRUCTION_FREQUENCY - bps)).
  rewrite Z.quot_opp_l by lia.
  rewrite Z.quot_small; [reflexivity |].
  unfold INSTRUCTION_FREQUENCY in *. lia.
Qed.

(** The register value of a non-negative baud rate below 2^53, where the
    division of the source is exact, passes the 16-bit range check of its
    parameter exactly for 0 (autodetect) and for rates of at least 184 bits
    per second: the rates 1 to 183 cannot be written. *)
Theorem convertBpsToSpbrg_fits (bps : Z) :
  0 <= bps < 2 ^ 53 ->
  (requireArgumentRange (_convertBpsToSpbrg bps) 0 0xFFFF PARAMETER_SERIAL_FIXED_BAUD_RATE
     = Ok tt <-> bps = 0 \/ 184 <= bps).
Proof.
  intros [Hb _]. rewrite requireArgumentRange_Ok.
  destruct (Z.eq_dec bps 0) as [-> | Hne]; [vm_compute; intuition congruence |].
  destruct (Z.le_gt_cases bps (2 * INSTRUCTION_FREQUENCY)) as [Hle | Hgt].
  - rewrite convertBpsToSpbrg_floor by lia.
    unfold INSTRUCTION_FREQUENCY in *.
    pose proof (Z.div_mod (2 * 12000000 - bps) (2 * bps) ltac:(lia)) as Hdm.
    pose proof (Z.mod_pos_bound (2 * 12000000 - bps) (2 * bps) ltac:(lia)) as Hmod.
    split.
    + intros Hr. right. nia.
    + intros [H0 | H184]; [lia |]. split; [apply Z.div_pos; lia | nia].
  - rewrite convertBpsToSpbrg_above by lia.
    unfold INSTRUCTION_FREQUENCY in Hgt. split; [intros _; right; lia | intros _; lia].
Qed.

Lemma convertBpsToSpbrg_fits_witness :
  requireArgumentRange (_convertBpsToSpbrg 184) 0 0xFFFF PARAMETER_SERIAL_FIXED_BAUD_RATE
    = Ok tt.
Proof.
  apply (proj2 (convertBpsToSpbrg_fits 184 ltac:(split; [lia | reflexivity]))).
  right. lia.
Defined.

Lemma spbrg_stable_values :
  forallb (fun spbrg =>
             match _convertSpbrgToBps spbrg with
             | Ok bps => _convertBpsToSpbrg bps =? spbrg
             | Raise _ => false
             end) (seqZ 0 3495) = true.
Proof. vm_compute. reflexivity. Qed.

(** A baud-rate register value up to 3494 survives being read and written
    back: the rate it is decoded to is encoded as the same register value.
    3495 is the first value that comes back changed. *)
Theorem spbrg_read_write (spbrg : Z) :
  0 <= spbrg <= 3494 ->
  exists bps, _convertSpbrgToBps spbrg = Ok bps /\ _convertBpsToSpbrg bps = spbrg.
Proof.
  intros Hs. pose proof spbrg_stable_values as Hall.
  rewrite forallb_forall in Hall. specialize (Hall spbrg).
  destruct (_convertSpbrgToBps spbrg) as [bps | e].
  - exists bps. split; [reflexivity |]. apply Z.eqb_eq. apply Hall.
    apply list_elem_of_In, elem_of_seqZ. lia.
  - enough (false = true) by discriminate.
    apply Hall. apply list_elem_of_In, elem_of_seqZ. lia.
Qed.

Lemma spbrg_read_write_witness :
  exists bps, _convertSpbrgToBps 1249 = Ok bps /\ _convertBpsToSpbrg bps = 1249.
Proof. apply (spbrg_read_write 1249). lia. Defined.

Example spbrg_3495_changes :
  _convertSpbrgToBps 3495 = Ok 3432 /\ _convertBpsToSpbrg 3432 = 3496.
Proof. vm_compute. split; reflexivity. Qed.

(** ** The firmware version *)

Lemma bcd_value_bounds (b : Z) : 0 <= bcd_value b <= 165.
Proof.
  unfold bcd_value. change 15 with (Z.ones 4). rewrite !Z.land_ones by lia.
  pose proof (Z.mod_pos_bound b (2 ^ 4) ltac:(lia)).
  pose proof (Z.mod_pos_bound (Z.shiftr b 4) (2 ^ 4) ltac:(lia)).
  change (2 ^ 4) with 16 in *. lia.
Qed.

Lemma bcd_value_digits (hi lo : Z) :
  0 <= hi <= 9 -> 0 <= lo <= 9 -> bcd_value (16 * hi + lo) = 10 * hi + lo.
Proof.
  intros Hhi Hlo. unfold bcd_value. change 15 with (Z.ones 4).
  rewrite !Z.land_ones by lia. rewrite Z.shiftr_div_pow2 by lia.
  change (2 ^ 4) with 16.
  replace (16 * hi + lo) with (lo + hi * 16) by lia.
  rewrite Z.div_add, Z.mod_add by lia.
  rewrite (Z.div_small lo 16), (Z.mod_small lo 16) by lia.
  rewrite Z.mod_small by lia. lia.
Qed.

(** [getFirmwareVersion] reads the 18-byte descriptor once. With at least
    fourteen bytes in the answer it stores the two numbers decoded from
    bytes 12 and 13 (a byte of two decimal digits gives the number they
    spell); each stored number is between 0 and 165, never the 0xFF that
    marks "not read yet", so [firmwareVersionMajor] and
    [firmwareVersionMinor] then answer without a transfer. With thirteen
    bytes the minor number has been stored when the major one raises
    IndexError; with fewer, nothing is stored. *)
Theorem firmware_version_read (fw : firmware) (d : usb) (buffer : list Z) :
  reply d descriptor_transfer = buffer ->
  let d' := {| log := log d ++ [descriptor_transfer]; reply := reply d |} in
  (forall b12 b13, buffer !! 12%nat = Some b12 -> buffer !! 13%nat = Some b13 ->
     let fw' := {| _privateFirmwareVersionMajor := bcd_value b13;
                   _privateFirmwareVersionMinor := bcd_value b12 |} in
     getFirmwareVersion fw d = (Ok tt, fw', d') /\
     0 <= bcd_value b13 <= 165 /\ 0 <= bcd_value b12 <= 165 /\
     (forall hi lo, 0 <= hi <= 9 -> 0 <= lo <= 9 -> b13 = 16 * hi + lo ->
        bcd_value b13 = 10 * hi + lo) /\
     (forall d2, firmwareVersionMajor fw' d2 = (Ok (bcd_value b13), fw', d2)) /\
     (forall d2, firmwareVersionMinor fw' d2 = (Ok (bcd_value b12), fw', d2))) /\
  (forall b12, buffer !! 12%nat = Some b12 -> length buffer = 13%nat ->
     getFirmwareVersion fw d =
       (Raise IndexError,
        {| _privateFirmwareVersionMajor := _privateFirmwareVersionMajor fw;
           _privateFirmwareVersionMinor := bcd_value b12 |}, d')) /\
  ((length buffer <= 12)%nat -> getFirmwareVersion fw d = (Raise IndexError, fw, d')).
Proof.
  intros Hreply d'.
  assert (Hctrl : ctrl_transfer 128 6 256 0 (LengthIn 18) d = (Ok buffer, d')).
  { unfold ctrl_transfer. cbn zeta. fold descriptor_transfer. rewrite Hreply. reflexivity. }
  unfold getFirmwareVersion. rewrite Hctrl. clear Hctrl.
  split; [| split].
  - intros b12 b13 H12 H13. cbv zeta.
    rewrite (proj2 (getitem_nonneg buffer 12 b12 ltac:(lia)) H12).
    rewrite (proj2 (getitem_nonneg buffer 13 b13 ltac:(lia)) H13).
    split; [reflexivity |].
    pose proof (bcd_value_bounds b13) as Hmaj. pose proof (bcd_value_bounds b12) as Hmin.
    split; [exact Hmaj |]. split; [exact Hmin |].
    split; [intros hi lo Hhi Hlo ->; apply bcd_value_digits; assumption |].
    split; intros d2.
    + unfold firmwareVersionMajor. cbn [_privateFirmwareVersionMajor].
      destruct (Z.eqb_spec (bcd_value b13) 255); [lia | reflexivity].
    + unfold firmwareVersionMinor. cbn [_privateFirmwareVersionMinor].
      destruct (Z.eqb_spec (bcd_value b12) 255); [lia | reflexivity].
  - intros b12 H12 Hlen.
    rewrite (proj2 (getitem_nonneg buffer 12 b12 ltac:(lia)) H12).
    assert (H13 : getitem buffer 13 = Raise IndexError).
    { unfold getitem, py_index. cbn zeta. rewrite Hlen. reflexivity. }
    rewrite H13. reflexivity.
  - intros Hlen.
    assert (H12 : getitem buffer 12 = Raise IndexError).
    { unfold getitem, py_index. cbn zeta.
      destruct (Z.ltb_spec 12 0); [lia |].
      destruct (Z.ltb_spec 12 0); [lia |].
      destruct (Z.leb_spec (Z.of_nat (length buffer)) 12); [reflexivity | lia]. }
    rewrite H12. reflexivity.
Qed.

Lemma firmware_version_read_witness :
  getFirmwareVersion firmware_init versioned_device =
    (Ok tt, {| _privateFirmwareVersionMajor := 1; _privateFirmwareVersionMinor := 2 |},
     {| log := [descriptor_transfer]; reply := reply versioned_device |}).
Proof.
  apply (proj1 (firmware_version_read firmware_init versioned_device _ eq_refl) 0x02 0x01);
    reflexivity.
Defined.

(** ** Speed and acceleration commands *)

Lemma lor_bit7 :
  forallb (fun servo => (Z.lor servo 0x80 =? servo + 128)
                        && (Z.land (Z.lor servo 0x80) 0x7F =? servo)) (seqZ 0 128) = true.
Proof. vm_compute. reflexivity. Qed.

(** Speed and acceleration are set with the same request; for a channel
    below 128 the acceleration command carries the channel plus 128 as its
    index, so it is never the speed command of a channel below 128, and
    clearing bit 7 of the index gives the channel back. *)
Theorem speed_acceleration_index (servo value : Z) (d : usb) :
  0 <= servo < 128 ->
  setSpeed servo value d =
    (Ok tt, {| log := log d ++ [servo_variable_transfer value servo]; reply := reply d |}) /\
  setAcceleration servo value d =
    (Ok tt, {| log := log d ++ [servo_variable_transfer value (servo + 128)];
               reply := reply d |}) /\
  Z.land (servo + 128) 0x7F = servo /\
  (forall servo' value', 0 <= servo' < 128 ->
     servo_variable_transfer value (servo + 128) <> servo_variable_transfer value' servo').
Proof.
  intros Hs. pose proof lor_bit7 as Hall. rewrite forallb_forall in Hall.
  specialize (Hall servo ltac:(apply list_elem_of_In, elem_of_seqZ; lia)).
  apply andb_true_iff in Hall as [Hlor Hland].
  apply Z.eqb_eq in Hlor. apply Z.eqb_eq in Hland. rewrite Hlor in Hland.
  split; [reflexivity |]. split.
  - unfold setAcceleration. rewrite bind_run. cbn. rewrite Hlor. reflexivity.
  - split; [exact Hland |].
    intros servo' value' Hs' Heq. injection Heq as _ Heq. lia.
Qed.

Lemma speed_acceleration_index_witness :
  setAcceleration 5 40 silent_device =
    (Ok tt, {| log := [servo_variable_transfer 40 133]; reply := reply silent_device |}).
Proof. apply (proj1 (proj2 (speed_acceleration_index 5 40 silent_device ltac:(lia)))). Defined.

(** ** The facets of the status read *)

Lemma for_each_result_Raise_inv {A St} (P : exn -> Prop) (l : list A)
    (body : A -> St -> result St) (s : St) (e : exn) :
  (forall x s1 e1, body x s1 = Raise e1 -> P e1) ->
  for_each l body s = Raise e -> P e.
Proof.
  intros Hbody. revert s. induction l as [| x l IH]; intros s; cbn; [discriminate |].
  destruct (body x s) as [s1 | e1] eqn:Hb; cbn.
  - apply IH.
  - intros [= <-]. eapply Hbody; eauto.
Qed.

Lemma servos_of_Raise (self : Usc) (servo_packed : list Z) (e : exn) :
  servos_of self servo_packed = Raise e -> e = StructError.
Proof.
  unfold servos_of. apply (for_each_result_Raise_inv (fun e => e = StructError)).
  intros i s1 e1. destruct (ServoStatus_init _); cbn; [discriminate | congruence].
Qed.

(** A facet name other than the four known ones raises. On the extended
    variant it does so before any transfer; on the compact variant the
    status read has been sent (and decoded, which may raise first) by the
    time the name is looked at. *)
Theorem getVariables_unknown_facet (self : Usc) (out : string) (d : usb) :
  ~ known_facet out ->
  (microMaestro self = false -> getVariables self out d = (Raise (UnknownOutput out), d)) /\
  (microMaestro self = true ->
   exists e,
     getVariables self out d =
       (Raise e,
        {| log := log d ++ [get_variables_transfer (96 + servoCount self * 7)];
           reply := reply d |}) /\
     (e = StructError \/ e = UnknownOutput out)).
Proof.
  unfold known_facet. intros Hout.
  assert (H1 : out <> "variables"%string) by tauto.
  assert (H2 : out <> "servos"%string) by tauto.
  assert (H3 : out <> "stack"%string) by tauto.
  assert (H4 : out <> "callStack"%string) by tauto.
  split; intros Hmicro; unfold getVariables; rewrite Hmicro.
  - unfold _getVariableMiniMaestro.
    destruct (decide (out = "variables"%string)); [contradiction |].
    destruct (decide (out = "servos"%string)); [contradiction |].
    destruct (decide (out = "stack"%string)); [contradiction |].
    destruct (decide (out = "callStack"%string)); [contradiction |].
    reflexivity.
  - rewrite bind_run. unfold _getVariableMicroMaestro. rewrite bind_run.
    change (ctrl_transfer 192 REQUEST_GET_VARIABLES 0 0
              (LengthIn (Z.of_nat (struct_size MicroMaestroVariables_struct)
                         + servoCount self * Z.of_nat (struct_size ServoStatus_struct))) d)
      with (Ok (reply d (get_variables_transfer (96 + servoCount self * 7))),
            {| log := log d ++ [get_variables_transfer (96 + servoCount self * 7)];
               reply := reply d |}).
    cbn beta iota. rewrite bind_run. unfold lift at 1.
    destruct (MicroMaestroVariables_init _) as [variables |]; cbn [of_option];
      [| exists StructError; split; [reflexivity | left; reflexivity]].
    rewrite bind_run. unfold lift at 1.
    destruct (servos_of self _) as [servos | e] eqn:Hservos.
    + exists (UnknownOutput out). split; [| right; reflexivity].
      cbn beta iota.
      destruct (decide (out = "variables"%string)); [contradiction |].
      destruct (decide (out = "servos"%string)); [contradiction |].
      destruct (decide (out = "stack"%string)); [contradiction |].
      destruct (decide (out = "callStack"%string)); [contradiction |].
      reflexivity.
    + apply servos_of_Raise in Hservos as ->.
      exists StructError. split; [reflexivity | left; reflexivity].
Qed.

Lemma getVariables_unknown_facet_witness :
  getVariables mini12 "errors" silent_device = (Raise (UnknownOutput "errors"), silent_device).
Proof.
  apply (proj1 (getVariables_unknown_facet mini12 "errors" silent_device
                  ltac:(unfold known_facet; intros [H | [H | [H | H]]]; discriminate)));
    reflexivity.
Defined.

Lemma unpack_items_range (fmt : list fmt_item) (packed : list Z) :
  Forall valid_byte packed -> length packed = struct_size fmt ->
  exists vs, unpack_items fmt packed = Some vs /\ Forall2 item_range fmt vs.
Proof.
  revert packed. induction fmt as [| c fmt IH]; intros packed Hvalid Hlen.
  - exists []. split; [reflexivity | constructor].
  - destruct c; cbn [struct_size foldr item_size] in Hlen; cbn [unpack_items].
    + destruct packed as [| b rest]; [discriminate |].
      apply Forall_cons in Hvalid as [Hb Hrest].
      destruct (IH rest Hrest) as (vs & Hvs & Hr); [cbn in Hlen; unfold struct_size; lia |].
      rewrite Hvs. exists (b :: vs). split; [reflexivity |].
      constructor; [exact Hb | exact Hr].
    + destruct packed as [| lo [| hi rest]]; try discriminate.
      apply Forall_cons in Hvalid as [Hlo Hrest].
      apply Forall_cons in Hrest as [Hhi Hrest].
      destruct (IH rest Hrest) as (vs & Hvs & Hr); [cbn in Hlen; unfold struct_size; lia |].
      rewrite Hvs. exists (le16 lo hi :: vs). split; [reflexivity |].
      constructor; [| exact Hr]. unfold valid_byte in *. unfold le16. cbn. lia.
    + destruct packed as [| lo [| hi rest]]; try discriminate.
      apply Forall_cons in Hvalid as [Hlo Hrest].
      apply Forall_cons in Hrest as [Hhi Hrest].
      destruct (IH rest Hrest) as (vs & Hvs & Hr); [cbn in Hlen; unfold struct_size; lia |].
      rewrite Hvs. exists (signed16 (le16 lo hi) :: vs). split; [reflexivity |].
      constructor; [| exact Hr]. unfold valid_byte in *. unfold signed16, le16. cbn.
      destruct (Z.leb_spec 32768 (lo + 256 * hi)); lia.
Qed.

Lemma ServoStatus_init_range (packed : list Z) :
  Forall valid_byte packed -> length packed = 7%nat ->
  exists s, ServoStatus_init packed = Some s /\ status_in_range s.
Proof.
  intros Hvalid Hlen.
  destruct (unpack_items_range ServoStatus_struct packed Hvalid Hlen) as (vs & Hvs & Hr).
  unfold ServoStatus_init, struct_unpack.
  destruct (decide (length packed = struct_size ServoStatus_struct)) as [_ | Hne];
    [| contradiction].
  rewrite Hvs. cbn [mbind option_bind].
  unfold ServoStatus_struct in Hr.
  repeat match goal with
         | Hf : Forall2 _ (_ :: _) _ |- _ =>
             apply Forall2_cons_inv_l in Hf as (? & ? & ? & Hf & ->)
         | Hf : Forall2 _ [] _ |- _ => apply Forall2_nil_inv_l in Hf as ->
         end.
  eexists. split; [reflexivity |]. repeat split; cbn in *; lia.
Qed.

Lemma MicroMaestroVariables_init_range (packed : list Z) :
  Forall valid_byte packed -> length packed = 96%nat ->
  exists v, MicroMaestroVariables_init packed = Some v /\
    length (Protocol.stack v) = 32%nat /\
    Forall (fun x => -32768 <= x <= 32767) (Protocol.stack v) /\
    length (callStack v) = 10%nat /\
    Forall (fun x => 0 <= x <= 65535) (callStack v).
Proof.
  intros Hvalid Hlen.
  destruct (unpack_items_range MicroMaestroVariables_struct packed Hvalid Hlen)
    as (vs & Hvs & Hr).
  unfold MicroMaestroVariables_init, struct_unpack.
  destruct (decide (length packed = struct_size MicroMaestroVariables_struct)) as [_ | Hne];
    [| contradiction].
  rewrite Hvs. cbn [mbind option_bind].
  unfold MicroMaestroVariables_struct in Hr. cbn [replicate app] in Hr.
  repeat match goal with
         | Hf : Forall2 _ (_ :: _) _ |- _ =>
             apply Forall2_cons_inv_l in Hf as (? & ? & ? & Hf & ->)
         | Hf : Forall2 _ [] _ |- _ => apply Forall2_nil_inv_l in Hf as ->
         end.
  eexists. split; [reflexivity |].
  cbn [Protocol.stack callStack slice take drop Nat.sub].
  split; [reflexivity |]. split; [| split; [reflexivity |]];
    repeat (constructor; [cbn in *; lia |]); constructor.
Qed.

Lemma for_each_result_seqZ_run {St} (I : Z -> St -> Prop) (body : Z -> St -> result St)
    (n : nat) (a : Z) (s : St) :
  I a s ->
  (forall i s1, a <= i < a + Z.of_nat n -> I i s1 ->
     exists s2, body i s1 = Ok s2 /\ I (i + 1) s2) ->
  exists s', for_each (seqZ a (Z.of_nat n)) body s = Ok s' /\ I (a + Z.of_nat n) s'.
Proof.
  revert a s. induction n as [| n IH]; intros a s Hinit Hstep.
  - rewrite seqZ_nil by lia. exists s. split; [reflexivity |].
    rewrite Z.add_0_r. exact Hinit.
  - rewrite seqZ_cons by lia.
    replace (Z.pred (Z.of_nat (S n))) with (Z.of_nat n) by lia.
    cbn [for_each].
    destruct (Hstep a s ltac:(lia) Hinit) as (s1 & Hbody & Hinv).
    rewrite Hbody. cbn [mbind result_bind].
    destruct (IH (Z.succ a) s1) as (s' & Hrun & Hfin).
    + replace (Z.succ a) with (a + 1) by lia. exact Hinv.
    + intros i s2 Hi. apply Hstep. lia.
    + exists s'. split; [exact Hrun |].
      replace (a + Z.of_nat (S n)) with (Z.succ a + Z.of_nat n) by lia. exact Hfin.
Qed.

Lemma servos_of_range (self : Usc) (servo_packed : list Z) :
  0 <= servoCount self -> Forall valid_byte servo_packed ->
  Z.of_nat (length servo_packed) = servoCount self * 7 ->
  exists servos, servos_of self servo_packed = Ok servos /\
    Z.of_nat (length servos) = servoCount self /\ Forall status_in_range servos.
Proof.
  intros Hcount Hvalid Hlen. unfold servos_of, range_.
  rewrite <- (Z2Nat.id (servoCount self) Hcount).
  destruct (for_each_result_seqZ_run
              (fun k servos => Z.of_nat (length servos) = k /\ Forall status_in_range servos)
              (fun i servos =>
                 s ← of_option StructError
                       (ServoStatus_init
                          (slice servo_packed (Z.to_nat i * struct_size ServoStatus_struct)
                             ((Z.to_nat i + 1) * struct_size ServoStatus_struct)));
                 Ok (servos ++ [s]))
              (Z.to_nat (servoCount self)) 0 []) as (servos & Hrun & Hn & Hall).
  - split; [reflexivity | constructor].
  - intros i servos Hi [Hn Hall].
    destruct (ServoStatus_init_range
                (slice servo_packed (Z.to_nat i * struct_size ServoStatus_struct)
                   ((Z.to_nat i + 1) * struct_size ServoStatus_struct))) as (s & Hs & Hok).
    + unfold slice. apply Forall_take, Forall_drop. exact Hvalid.
    + unfold slice. change (struct_size ServoStatus_struct) with 7%nat.
      rewrite length_take, length_drop. lia.
    + rewrite Hs. eexists. split; [reflexivity |]. split.
      * rewrite length_app. cbn. lia.
      * apply Forall_app. split; [exact Hall | constructor; [exact Hok | constructor]].
  - exists servos. split; [exact Hrun |]. split; [lia | exact Hall].
Qed.

(** On the compact variant, when the device answers the status read with
    96 + 7 * servoCount valid bytes, every facet is answered after exactly
    one transfer: "stack" with stackSize() values, each a signed 16-bit
    number, "callStack" with callStackSize() values, each an unsigned 16-bit
    number, and "servos" with servoCount records whose fields are within
    their widths. *)
Theorem micro_status_facets (self : Usc) (d : usb) :
  microMaestro self = true -> 0 <= servoCount self ->
  Forall valid_byte (reply d (get_variables_transfer (96 + servoCount self * 7))) ->
  Z.of_nat (length (reply d (get_variables_transfer (96 + servoCount self * 7))))
    = 96 + servoCount self * 7 ->
  let d' := {| log := log d ++ [get_variables_transfer (96 + servoCount self * 7)];
               reply := reply d |} in
  (exists vs, getVariables self "stack" d = (Ok (OutRaw vs), d') /\
     Z.of_nat (length vs) = stackSize self /\
     Forall (fun x => -32768 <= x <= 32767) vs) /\
  (exists vs, getVariables self "callStack" d = (Ok (OutRaw vs), d') /\
     Z.of_nat (length vs) = callStackSize self /\
     Forall (fun x => 0 <= x <= 65535) vs) /\
  (exists servos, getVariables self "servos" d = (Ok (OutServos servos), d') /\
     Z.of_nat (length servos) = servoCount self /\ Forall status_in_range servos).
Proof.
  intros Hmicro Hcount Hvalid Hlen d'.
  set (packed := reply d (get_variables_transfer (96 + servoCount self * 7))) in *.
  destruct (MicroMaestroVariables_init_range (slice packed 0 96))
    as (v & Hv & Hsl & Hsr & Hcl & Hcr).
  { unfold slice. apply Forall_take, Forall_drop. exact Hvalid. }
  { unfold slice. rewrite length_take, length_drop. lia. }
  destruct (servos_of_range self (drop 96 packed) Hcount) as (servos & Hservos & Hn & Hall).
  { apply Forall_drop. exact Hvalid. }
  { rewrite length_drop. lia. }
  assert (Hrun : _getVariableMicroMaestro self d = (Ok (v, servos), d')).
  { unfold _getVariableMicroMaestro. rewrite bind_run.
    change (ctrl_transfer 192 REQUEST_GET_VARIABLES 0 0
              (LengthIn (Z.of_nat (struct_size MicroMaestroVariables_struct)
                         + servoCount self * Z.of_nat (struct_size ServoStatus_struct))) d)
      with (Ok packed, d').
    cbn beta iota. rewrite bind_run. unfold lift at 1.
    change (struct_size MicroMaestroVariables_struct) with 96%nat.
    rewrite Hv. cbn [of_option]. rewrite bind_run. unfold lift at 1.
    rewrite Hservos. reflexivity. }
  unfold getVariables, stackSize, callStackSize. rewrite Hmicro.
  rewrite !bind_run, Hrun. cbn beta iota.
  split; [| split].
  - exists (Protocol.stack v). split; [reflexivity |].
    split; [rewrite Hsl; reflexivity | exact Hsr].
  - exists (callStack v). split; [reflexivity |].
    split; [rewrite Hcl; reflexivity | exact Hcr].
  - exists servos. split; [reflexivity |]. split; [exact Hn | exact Hall].
Qed.

Lemma micro_status_facets_witness :
  exists vs, getVariables micro "stack" idle_device
               = (Ok (OutRaw vs),
                  {| log := [get_variables_transfer 138]; reply := reply idle_device |}) /\
             Z.of_nat (length vs) = 32.
Proof.
  destruct (micro_status_facets micro idle_device) as [(vs & Hrun & Hlen & _) _].
  - reflexivity.
  - cbn. lia.
  - apply Forall_replicate. unfold valid_byte. lia.
  - reflexivity.
  - exists vs. split; [exact Hrun | exact Hlen].
Defined.

(** ** Programs the table cannot be built for *)

Lemma for_each_result_fails {A St} (l : list A) (x : A) (body : A -> St -> result St)
    (s : St) :
  x ∈ l -> (forall s1, exists e, body x s1 = Raise e) ->
  exists e, for_each l body s = Raise e.
Proof.
  intros Hin Hx. revert s. induction l as [| y l IH]; intros s.
  - apply elem_of_nil in Hin. contradiction.
  - cbn [for_each]. destruct (body y s) as [s1 | e] eqn:Hy; cbn [mbind result_bind].
    + apply elem_of_cons in Hin as [-> | Hin].
      * destruct (Hx s) as [e He]. congruence.
      * apply IH. exact Hin.
    + eauto.
Qed.

(** The table is built in full before its first block is sent, so a
    program the table cannot be built for sends no table block. Inside an
    upload of a byte code of exactly maxScriptLength, to which nothing is
    appended, the failure comes after the erase: the old script is gone and
    nothing has been written. *)
Theorem loadProgram_table_failure (self : Usc) (program : BytecodeProgram)
    (CRC : bool) (d : usb) (e : exn) :
  subroutineData_of (subroutineAddresses program) (subroutineCommands program) = Raise e ->
  setSubroutines self (subroutineAddresses program) (subroutineCommands program) d
    = (Raise e, d) /\
  (Z.of_nat (length (byteList program)) = maxScriptLength self ->
   loadProgram self (Some program) CRC d =
     (Raise e, {| log := log d ++ [set_script_done_transfer 1; erase_script_transfer];
                  reply := reply d |})).
Proof.
  intros Ht.
  assert (Hset : forall d1, setSubroutines self (subroutineAddresses program)
                              (subroutineCommands program) d1 = (Raise e, d1)).
  { intros d1. unfold setSubroutines. rewrite bind_run. unfold lift at 1.
    rewrite Ht. reflexivity. }
  split; [apply Hset |].
  intros Heq. unfold loadProgram. rewrite bind_run, setScriptDone_run.
  cbn [of_option]. rewrite bind_run. unfold lift at 1.
  destruct (Z.gtb_spec (Z.of_nat (length (byteList program))) (maxScriptLength self));
    [lia |].
  destruct (Z.ltb_spec (Z.of_nat (length (byteList program))) (maxScriptLength self));
    [lia |].
  rewrite bind_run. cbn [mret M_ret]. rewrite bind_run, eraseScript_run.
  rewrite bind_run, Hset. cbn [log reply]. rewrite <- app_assoc. reflexivity.
Qed.

Lemma loadProgram_table_failure_witness :
  loadProgram micro (Some orphan_program) true silent_device =
    (Raise (KeyError "foo"),
     {| log := [set_script_done_transfer 1; erase_script_transfer];
        reply := reply silent_device |}).
Proof.
  apply (proj2 (loadProgram_table_failure micro orphan_program true
                  silent_device (KeyError "foo") eq_refl)).
  reflexivity.
Defined.

(** ** Reading a raw parameter *)

(** [_getRawParameter] asks for as many bytes as the range of the parameter
    is wide and returns the little-endian value of the answer, whatever it
    is: the value read is not checked against the range. An answer of any
    other length raises the struct error, after the transfer. *)
Theorem getRawParameter_decodes (parameter : Z) (r : Range) (d : usb) :
  getRange parameter = Ok r ->
  let t := get_parameter_transfer parameter (bytes r) in
  let d' := {| log := log d ++ [t]; reply := reply d |} in
  (bytes r = 1 -> forall b, reply d t = [b] -> _getRawParameter parameter d = (Ok b, d')) /\
  (bytes r = 2 -> forall lo hi, reply d t = [lo; hi] ->
     _getRawParameter parameter d = (Ok (lo + 256 * hi), d')) /\
  (bytes r = 2 -> forall v, reply d t = [v `mod` 256; v `div` 256] ->
     _getRawParameter parameter d = (Ok v, d')) /\
  (Z.of_nat (length (reply d t)) <> bytes r ->
     _getRawParameter parameter d = (Raise StructError, d')).
Proof.
  intros Hr t d'.
  assert (Hrun : _getRawParameter parameter d =
            (unpacked ← of_option StructError
                          (struct_unpack (if bytes r =? 1 then [fmt_B] else [fmt_H])
                             (reply d t));
             getitem unpacked 0, d')).
  { unfold _getRawParameter. rewrite bind_run. unfold lift at 1. rewrite Hr.
    rewrite bind_run. cbn [ctrl_transfer]. fold (get_parameter_transfer parameter (bytes r)).
    fold t. fold d'. rewrite bind_run. unfold lift.
    destruct (of_option StructError _) as [unpacked | e]; cbn [mbind result_bind];
      reflexivity. }
  assert (Hw : bytes r = 1 \/ bytes r = 2).
  { destruct (getRange_fits_width_aux parameter r Hr) as [Hw _]. exact Hw. }
  rewrite Hrun. clear Hrun.
  split; [| split; [| split]].
  - intros H1 b Hb. rewrite Hb, H1. reflexivity.
  - intros H2 lo hi Hb. rewrite Hb, H2. reflexivity.
  - intros H2 v Hb. rewrite Hb, H2.
    assert (Hv : le16 (v `mod` 256) (v `div` 256) = v).
    { unfold le16. pose proof (Z.div_mod v 256 ltac:(lia)). lia. }
    replace (Ok v) with (Ok (le16 (v `mod` 256) (v `div` 256))) by (rewrite Hv; reflexivity).
    reflexivity.
  - intros Hlen. unfold struct_unpack.
    destruct Hw as [Hw | Hw]; rewrite Hw in *; cbn [Z.eqb Pos.eqb];
      (destruct (decide _) as [Heq | _]; [cbn in Heq; lia | reflexivity]).
Qed.

Lemma getRawParameter_decodes_witness :
  _getRawParameter PARAMETER_SERVO0_HOME two_byte_device =
    (Ok 6000, {| log := [get_parameter_transfer PARAMETER_SERVO0_HOME 2];
                 reply := reply two_byte_device |}).
Proof.
  apply (proj1 (proj2 (getRawParameter_decodes PARAMETER_SERVO0_HOME
                         {| bytes := 2; minimumValue := 0; maximumValue := 32440 |}
                         two_byte_device eq_refl)) eq_refl 0x70 0x17).
  reflexivity.
Defined.

(** ** Reconciling twice *)

Lemma fixSettings_channel_idem (cs : ChannelSetting) :
  fixSettings_channel (fixSettings_channel cs) = fixSettings_channel cs.
Proof.
  unfold fixSettings_channel.
  destruct (decide (mode cs = Input)) as [Hin | Hin].
  - cbn [mode]. destruct (decide (mode cs = Input)); [reflexivity | contradiction].
  - destruct (decide (mode cs = Output)) as [Hout | Hout].
    + cbn [mode]. destruct (decide (mode cs = Input)); [contradiction |].
      destruct (decide (mode cs = Output)); [reflexivity | contradiction].
    + destruct (decide (mode cs = Input)); [contradiction |].
      destruct (decide (mode cs = Output)); [contradiction | reflexivity].
Qed.

(** What [fixSettings] returns: the settings with a channel list of
    servoCount fixed-up channels and a serial device number below 128. *)
Lemma fixSettings_shape (self : Usc) (settings : UscSettings) :
  0 <= servoCount self ->
  exists s0 chans n warnings,
    fixSettings self settings
      = Some (set_serialDeviceNumber
                (set_channelSettings s0 (fixSettings_channel <$> chans)) n, warnings) /\
    Z.of_nat (length chans) = servoCount self /\ n < 128.
Proof.
  intros Hcount. unfold fixSettings. cbn zeta.
  destruct (Z.gtb_spec (len settings) (servoCount self)) as [Hgt | Hle].
  - rewrite len_set_channelSettings, length_take.
    destruct (Z.ltb_spec (Z.of_nat (Z.to_nat (servoCount self) `min` length (channelSettings settings)))
                (servoCount self)) as [Hlt | _]; [unfold len in *; lia |].
    cbn [mbind option_bind].
    change (serialDeviceNumber (set_channelSettings _ _)) with (serialDeviceNumber settings).
    destruct (Z.geb_spec (serialDeviceNumber settings) 128).
    + exists settings, (take (Z.to_nat (servoCount self)) (channelSettings settings)), 12.
      eexists. split; [reflexivity |]. rewrite length_take. unfold len in *. lia.
    + exists settings, (take (Z.to_nat (servoCount self)) (channelSettings settings)),
        (serialDeviceNumber settings).
      eexists. split; [reflexivity |]. rewrite length_take. unfold len in *. lia.
  - destruct (Z.ltb_spec (len settings) (servoCount self)) as [Hlt | Hge].
    + destruct (fixSettings_pad_spec self (Z.to_nat (servoCount self - len settings)) settings)
        as (settings1 & padding & Hrun & Hcs & Hlen & Hpad & Hsdn); [lia |].
      rewrite Hrun. cbn [mbind option_bind].
      change (serialDeviceNumber (set_channelSettings ?s _)) with (serialDeviceNumber s).
      rewrite Hcs, Hsdn.
      destruct (Z.geb_spec (serialDeviceNumber settings) 128).
      * exists settings1, (channelSettings settings ++ padding), 12.
        eexists. split; [reflexivity |]. rewrite length_app. unfold len in *. lia.
      * exists settings1, (channelSettings settings ++ padding), (serialDeviceNumber settings1).
        eexists. split; [reflexivity |]. rewrite length_app. unfold len in *. lia.
    + cbn [mbind option_bind].
      change (serialDeviceNumber (set_channelSettings ?s _)) with (serialDeviceNumber s).
      destruct (Z.geb_spec (serialDeviceNumber settings) 128).
      * exists settings, (channelSettings settings), 12.
        eexists. split; [reflexivity |]. unfold len in *. lia.
      * exists settings, (channelSettings settings), (serialDeviceNumber settings).
        eexists. split; [reflexivity |]. unfold len in *. lia.
Qed.

(** [fixSettings] is idempotent: applied to the settings it has returned,
    it returns them unchanged without a warning; their serial device number
    is below 128 and they have servoCount channels. *)
Theorem fixSettings_idempotent (self : Usc) (settings settings' : UscSettings)
    (warnings : list warning) :
  0 <= servoCount self ->
  fixSettings self settings = Some (settings', warnings) ->
  fixSettings self settings' = Some (settings', []) /\
  len settings' = servoCount self /\
  serialDeviceNumber settings' < 128.
Proof.
  intros Hcount Hrun.
  destruct (fixSettings_shape self settings Hcount) as (s0 & chans & n & w & Hshape & Hlen & Hn).
  rewrite Hshape in Hrun. injection Hrun as <- _.
  split; [| split; [| exact Hn]].
  2: { unfold len. cbn [channelSettings set_serialDeviceNumber set_channelSettings].
       rewrite length_fmap. exact Hlen. }
  assert (Hlen' : len (set_serialDeviceNumber
                         (set_channelSettings s0 (fixSettings_channel <$> chans)) n)
                  = servoCount self).
  { unfold len. cbn [channelSettings set_serialDeviceNumber set_channelSettings].
    rewrite length_fmap. exact Hlen. }
  unfold fixSettings. cbn zeta. rewrite !Hlen'.
  destruct (Z.gtb_spec (servoCount self) (servoCount self)); [lia |].
  cbn beta iota. rewrite !Hlen'.
  destruct (Z.ltb_spec (servoCount self) (servoCount self)); [lia |].
  cbn [mbind option_bind channelSettings set_serialDeviceNumber set_channelSettings
       serialDeviceNumber].
  destruct (Z.geb_spec n 128); [lia |].
  rewrite <- list_fmap_compose.
  rewrite (list_fmap_ext (fixSettings_channel ∘ fixSettings_channel) fixSettings_channel chans)
    by (intros; apply fixSettings_channel_idem).
  reflexivity.
Qed.

Lemma fixSettings_idempotent_witness :
  exists settings' warnings,
    fixSettings micro unfit_settings = Some (settings', warnings) /\
    fixSettings micro settings' = Some (settings', []).
Proof.
  destruct (fixSettings micro unfit_settings) as [[settings' warnings] |] eqn:Hrun;
    [| vm_compute in Hrun; discriminate].
  exists settings', warnings. split; [reflexivity |].
  apply (proj1 (fixSettings_idempotent micro unfit_settings settings' warnings
                  ltac:(cbn; lia) Hrun)).
Defined.

Example unfit_settings_warnings :
  snd <$> fixSettings micro unfit_settings
    = Some [TooManyChannels 8 6; SerialDeviceNumberChanged].
Proof. vm_compute. reflexivity. Qed.

(** ** What a settings write leaves in the device *)

Lemma stored_app (l l' : list transfer) (p : Z) :
  stored (l ++ l') p = match stored l' p with Some v => Some v | None => stored l p end.
Proof.
  induction l as [| t l IH]; cbn [app stored].
  - destruct (stored l' p); reflexivity.
  - rewrite IH. destruct (stored l' p); reflexivity.
Qed.

Lemma stored_write (l : list transfer) (p v n q : Z) :
  0 <= p < 256 -> 0 <= n ->
  stored (l ++ [set_parameter_transfer p v n]) q = if q =? p then Some v else stored l q.
Proof.
  intros Hp Hn. rewrite stored_app. cbn [stored set_parameter_transfer bRequest wIndex wValue].
  rewrite Z.eqb_refl. cbn [andb].
  rewrite Z.shiftl_mul_pow2 by lia. change (2 ^ 8) with 256.
  rewrite Z.add_comm, Z.mod_add by lia. rewrite Z.mod_small by lia.
  rewrite (Z.eqb_sym p q). destruct (q =? p); reflexivity.
Qed.

Lemma getRange_servo_parameter (p i : Z) :
  0 <= i -> 30 <= p <= 38 -> p <> 31 -> p <> 35 ->
  getRange (specifyServo p i) = getRange p.
Proof.
  intros Hi Hp H31 H35.
  assert (Hun : forall q, 30 <= q -> listed q = false).
  { intros q Hq. destruct (listed q) eqn:Hl; [| reflexivity].
    apply listed_below_servo_region in Hl. unfold PARAMETER_SERVO0_HOME in Hl. lia. }
  assert (Hfold : foldedSlot (specifyServo p i) = p).
  { unfold foldedSlot, specifyServo, servoParameterBytes, PARAMETER_SERVO0_HOME.
    replace (p + i * 9 - 30) with (p - 30 + i * 9) by lia.
    rewrite Z.mod_add by lia. rewrite Z.mod_small by lia. lia. }
  assert (Hfold0 : foldedSlot p = p).
  { unfold foldedSlot, PARAMETER_SERVO0_HOME. rewrite Z.mod_small by lia. lia. }
  rewrite (getRange_unlisted (specifyServo p i))
    by (apply Hun; unfold specifyServo, servoParameterBytes; lia).
  rewrite (getRange_unlisted p) by (apply Hun; lia).
  cbn zeta. rewrite Hfold, Hfold0.
  assert (Hcases : p = 30 \/ p = 32 \/ p = 33 \/ p = 34 \/ p = 36 \/ p = 37 \/ p = 38) by lia.
  destruct Hcases as [-> | [-> | [-> | [-> | [-> | [-> | ->]]]]]]; reflexivity.
Qed.

(** A round of the channel loop that goes through has sent the seven
    writes of the channel, each value within its range. *)
Lemma setUscSettings_channel_log (self : Usc) (settings : UscSettings) (i : Z)
    (st st' : masks) (d d' : usb) :
  0 <= i ->
  setUscSettings_channel self settings i st d = (Ok st', d') ->
  exists c b,
    channelSettings settings !! Z.to_nat i = Some c /\
    _normalSpeedToExponentialSpeed (Settings.speed c) = Some b /\
    log d' = log d ++ channel_transfers i c b /\ reply d' = reply d /\
    0 <= correctedHome c <= 32440 /\ 0 <= int_truediv (minimum c) 64 <= 255 /\
    0 <= int_truediv (maximum c) 64 <= 255 /\ 0 <= neutral c <= 32440 /\
    1 <= int_truediv (range c) 127 <= 50 /\ 0 <= b <= 255 /\
    0 <= Settings.acceleration c <= 255.
Proof.
  intros Hi Hrun. unfold setUscSettings_channel in Hrun.
  apply bind_Ok_inv in Hrun as (c & d0 & Hget & Hrun).
  apply lift_Ok_inv in Hget as [Hget ->].
  apply bind_Ok_inv in Hrun as (st1 & d0 & Hst & Hrun).
  apply lift_Ok_inv in Hst as [Hst ->].
  apply bind_Ok_inv in Hrun as ([] & d1 & H1 & Hrun).
  apply bind_Ok_inv in Hrun as ([] & d2 & H2 & Hrun).
  apply bind_Ok_inv in Hrun as ([] & d3 & H3 & Hrun).
  apply bind_Ok_inv in Hrun as ([] & d4 & H4 & Hrun).
  apply bind_Ok_inv in Hrun as ([] & d5 & H5 & Hrun).
  apply bind_Ok_inv in Hrun as (b & d5' & Hb & Hrun).
  apply lift_Ok_inv in Hb as [Hb ->].
  apply bind_Ok_inv in Hrun as ([] & d6 & H6 & Hrun).
  apply bind_Ok_inv in Hrun as ([] & d7 & H7 & Hrun).
  injection Hrun as _ <-.
  destruct (_normalSpeedToExponentialSpeed (Settings.speed c)) as [b' |] eqn:Henc;
    [| discriminate]. injection Hb as ->.
  apply setRawParameter_Ok_inv in H1 as (r1 & Hr1 & Hv1 & Hl1 & Hp1).
  apply setRawParameter_Ok_inv in H2 as (r2 & Hr2 & Hv2 & Hl2 & Hp2).
  apply setRawParameter_Ok_inv in H3 as (r3 & Hr3 & Hv3 & Hl3 & Hp3).
  apply setRawParameter_Ok_inv in H4 as (r4 & Hr4 & Hv4 & Hl4 & Hp4).
  apply setRawParameter_Ok_inv in H5 as (r5 & Hr5 & Hv5 & Hl5 & Hp5).
  apply setRawParameter_Ok_inv in H6 as (r6 & Hr6 & Hv6 & Hl6 & Hp6).
  apply setRawParameter_Ok_inv in H7 as (r7 & Hr7 & Hv7 & Hl7 & Hp7).
  rewrite getRange_servo_parameter in Hr1, Hr2, Hr3, Hr4, Hr5, Hr6, Hr7
    by first [exact Hi | vm_compute; intuition congruence].
  vm_compute in Hr1, Hr2, Hr3, Hr4, Hr5, Hr6, Hr7.
  injection Hr1 as <-. injection Hr2 as <-. injection Hr3 as <-. injection Hr4 as <-.
  injection Hr5 as <-. injection Hr6 as <-. injection Hr7 as <-.
  cbn [minimumValue maximumValue bytes] in *.
  exists c, b. split; [apply getitem_nonneg; [exact Hi | exact Hget] |].
  split; [exact Henc |]. split.
  { rewrite Hl7, Hl6, Hl5, Hl4, Hl3, Hl2, Hl1. unfold channel_transfers.
    rewrite <- !app_assoc. reflexivity. }
  split; [congruence |].
  repeat split; lia.
Qed.

Lemma stored_channel_transfers (l : list transfer) (i : Z) (c : ChannelSetting)
    (b q : Z) :
  0 <= i < 25 ->
  stored (l ++ channel_transfers i c b) q =
    match channel_raw c b (q - specifyServo PARAMETER_SERVO0_HOME i) with
    | Some v => Some v
    | None => stored l q
    end.
Proof.
  intros Hi. unfold channel_transfers.
  change [?t1; ?t2; ?t3; ?t4; ?t5; ?t6; ?t7]
    with ([t1] ++ [t2] ++ [t3] ++ [t4] ++ [t5] ++ [t6] ++ [t7]).
  rewrite !app_assoc.
  unfold specifyServo, servoParameterBytes, PARAMETER_SERVO0_HOME, PARAMETER_SERVO0_MIN,
    PARAMETER_SERVO0_MAX, PARAMETER_SERVO0_NEUTRAL, PARAMETER_SERVO0_RANGE,
    PARAMETER_SERVO0_SPEED, PARAMETER_SERVO0_ACCELERATION.
  rewrite !stored_write by lia.
  unfold channel_raw.
  repeat match goal with
         | |- context [?a =? ?b] => destruct (Z.eqb_spec a b); try lia
         end; reflexivity.
Qed.

Lemma channels_transfers_succ (cs : list ChannelSetting) (k : Z) (c : ChannelSetting) :
  0 <= k -> cs !! Z.to_nat k = Some c ->
  channels_transfers cs (k + 1)
    = channels_transfers cs k ++ channel_transfers k c (encoded_speed c).
Proof.
  intros Hk Hc. unfold channels_transfers.
  rewrite seqZ_app by lia. rewrite fmap_app, concat_app.
  rewrite (seqZ_cons _ 1) by lia. rewrite (seqZ_nil _ (Z.pred 1)) by lia.
  cbn [fmap list_fmap concat]. rewrite Z.add_0_l, Hc, app_nil_r. reflexivity.
Qed.

(** The channel loop of a settings write that goes through has sent the
    writes of the channels, one channel after the other. *)
Lemma setUscSettings_loop_log (self : Usc) (settings : UscSettings) (n : nat)
    (st st' : masks) (d d' : usb) :
  for_each (seqZ 0 (Z.of_nat n)) (setUscSettings_channel self settings) st d = (Ok st', d') ->
  log d' = log d ++ channels_transfers (channelSettings settings) (Z.of_nat n) /\
  reply d' = reply d /\
  (forall i, 0 <= i < Z.of_nat n ->
     exists c, channelSettings settings !! Z.to_nat i = Some c /\ channel_in_range c).
Proof.
  intros Hrun.
  change (Z.of_nat n) with (0 + Z.of_nat n) at 1 2.
  apply (for_each_seqZ_inv
           (fun k (_ : masks) dk =>
              log dk = log d ++ channels_transfers (channelSettings settings) k /\
              reply dk = reply d /\
              (forall i, 0 <= i < k ->
                 exists c, channelSettings settings !! Z.to_nat i = Some c /\
                           channel_in_range c))
           (setUscSettings_channel self settings) n 0 st st' d d'); [| | exact Hrun].
  - split; [unfold channels_transfers; rewrite seqZ_nil by lia; cbn; rewrite app_nil_r;
            reflexivity |].
    split; [reflexivity |]. intros i Hi. lia.
  - intros i s1 d1 s2 d2 Hi (Hlog & Hrep & Hall) Hbody.
    apply setUscSettings_channel_log in Hbody
      as (c & b & Hc & Hb & Hl & Hr & Hrange); [| lia].
    assert (Hbe : encoded_speed c = b) by (unfold encoded_speed; rewrite Hb; reflexivity).
    split; [| split].
    + rewrite Hl, Hlog, (channels_transfers_succ _ i c) by (auto; lia).
      rewrite Hbe, app_assoc. reflexivity.
    + congruence.
    + intros j Hj. destruct (Z.eq_dec j i) as [-> | Hne]; [| apply Hall; lia].
      exists c. split; [exact Hc |]. unfold channel_in_range. rewrite Hbe. exact Hrange.
Qed.

Lemma stored_channels_transfers (l : list transfer) (cs : list ChannelSetting)
    (n : nat) (q : Z) :
  Z.of_nat n <= 24 ->
  (forall i, 0 <= i < Z.of_nat n -> is_Some (cs !! Z.to_nat i)) ->
  (q < 30 \/ 30 + 9 * Z.of_nat n <= q ->
     stored (l ++ channels_transfers cs (Z.of_nat n)) q = stored l q) /\
  (forall i c o v, 0 <= i < Z.of_nat n -> cs !! Z.to_nat i = Some c ->
     channel_raw c (encoded_speed c) o = Some v -> q = 30 + 9 * i + o ->
     stored (l ++ channels_transfers cs (Z.of_nat n)) q = Some v).
Proof.
  assert (Hraw : forall c b o v, channel_raw c b o = Some v -> 0 <= o <= 8).
  { intros c b o v. unfold channel_raw.
    repeat match goal with
           | |- context [?a =? ?b] => destruct (Z.eqb_spec a b); [lia |]
           end. discriminate. }
  assert (Hnone : forall c b o, o < 0 \/ 8 < o -> channel_raw c b o = None).
  { intros c b o Ho. destruct (channel_raw c b o) as [v |] eqn:Hv; [| reflexivity].
    apply Hraw in Hv. lia. }
  induction n as [| n IH]; intros Hn Hsome.
  - split.
    + intros _. unfold channels_transfers. rewrite seqZ_nil by lia. cbn.
      rewrite app_nil_r. reflexivity.
    + intros i c o v Hi. lia.
  - destruct (Hsome (Z.of_nat n) ltac:(lia)) as [cn Hcn].
    rewrite Nat2Z.id in Hcn.
    replace (Z.of_nat (S n)) with (Z.of_nat n + 1) by lia.
    rewrite (channels_transfers_succ cs (Z.of_nat n) cn) by (rewrite ?Nat2Z.id; auto; lia).
    rewrite app_assoc, stored_channel_transfers by lia.
    destruct IH as [IHlow IHset]; [lia | intros i Hi; apply Hsome; lia |].
    unfold specifyServo, servoParameterBytes, PARAMETER_SERVO0_HOME. split.
    + intros Hq. rewrite Hnone by lia. apply IHlow. lia.
    + intros i c o v Hi Hc Hv Hq. pose proof (Hraw _ _ _ _ Hv) as Ho.
      destruct (Z.eq_dec i (Z.of_nat n)) as [-> | Hne].
      * rewrite Nat2Z.id in Hc. rewrite Hcn in Hc. injection Hc as ->.
        replace (q - (30 + Z.of_nat n * 9)) with o by lia. rewrite Hv. reflexivity.
      * rewrite Hnone by lia. apply (IHset i c o v); auto; lia.
Qed.


(** ** Reading back what a settings write has stored *)

Lemma echo_device_remembers (l : list transfer) : remembers l (reply (echo_device l)).
Proof.
  intros p n v Hs. cbn [echo_device reply get_parameter_transfer wIndex data_or_wLength].
  rewrite Hs. reflexivity.
Qed.

Lemma returns_bind {A B} (l : list transfer) (m : M A) (k : A -> M B) (a : A) (b : B) :
  returns l m a -> returns l (k a) b -> returns l (m ≫= k) b.
Proof.
  intros Hm Hk dr Hrem. destruct (Hm dr Hrem) as (d1 & Hrun & Hrep).
  destruct (Hk d1) as (d2 & Hrun2 & Hrep2); [rewrite Hrep; exact Hrem |].
  exists d2. rewrite bind_run, Hrun. split; [exact Hrun2 | congruence].
Qed.

Lemma returns_ret {A} (l : list transfer) (a b : A) : a = b -> returns l (mret a) b.
Proof. intros -> dr _. exists dr. split; reflexivity. Qed.

Lemma returns_lift {A} (l : list transfer) (r : result A) (a : A) :
  r = Ok a -> returns l (lift r) a.
Proof. intros -> dr _. exists dr. split; reflexivity. Qed.

Lemma returns_for_each {St} (l : list transfer) (body : Z -> St -> M St) (F : Z -> St)
    (n : nat) (a : Z) :
  (forall i, a <= i < a + Z.of_nat n -> returns l (body i (F i)) (F (i + 1))) ->
  returns l (for_each (seqZ a (Z.of_nat n)) body (F a)) (F (a + Z.of_nat n)).
Proof.
  revert a. induction n as [| n IH]; intros a Hbody.
  - rewrite seqZ_nil by lia. rewrite Z.add_0_r. cbn [for_each].
    apply returns_ret. reflexivity.
  - rewrite seqZ_cons by lia.
    replace (Z.pred (Z.of_nat (S n))) with (Z.of_nat n) by lia.
    cbn [for_each]. eapply returns_bind; [apply Hbody; lia |].
    replace (a + Z.of_nat (S n)) with (Z.succ a + Z.of_nat n) by lia.
    replace (a + 1) with (Z.succ a) by lia.
    apply IH. intros i Hi. apply Hbody. lia.
Qed.

(** A read returns the value a checked write has left. *)
Lemma returns_getRawParameter (l : list transfer) (p v : Z) :
  written l p v -> returns l (_getRawParameter p) v.
Proof.
  intros [Hs (r & Hr & Hv)] dr Hrem.
  destruct (getRange_fits_width_aux p r Hr) as (Hw & Hmin & Hmax).
  exists {| log := log dr ++ [get_parameter_transfer p (bytes r)]; reply := reply dr |}.
  split; [| reflexivity].
  unfold _getRawParameter. rewrite bind_run. unfold lift at 1. rewrite Hr.
  rewrite bind_run. cbn [ctrl_transfer]. fold (get_parameter_transfer p (bytes r)).
  rewrite (Hrem p (bytes r) v Hs). unfold le_bytes.
  destruct Hw as [Hw | Hw]; rewrite Hw in *; cbn [Z.eqb Pos.eqb].
  - change (2 ^ (8 * 1)) with 256 in Hmax. rewrite Z.mod_small by lia. reflexivity.
  - change (2 ^ (8 * 2)) with 65536 in Hmax.
    rewrite (Z.mod_small (v `div` 256)) by (split; [apply Z.div_pos | apply Z.div_lt_upper_bound]; lia).
    rewrite bind_run. unfold lift at 1.
    assert (Hdec : struct_unpack [fmt_H] [v `mod` 256; v `div` 256] = Some [v]).
    { unfold struct_unpack. cbn. unfold le16. f_equal. f_equal.
      pose proof (Z.div_mod v 256 ltac:(lia)). lia. }
    rewrite Hdec. reflexivity.
Qed.

(** A checked write that goes through replaces the value at its parameter
    and leaves every other parameter as it was. *)
Lemma setRawParameter_stored (p v : Z) (d d' : usb) (u : unit) :
  0 <= p < 256 ->
  _setRawParameter p v d = (Ok u, d') ->
  reply d' = reply d /\ in_range p v /\
  forall q, stored (log d') q = if q =? p then Some v else stored (log d) q.
Proof.
  intros Hp Hrun.
  apply setRawParameter_Ok_inv in Hrun as (r & Hr & Hv & Hlog & Hrep).
  destruct (getRange_fits_width_aux p r Hr) as (Hw & _ & _).
  split; [exact Hrep |]. split; [exists r; auto |].
  intros q. rewrite Hlog. apply stored_write; lia.
Qed.

Lemma channel_written (l : list transfer) (i : Z) (c : ChannelSetting) :
  0 <= i ->
  (forall o v, channel_raw c (encoded_speed c) o = Some v ->
               stored l (30 + 9 * i + o) = Some v) ->
  channel_in_range c ->
  written l (specifyServo PARAMETER_SERVO0_HOME i) (correctedHome c) /\
  written l (specifyServo PARAMETER_SERVO0_MIN i) (int_truediv (minimum c) 64) /\
  written l (specifyServo PARAMETER_SERVO0_MAX i) (int_truediv (maximum c) 64) /\
  written l (specifyServo PARAMETER_SERVO0_NEUTRAL i) (neutral c) /\
  written l (specifyServo PARAMETER_SERVO0_RANGE i) (int_truediv (range c) 127) /\
  written l (specifyServo PARAMETER_SERVO0_SPEED i) (encoded_speed c) /\
  written l (specifyServo PARAMETER_SERVO0_ACCELERATION i) (Settings.acceleration c).
Proof.
  intros Hi Hst (Hhome & Hmin & Hmax & Hneutral & Hrange & Hspeed & Hacc).
  assert (Hw : forall p v, 30 <= p <= 38 -> p <> 31 -> p <> 35 ->
             channel_raw c (encoded_speed c) (p - 30) = Some v ->
             (forall r, getRange p = Ok r -> minimumValue r <= v <= maximumValue r) ->
             written l (specifyServo p i) v).
  { intros p v Hp H31 H35 Hraw Hin. split.
    - replace (specifyServo p i) with (30 + 9 * i + (p - 30))
        by (unfold specifyServo, servoParameterBytes; lia).
      apply Hst. exact Hraw.
    - unfold in_range. rewrite getRange_servo_parameter by assumption.
      destruct (getRange p) as [r | e] eqn:Hr.
      + exists r. split; [reflexivity | apply Hin; reflexivity].
      + exfalso. revert Hr.
        assert (Hcases : p = 30 \/ p = 32 \/ p = 33 \/ p = 34 \/ p = 36 \/ p = 37 \/ p = 38)
          by lia.
        destruct Hcases as [-> | [-> | [-> | [-> | [-> | [-> | ->]]]]]]; discriminate. }
  repeat split;
    (apply Hw; [vm_compute; intuition congruence | discriminate | discriminate
               | reflexivity
               | intros r Hr; vm_compute in Hr; injection Hr as <-;
                 cbn [minimumValue maximumValue]; assumption]).
Qed.

(** The channel loop body of a settings read returns the channel a settings
    write has stored, once its mode is decoded. *)
Lemma returns_getUscSettings_channel (self : Usc) (l : list transfer)
    (io out : Z) (cmb : list Z) (i : Z) (c : ChannelSetting) (acc : list ChannelSetting) :
  0 <= i ->
  (forall o v, channel_raw c (encoded_speed c) o = Some v ->
               stored l (30 + 9 * i + o) = Some v) ->
  channel_in_range c ->
  (if microMaestro self then
     port ← _channelToPort i;
     if Z.land io (Z.shiftl 1 port) =? 0 then Ok Servo
     else if Z.land out (Z.shiftl 1 port) =? 0 then Ok Input
     else Ok Output
   else
     b ← getitem cmb (Z.shiftr i 2);
     Ok (ChannelMode_of_value (Z.land (Z.shiftr b (Z.shiftl (Z.land i 3) 1)) 3)))
    = Ok (written_mode self (mode c)) ->
  returns l (getUscSettings_channel self io out cmb i acc)
            (acc ++ [read_back_channel self c]).
Proof.
  intros Hi Hst Hin Hmode.
  destruct (channel_written l i c Hi Hst Hin)
    as (Whome & Wmin & Wmax & Wneutral & Wrange & Wspeed & Wacc).
  unfold getUscSettings_channel, read_back_channel.
  eapply returns_bind; [apply returns_lift; exact Hmode |].
  eapply returns_bind; [apply returns_getRawParameter; exact Whome |].
  cbv beta. destruct (decodeHome (correctedHome c)) as [hm h].
  eapply returns_bind; [apply returns_getRawParameter; exact Wmin |].
  eapply returns_bind; [apply returns_getRawParameter; exact Wmax |].
  eapply returns_bind; [apply returns_getRawParameter; exact Wneutral |].
  eapply returns_bind; [apply returns_getRawParameter; exact Wrange |].
  eapply returns_bind; [apply returns_getRawParameter; exact Wspeed |].
  eapply returns_bind; [apply returns_getRawParameter; exact Wacc |].
  apply returns_ret. reflexivity.
Qed.

Lemma land_bit (m p : Z) :
  0 <= p -> (Z.land m (Z.shiftl 1 p) =? 0) = negb (Z.testbit m p).
Proof.
  intros Hp.
  assert (Hland : Z.land m (Z.shiftl 1 p) = if Z.testbit m p then Z.shiftl 1 p else 0).
  { apply Z.bits_inj'. intros q Hq. rewrite Z.land_spec, testbit_port by exact Hp.
    destruct (Z.eqb_spec p q) as [-> | Hne].
    - destruct (Z.testbit m q); [rewrite testbit_port, Z.eqb_refl by exact Hq
                                | rewrite Z.bits_0]; reflexivity.
    - rewrite andb_false_r.
      destruct (Z.testbit m p); [rewrite testbit_port by exact Hp;
                                 symmetry; apply Z.eqb_neq; exact Hne
                                | rewrite Z.bits_0; reflexivity]. }
  rewrite Hland. destruct (Z.testbit m p); cbn [negb].
  - apply Z.eqb_neq. rewrite Z.shiftl_1_l. pose proof (Z.pow_pos_nonneg 2 p). lia.
  - reflexivity.
Qed.

(** On the compact variant the two masks decode to the mode that was
    written, with a multiplied servo read back as a servo. *)
Lemma compact_mode_decoded (cs : list ChannelSetting) (io out i : Z) (c : ChannelSetting) :
  mask_bits (fun s => mode s = Input \/ mode s = Output) cs 6 io ->
  mask_bits (fun s => mode s = Output) cs 6 out ->
  0 <= i < 6 -> cs !! Z.to_nat i = Some c ->
  (port ← _channelToPort i;
   if Z.land io (Z.shiftl 1 port) =? 0 then Ok Servo
   else if Z.land out (Z.shiftl 1 port) =? 0 then Ok Input
   else Ok Output)
    = Ok (match mode c with ServoMultiplied => Servo | m => m end).
Proof.
  intros Hio Hout Hi Hc.
  assert (Hport : exists port, _channelToPort i = Ok port).
  { unfold _channelToPort. destruct (Z.leb_spec i 3), (Z.ltb_spec i 6); eauto. lia. }
  destruct Hport as [port Hport]. rewrite Hport. cbn [mbind result_bind].
  pose proof (channelToPort_nonneg i port ltac:(lia) Hport) as Hp.
  rewrite !land_bit by exact Hp.
  pose proof (mask_bits_channel _ _ _ _ _ _ _ Hio Hi Hc Hport) as Hbio.
  pose proof (mask_bits_channel _ _ _ _ _ _ _ Hout Hi Hc Hport) as Hbout.
  cbn beta in Hbio, Hbout.
  destruct (mode c);
    destruct (Z.testbit io port), (Z.testbit out port);
    try reflexivity; exfalso;
    repeat match goal with
           | Hb : _ <-> _ |- _ => destruct Hb
           end;
    intuition congruence.
Qed.

Lemma convertSpbrgToBps_returns (spbrg : Z) :
  0 <= spbrg ->
  _convertSpbrgToBps spbrg = Ok (result_default 0 (_convertSpbrgToBps spbrg)).
Proof.
  intros Hs. unfold _convertSpbrgToBps.
  destruct (spbrg =? 0); [reflexivity |].
  destruct (Z.eqb_spec (spbrg + 1) 0); [lia | reflexivity].
Qed.

Lemma negb_int_of_bool (b : bool) : negb (int_of_bool b =? 0) = b.
Proof. destruct b; reflexivity. Qed.

(** What the channel loop of a settings write leaves in the device: the
    parameters below the servo region are untouched, and every channel has
    its raw values at its nine slots. *)
Lemma setUscSettings_loop_stored (self : Usc) (settings : UscSettings) (n : nat)
    (st st' : masks) (d d' : usb) :
  Z.of_nat n <= 24 ->
  for_each (seqZ 0 (Z.of_nat n)) (setUscSettings_channel self settings) st d = (Ok st', d') ->
  reply d' = reply d /\
  (forall q, q < 30 -> stored (log d') q = stored (log d) q) /\
  (forall i, 0 <= i < Z.of_nat n ->
     exists c, channelSettings settings !! Z.to_nat i = Some c /\ channel_in_range c /\
       forall o v, channel_raw c (encoded_speed c) o = Some v ->
                   stored (log d') (30 + 9 * i + o) = Some v).
Proof.
  intros Hn Hrun.
  apply setUscSettings_loop_log in Hrun as (Hlog & Hrep & Hall).
  assert (Hsome : forall i, 0 <= i < Z.of_nat n ->
                    is_Some (channelSettings settings !! Z.to_nat i)).
  { intros i Hi. destruct (Hall i Hi) as (c & Hc & _). eauto. }
  split; [exact Hrep |]. split.
  - intros q Hq. rewrite Hlog.
    apply (stored_channels_transfers (log d) (channelSettings settings) n q Hn Hsome). lia.
  - intros i Hi. destruct (Hall i Hi) as (c & Hc & Hin).
    exists c. split; [exact Hc |]. split; [exact Hin |].
    intros o v Hv. rewrite Hlog.
    apply (proj2 (stored_channels_transfers (log d) (channelSettings settings) n
                    (30 + 9 * i + o) Hn Hsome) i c o v Hi Hc Hv eq_refl).
Qed.

(** What a settings write that goes through leaves in the compact variant. *)
Lemma setUscSettings_stored_compact (self : Usc) (settings : UscSettings)
    (d d' : usb) :
  microMaestro self = true -> servoCount self = 6 ->
  setUscSettings self settings false d = (Ok tt, d') ->
  exists io out,
    written (log d') PARAMETER_SERIAL_MODE (serialMode settings) /\
    written (log d') PARAMETER_SERIAL_FIXED_BAUD_RATE
      (_convertBpsToSpbrg (fixedBaudRate settings)) /\
    written (log d') PARAMETER_SERIAL_ENABLE_CRC (int_of_bool (enableCrc settings)) /\
    written (log d') PARAMETER_SERIAL_NEVER_SUSPEND (int_of_bool (neverSuspend settings)) /\
    written (log d') PARAMETER_SERIAL_DEVICE_NUMBER (serialDeviceNumber settings) /\
    written (log d') PARAMETER_SERIAL_MINI_SSC_OFFSET (miniSscOffset settings) /\
    written (log d') PARAMETER_SERIAL_TIMEOUT (serialTimeout settings) /\
    written (log d') PARAMETER_SCRIPT_DONE (int_of_bool (Settings.scriptDone settings)) /\
    written (log d') PARAMETER_SERVOS_AVAILABLE (servosAvailable settings) /\
    written (log d') PARAMETER_SERVO_PERIOD (servoPeriod settings) /\
    written (log d') PARAMETER_IO_MASK_C io /\
    written (log d') PARAMETER_OUTPUT_MASK_C out /\
    mask_bits (fun s => mode s = Input \/ mode s = Output) (channelSettings settings) 6 io /\
    mask_bits (fun s => mode s = Output) (channelSettings settings) 6 out /\
    forall i, 0 <= i < 6 ->
      exists c, channelSettings settings !! Z.to_nat i = Some c /\ channel_in_range c /\
        forall o v, channel_raw c (encoded_speed c) o = Some v ->
                    stored (log d') (30 + 9 * i + o) = Some v.
Proof.
  intros Hmicro Hcount Hrun.
  unfold setUscSettings in Hrun. rewrite Hmicro, Hcount in Hrun.
  apply bind_Ok_inv in Hrun as ([] & d1 & W1 & Hrun).
  apply bind_Ok_inv in Hrun as ([] & d2 & W2 & Hrun).
  apply bind_Ok_inv in Hrun as ([] & d3 & W3 & Hrun).
  apply bind_Ok_inv in Hrun as ([] & d4 & W4 & Hrun).
  apply bind_Ok_inv in Hrun as ([] & d5 & W5 & Hrun).
  apply bind_Ok_inv in Hrun as ([] & d6 & W6 & Hrun).
  apply bind_Ok_inv in Hrun as ([] & d7 & W7 & Hrun).
  apply bind_Ok_inv in Hrun as ([] & d8 & W8 & Hrun).
  apply bind_Ok_inv in Hrun as ([] & d10 & Wblock & Hrun).
  apply bind_Ok_inv in Wblock as ([] & d9 & W9 & W10).
  apply bind_Ok_inv in Hrun as ([] & dp & Wpull & Hrun).
  change (6 >? 18) with false in Wpull. injection Wpull as <-.
  apply bind_Ok_inv in Hrun as (st & dl & Hloop & Hrun).
  apply bind_Ok_inv in Hrun as ([] & dt & Htail & Hret).
  injection Hret as <-.
  apply bind_Ok_inv in Htail as ([] & dio & Wio & Wout).
  apply setRawParameter_stored in W1 as (_ & I1 & S1); [| vm_compute; intuition congruence].
  apply setRawParameter_stored in W2 as (_ & I2 & S2); [| vm_compute; intuition congruence].
  apply setRawParameter_stored in W3 as (_ & I3 & S3); [| vm_compute; intuition congruence].
  apply setRawParameter_stored in W4 as (_ & I4 & S4); [| vm_compute; intuition congruence].
  apply setRawParameter_stored in W5 as (_ & I5 & S5); [| vm_compute; intuition congruence].
  apply setRawParameter_stored in W6 as (_ & I6 & S6); [| vm_compute; intuition congruence].
  apply setRawParameter_stored in W7 as (_ & I7 & S7); [| vm_compute; intuition congruence].
  apply setRawParameter_stored in W8 as (_ & I8 & S8); [| vm_compute; intuition congruence].
  apply setRawParameter_stored in W9 as (_ & I9 & S9); [| vm_compute; intuition congruence].
  apply setRawParameter_stored in W10 as (_ & I10 & S10); [| vm_compute; intuition congruence].
  apply setRawParameter_stored in Wio as (_ & Iio & Sio); [| vm_compute; intuition congruence].
  apply setRawParameter_stored in Wout as (_ & Iout & Sout); [| vm_compute; intuition congruence].
  pose proof (micro_masks_loop self settings st d10 dl Hmicro Hloop) as [Hmio Hmout].
  apply (setUscSettings_loop_stored self settings 6) in Hloop as (_ & Hlow & Hchan);
    [| vm_compute; discriminate].
  assert (Hdev : forall q, q < 30 ->
            stored (log dt) q =
              if q =? PARAMETER_OUTPUT_MASK_C then Some (outputMask st)
              else if q =? PARAMETER_IO_MASK_C then Some (ioMask st)
              else if q =? PARAMETER_SERVO_PERIOD then Some (servoPeriod settings)
              else if q =? PARAMETER_SERVOS_AVAILABLE then Some (servosAvailable settings)
              else if q =? PARAMETER_SCRIPT_DONE
                   then Some (int_of_bool (Settings.scriptDone settings))
              else if q =? PARAMETER_SERIAL_TIMEOUT then Some (serialTimeout settings)
              else if q =? PARAMETER_SERIAL_MINI_SSC_OFFSET then Some (miniSscOffset settings)
              else if q =? PARAMETER_SERIAL_DEVICE_NUMBER
                   then Some (serialDeviceNumber settings)
              else if q =? PARAMETER_SERIAL_NEVER_SUSPEND
                   then Some (int_of_bool (neverSuspend settings))
              else if q =? PARAMETER_SERIAL_ENABLE_CRC
                   then Some (int_of_bool (enableCrc settings))
              else if q =? PARAMETER_SERIAL_FIXED_BAUD_RATE
                   then Some (_convertBpsToSpbrg (fixedBaudRate settings))
              else if q =? PARAMETER_SERIAL_MODE then Some (serialMode settings)
              else stored (log d) q).
  { intros q Hq. rewrite Sout, Sio, (Hlow q Hq), S10, S9, S8, S7, S6, S5, S4, S3, S2, S1.
    reflexivity. }
  exists (ioMask st), (outputMask st).
  repeat match goal with
         | |- written _ _ _ /\ _ =>
             split; [split; [rewrite Hdev by (vm_compute; reflexivity); reflexivity
                            | assumption] |]
         end.
  split; [exact Hmio |]. split; [exact Hmout |].
  intros i Hi. destruct (Hchan i Hi) as (c & Hc & Hin & Hst).
  exists c. split; [exact Hc |]. split; [exact Hin |].
  intros o v Hv.
  assert (Ho : 0 <= o <= 8).
  { revert Hv. unfold channel_raw.
    repeat match goal with
           | |- context [?a =? ?b] => destruct (Z.eqb_spec a b); [lia |]
           end. discriminate. }
  rewrite Sout, Sio.
  destruct (Z.eqb_spec (30 + 9 * i + o) PARAMETER_OUTPUT_MASK_C) as [He | _];
    [unfold PARAMETER_OUTPUT_MASK_C in He; lia |].
  destruct (Z.eqb_spec (30 + 9 * i + o) PARAMETER_IO_MASK_C) as [He | _];
    [unfold PARAMETER_IO_MASK_C in He; lia |].
  apply Hst. exact Hv.
Qed.

Lemma read_back_channels_succ (self : Usc) (cs : list ChannelSetting) (i : Z)
    (c : ChannelSetting) :
  0 <= i -> cs !! Z.to_nat i = Some c ->
  read_back_channel self <$> take (Z.to_nat (i + 1)) cs
    = (read_back_channel self <$> take (Z.to_nat i) cs) ++ [read_back_channel self c].
Proof.
  intros Hi Hc. replace (Z.to_nat (i + 1)) with (S (Z.to_nat i)) by lia.
  rewrite (take_S_r _ _ _ Hc), fmap_app. reflexivity.
Qed.

(** The channel loop of a settings read, from the runs of its body. *)
Lemma returns_read_channels (self : Usc) (l : list transfer) (io out : Z) (cmb : list Z)
    (cs : list ChannelSetting) (n : Z) :
  0 <= n ->
  (forall i acc, 0 <= i < n ->
     exists c, cs !! Z.to_nat i = Some c /\
       returns l (getUscSettings_channel self io out cmb i acc)
                 (acc ++ [read_back_channel self c])) ->
  returns l (for_each (range_ n) (getUscSettings_channel self io out cmb) [])
            (read_back_channel self <$> take (Z.to_nat n) cs).
Proof.
  intros Hn Hbody.
  pose proof (returns_for_each l (getUscSettings_channel self io out cmb)
                (fun k => read_back_channel self <$> take (Z.to_nat k) cs)
                (Z.to_nat n) 0) as Hfe.
  cbv beta in Hfe. rewrite Z2Nat.id, Z.add_0_l in Hfe by exact Hn.
  change (Z.to_nat 0) with 0%nat in Hfe. rewrite take_0, fmap_nil in Hfe.
  unfold range_. apply Hfe. intros i Hi.
  destruct (Hbody i (read_back_channel self <$> take (Z.to_nat i) cs) Hi) as (c & Hc & Hret).
  rewrite (read_back_channels_succ self cs i c) by (auto; lia). exact Hret.
Qed.

(** On the compact variant, a settings read on a device that remembers a
    settings write returns what was written, as [read_back] has it. *)
Lemma getUscSettings_returns_compact (self : Usc) (settings : UscSettings)
    (d d' : usb) :
  microMaestro self = true -> servoCount self = 6 ->
  setUscSettings self settings false d = (Ok tt, d') ->
  returns (log d') (getUscSettings self) (read_back self settings).
Proof.
  intros Hmicro Hcount Hrun.
  destruct (setUscSettings_stored_compact self settings d d' Hmicro Hcount Hrun)
    as (io & out & Wmode & Wbaud & Wcrc & Wsuspend & Wnumber & Wssc & Wtimeout & Wdone
        & Wavail & Wperiod & Wio & Wout & Hmio & Hmout & Hchan).
  assert (Hspbrg : 0 <= _convertBpsToSpbrg (fixedBaudRate settings)).
  { destruct Wbaud as [_ (r & Hr & Hv)]. vm_compute in Hr. injection Hr as <-.
    cbn [minimumValue] in Hv. lia. }
  unfold getUscSettings. rewrite Hmicro, Hcount.
  eapply returns_bind; [apply returns_getRawParameter; exact Wmode |].
  eapply returns_bind; [apply returns_getRawParameter; exact Wbaud |].
  eapply returns_bind; [apply returns_lift, convertSpbrgToBps_returns; exact Hspbrg |].
  eapply returns_bind; [apply returns_getRawParameter; exact Wcrc |].
  eapply returns_bind; [apply returns_getRawParameter; exact Wsuspend |].
  eapply returns_bind; [apply returns_getRawParameter; exact Wnumber |].
  eapply returns_bind; [apply returns_getRawParameter; exact Wssc |].
  eapply returns_bind; [apply returns_getRawParameter; exact Wtimeout |].
  eapply returns_bind; [apply returns_getRawParameter; exact Wdone |].
  eapply returns_bind.
  { eapply returns_bind; [apply returns_getRawParameter; exact Wavail |].
    eapply returns_bind; [apply returns_getRawParameter; exact Wperiod |].
    apply returns_ret. reflexivity. }
  cbv beta iota.
  eapply returns_bind.
  { change (6 >? 18) with false. cbv iota. apply returns_ret. reflexivity. }
  eapply returns_bind.
  { eapply returns_bind; [apply returns_getRawParameter; exact Wio |].
    eapply returns_bind; [apply returns_getRawParameter; exact Wout |].
    apply returns_ret. reflexivity. }
  cbv beta iota.
  eapply returns_bind.
  { apply (returns_read_channels self (log d') io out [] (channelSettings settings) 6);
      [discriminate |].
    intros i acc Hi. destruct (Hchan i Hi) as (c & Hc & Hin & Hst).
    exists c. split; [exact Hc |].
    apply returns_getUscSettings_channel; [lia | exact Hst | exact Hin |].
    unfold written_mode. rewrite Hmicro.
    rewrite (compact_mode_decoded (channelSettings settings) io out i c) by auto.
    destruct (mode c); reflexivity. }
  apply returns_ret. unfold read_back. rewrite Hmicro, Hcount, !negb_int_of_bool.
  reflexivity.
Qed.


(** ** The packed channel modes of the extended variant *)

Lemma forallb_seqZ (f : Z -> bool) (a n x : Z) :
  forallb f (seqZ a n) = true -> a <= x < a + n -> f x = true.
Proof.
  intros Hall Hx. rewrite forallb_forall in Hall. apply Hall.
  apply list_elem_of_In, elem_of_seqZ. exact Hx.
Qed.

Lemma mode_bits_table :
  forallb (fun b => forallb (fun m => forallb (fun q => forallb (fun q' =>
    Z.land (Z.shiftr (Z.lor b (Z.shiftl m (Z.shiftl q 1))) (Z.shiftl q' 1)) 3
      =? Z.lor (Z.land (Z.shiftr b (Z.shiftl q' 1)) 3) (if q' =? q then m else 0))
    (seqZ 0 4)) (seqZ 0 4)) (seqZ 0 4)) (seqZ 0 256) = true.
Proof. vm_compute. reflexivity. Qed.

(** Or-ing a mode into its two bits of a byte changes these two bits only. *)
Lemma mode_bits (b m q q' : Z) :
  0 <= b < 256 -> 0 <= m < 4 -> 0 <= q < 4 -> 0 <= q' < 4 ->
  Z.land (Z.shiftr (Z.lor b (Z.shiftl m (Z.shiftl q 1))) (Z.shiftl q' 1)) 3
    = Z.lor (Z.land (Z.shiftr b (Z.shiftl q' 1)) 3) (if q' =? q then m else 0).
Proof.
  intros Hb Hm Hq Hq'. pose proof mode_bits_table as Hall.
  apply (forallb_seqZ _ _ _ b) in Hall; [| lia].
  apply (forallb_seqZ _ _ _ m) in Hall; [| lia].
  apply (forallb_seqZ _ _ _ q) in Hall; [| lia].
  apply (forallb_seqZ _ _ _ q') in Hall; [| lia].
  apply Z.eqb_eq in Hall. exact Hall.
Qed.

Lemma ChannelMode_value_range (m : ChannelMode) : 0 <= ChannelMode_value m < 4.
Proof. destruct m; cbn; lia. Qed.

Lemma ChannelMode_of_value_value (m : ChannelMode) :
  ChannelMode_of_value (ChannelMode_value m) = m.
Proof. destruct m; reflexivity. Qed.

(** What one round of the channel loop does to the packed modes on the
    extended variant. *)
Lemma setUscSettings_channel_mini (self : Usc) (settings : UscSettings)
    (i : Z) (st st' : masks) (d d' : usb) :
  microMaestro self = false -> 0 <= i ->
  setUscSettings_channel self settings i st d = (Ok st', d') ->
  exists c old,
    channelSettings settings !! Z.to_nat i = Some c /\
    getitem (channelModeBytes st) (Z.shiftr i 2) = Ok old /\
    bytearray_setitem (channelModeBytes st) (Z.shiftr i 2)
      (Z.lor old (Z.shiftl (ChannelMode_value (mode c)) (Z.shiftl (Z.land i 3) 1)))
      = Ok (channelModeBytes st').
Proof.
  intros Hmicro Hi Hrun. unfold setUscSettings_channel in Hrun. rewrite Hmicro in Hrun.
  apply bind_Ok_inv in Hrun as (setting & d1 & Hget & Hrun).
  apply lift_Ok_inv in Hget as [Hget ->].
  apply bind_Ok_inv in Hrun as (st1 & d1 & Hst & Hrun).
  apply lift_Ok_inv in Hst as [Hst ->].
  do 5 (apply bind_Ok_inv in Hrun as (? & ? & _ & Hrun)).
  apply bind_Ok_inv in Hrun as (? & ? & _ & Hrun).
  do 2 (apply bind_Ok_inv in Hrun as (? & ? & _ & Hrun)).
  injection Hrun as -> _.
  exists setting.
  destruct (getitem (channelModeBytes st) (Z.shiftr i 2)) as [old | e] eqn:Hold;
    cbn [mbind result_bind] in Hst; [| discriminate].
  exists old. split; [apply getitem_nonneg; [lia | exact Hget] |].
  split; [reflexivity |].
  destruct (bytearray_setitem _ _ _) as [bs | e] eqn:Hbs;
    cbn [mbind result_bind] in Hst; [| discriminate].
  injection Hst as <-. reflexivity.
Qed.

Lemma bytearray_setitem_nonneg (a a' : list Z) (i x : Z) :
  0 <= i -> bytearray_setitem a i x = Ok a' ->
  (Z.to_nat i < length a)%nat /\ 0 <= x <= 255 /\ a' = <[Z.to_nat i := x]> a.
Proof.
  intros Hi. unfold bytearray_setitem, py_index. cbn zeta.
  destruct (Z.ltb_spec i 0); [lia |]. destruct (Z.ltb_spec i 0); [lia |]. cbn [orb].
  destruct (Z.leb_spec (Z.of_nat (length a)) i); cbn [mbind result_bind]; [discriminate |].
  destruct (Z.ltb_spec x 0); cbn [orb]; [discriminate |].
  destruct (Z.ltb_spec 255 x); [discriminate |].
  intros [= <-]. repeat split; lia.
Qed.

(** The packed modes the channel loop leaves on the extended variant: two
    bits per channel, holding the value of its mode. *)
Lemma mini_modes_loop (self : Usc) (settings : UscSettings) (n : nat)
    (st' : masks) (d d' : usb) :
  microMaestro self = false -> Z.of_nat n <= 24 ->
  for_each (seqZ 0 (Z.of_nat n)) (setUscSettings_channel self settings)
    {| ioMask := 0; outputMask := 0; channelModeBytes := bytearray_fill 0 6 |} d
    = (Ok st', d') ->
  length (channelModeBytes st') = 6%nat /\
  Forall (fun b => 0 <= b < 256) (channelModeBytes st') /\
  forall j c, 0 <= j < Z.of_nat n -> channelSettings settings !! Z.to_nat j = Some c ->
    mode_field (channelModeBytes st') j = ChannelMode_value (mode c).
Proof.
  intros Hmicro Hn Hrun.
  pose (value_at := fun j => match channelSettings settings !! Z.to_nat j with
                             | Some c => ChannelMode_value (mode c)
                             | None => 0
                             end).
  assert (Hinv : length (channelModeBytes st') = 6%nat /\
                 Forall (fun b => 0 <= b < 256) (channelModeBytes st') /\
                 forall j, 0 <= j < 24 ->
                   mode_field (channelModeBytes st') j
                     = if j <? 0 + Z.of_nat n then value_at j else 0).
  { apply (for_each_seqZ_inv
             (fun k st _ =>
                length (channelModeBytes st) = 6%nat /\
                Forall (fun b => 0 <= b < 256) (channelModeBytes st) /\
                forall j, 0 <= j < 24 ->
                  mode_field (channelModeBytes st) j = if j <? k then value_at j else 0)
             (setUscSettings_channel self settings) n 0
             {| ioMask := 0; outputMask := 0; channelModeBytes := bytearray_fill 0 6 |}
             st' d d'); [| | exact Hrun].
    - cbn [channelModeBytes]. split; [reflexivity |].
      split; [repeat constructor; lia |].
      intros j Hj. destruct (Z.ltb_spec j 0); [lia |].
      unfold mode_field, bytearray_fill.
      destruct (replicate 6 0 !! Z.to_nat (Z.shiftr j 2)) as [b |] eqn:Hb; cbn [default from_option id].
      + apply lookup_replicate_1 in Hb as [-> _]. rewrite Z.shiftr_0_l. reflexivity.
      + rewrite Z.shiftr_0_l. reflexivity.
    - intros i s1 d1 s2 d2 Hi (Hlen & Hvalid & Hfields) Hbody.
      apply setUscSettings_channel_mini in Hbody as (c & old & Hc & Hold & Hset);
        [| exact Hmicro | lia].
      assert (Hsh : forall j, 0 <= j -> Z.shiftr j 2 = j `div` 4 /\ Z.land j 3 = j `mod` 4).
      { intros j Hj. split; [apply (Z.shiftr_div_pow2 j 2); lia |].
        change 3 with (Z.ones 2). rewrite Z.land_ones by lia. reflexivity. }
      destruct (Hsh i ltac:(lia)) as [Hia Hiq].
      apply getitem_nonneg in Hold; [| rewrite Hia; apply Z.div_pos; lia].
      apply bytearray_setitem_nonneg in Hset
        as (Hlt & Hx & Heq); [| rewrite Hia; apply Z.div_pos; lia].
      rewrite Heq. split; [rewrite length_insert; exact Hlen |].
      split; [apply Forall_insert; [exact Hvalid | lia] |].
      intros j Hj. destruct (Hsh j ltac:(lia)) as [Hja Hjq].
      pose proof (Hfields j Hj) as Hf. unfold mode_field in Hf |- *.
      destruct (Z.eq_dec (Z.shiftr j 2) (Z.shiftr i 2)) as [Hsame | Hdiff].
      + rewrite Hsame, list_lookup_insert_eq by exact Hlt. cbn [default from_option id].
        rewrite Hsame, Hold in Hf. cbn [default from_option id] in Hf.
        rewrite mode_bits;
          [| apply (proj1 (Forall_lookup _ _) Hvalid _ _ Hold)
           | apply ChannelMode_value_range
           | rewrite Hiq; apply Z.mod_pos_bound; lia
           | rewrite Hjq; apply Z.mod_pos_bound; lia].
        rewrite Hf.
        destruct (Z.eq_dec j i) as [-> | Hne].
        * rewrite Z.eqb_refl.
          destruct (Z.ltb_spec i i); [lia |]. destruct (Z.ltb_spec i (i + 1)); [| lia].
          unfold value_at. rewrite Hc. reflexivity.
        * destruct (Z.eqb_spec (Z.land j 3) (Z.land i 3)) as [Hq | _].
          { exfalso. rewrite Hja, Hia in Hsame. rewrite Hjq, Hiq in Hq.
            pose proof (Z.div_mod j 4 ltac:(lia)). pose proof (Z.div_mod i 4 ltac:(lia)).
            lia. }
          rewrite Z.lor_0_r.
          destruct (Z.ltb_spec j i), (Z.ltb_spec j (i + 1)); try reflexivity; lia.
      + rewrite list_lookup_insert_ne
          by (intros Heq'; apply Hdiff; apply Z2Nat.inj in Heq';
              [congruence | rewrite Hia; apply Z.div_pos; lia
               | rewrite Hja; apply Z.div_pos; lia]).
        rewrite Hf.
        assert (j <> i) by congruence.
        destruct (Z.ltb_spec j i), (Z.ltb_spec j (i + 1)); try reflexivity; lia. }
  destruct Hinv as (Hlen & Hvalid & Hfields).
  split; [exact Hlen |]. split; [exact Hvalid |].
  intros j c Hj Hc. rewrite Hfields by lia.
  destruct (Z.ltb_spec j (0 + Z.of_nat n)); [| lia].
  unfold value_at. rewrite Hc. reflexivity.
Qed.

(** The six writes of the packed modes, which end a settings write on the
    extended variant. *)
Lemma mode_bytes_written (cmb : list Z) (d d' : usb) :
  for_each (range_ 6) (fun i (_ : unit) =>
    b ← lift (getitem cmb i);
    _setRawParameter (PARAMETER_CHANNEL_MODES_0_3 + i) b) tt d = (Ok tt, d') ->
  (forall q, q < 12 \/ 18 <= q -> stored (log d') q = stored (log d) q) /\
  (forall i, 0 <= i < 6 ->
     exists b, cmb !! Z.to_nat i = Some b /\
               written (log d') (PARAMETER_CHANNEL_MODES_0_3 + i) b).
Proof.
  intros Hrun. unfold range_ in Hrun.
  change 6 with (0 + Z.of_nat 6).
  change (seqZ 0 6) with (seqZ 0 (Z.of_nat 6)) in Hrun.
  apply (for_each_seqZ_inv
           (fun k (_ : unit) dk =>
              (forall q, q < 12 \/ 12 + k <= q -> stored (log dk) q = stored (log d) q) /\
              (forall i, 0 <= i < k ->
                 exists b, cmb !! Z.to_nat i = Some b /\
                           written (log dk) (PARAMETER_CHANNEL_MODES_0_3 + i) b))
           (fun i (_ : unit) =>
              b ← lift (getitem cmb i);
              _setRawParameter (PARAMETER_CHANNEL_MODES_0_3 + i) b)
           6 0 tt tt d d'); [| | exact Hrun].
  - split; [reflexivity |]. intros i Hi. lia.
  - intros i [] d1 [] d2 Hi [Hframe Hall] Hbody.
    apply bind_Ok_inv in Hbody as (b & d0 & Hget & Hset).
    apply lift_Ok_inv in Hget as [Hget ->].
    apply getitem_nonneg in Hget; [| lia].
    apply setRawParameter_stored in Hset as (_ & Hin & Hst);
      [| unfold PARAMETER_CHANNEL_MODES_0_3; lia].
    unfold PARAMETER_CHANNEL_MODES_0_3 in *. split.
    + intros q Hq. rewrite Hst. destruct (Z.eqb_spec q (12 + i)); [lia |].
      apply Hframe. lia.
    + intros j Hj. destruct (Z.eq_dec j i) as [-> | Hne].
      * exists b. split; [exact Hget |]. split; [| exact Hin].
        rewrite Hst, Z.eqb_refl. reflexivity.
      * destruct (Hall j ltac:(lia)) as (b' & Hb' & Hs' & Hin').
        exists b'. split; [exact Hb' |]. split; [| exact Hin'].
        rewrite Hst. destruct (Z.eqb_spec (12 + j) (12 + i)); [lia | exact Hs'].
Qed.

(** The six reads of the packed modes return the bytes that were written. *)
Lemma returns_mode_bytes (l : list transfer) (cmb : list Z) :
  length cmb = 6%nat ->
  (forall i, 0 <= i < 6 ->
     exists b, cmb !! Z.to_nat i = Some b /\
               written l (PARAMETER_CHANNEL_MODES_0_3 + i) b) ->
  returns l (for_each (range_ 6) (fun i bs =>
               b ← _getRawParameter (PARAMETER_CHANNEL_MODES_0_3 + i);
               mret (bs ++ [b])) []) cmb.
Proof.
  intros Hlen Hall.
  pose proof (returns_for_each l
                (fun i bs => b ← _getRawParameter (PARAMETER_CHANNEL_MODES_0_3 + i);
                             mret (bs ++ [b]))
                (fun k => take (Z.to_nat k) cmb) 6 0) as Hfe.
  cbv beta in Hfe. change (Z.to_nat 0) with 0%nat in Hfe.
  change (0 + Z.of_nat 6) with 6 in Hfe. change (Z.to_nat 6) with 6%nat in Hfe.
  rewrite take_0, take_ge in Hfe by lia.
  unfold range_. apply Hfe. intros i Hi.
  destruct (Hall i ltac:(lia)) as (b & Hb & Hw).
  eapply returns_bind; [apply returns_getRawParameter; exact Hw |].
  apply returns_ret. replace (Z.to_nat (i + 1)) with (S (Z.to_nat i)) by lia.
  symmetry. apply take_S_r. exact Hb.
Qed.

Lemma period_reassembled (p : Z) : Z.lor (Z.shiftl (Z.shiftr p 8) 8) (Z.land p 255) = p.
Proof.
  apply Z.bits_inj'. intros n Hn. rewrite Z.lor_spec, Z.land_spec.
  change 255 with (Z.ones 8). destruct (Z.ltb_spec n 8).
  - rewrite Z.shiftl_spec_low, Z.ones_spec_low by lia. cbn [orb].
    rewrite andb_true_r. reflexivity.
  - rewrite Z.shiftl_spec, Z.shiftr_spec, Z.ones_spec_high by lia.
    rewrite andb_false_r, orb_false_r. f_equal. lia.
Qed.

(** On the extended variant the packed modes decode to the mode that was
    written. *)
Lemma extended_mode_decoded (cmb : list Z) (i : Z) (c : ChannelSetting) :
  length cmb = 6%nat -> 0 <= i < 24 ->
  mode_field cmb i = ChannelMode_value (mode c) ->
  (b ← getitem cmb (Z.shiftr i 2);
   Ok (ChannelMode_of_value (Z.land (Z.shiftr b (Z.shiftl (Z.land i 3) 1)) 3)))
    = Ok (mode c).
Proof.
  intros Hlen Hi Hfield.
  assert (Ha : 0 <= Z.shiftr i 2 < 6).
  { rewrite (Z.shiftr_div_pow2 i 2) by lia. change (2 ^ 2) with 4.
    split; [apply Z.div_pos; lia | apply Z.div_lt_upper_bound; lia]. }
  destruct (lookup_lt_is_Some_2 cmb (Z.to_nat (Z.shiftr i 2)) ltac:(lia)) as [b Hb].
  rewrite (proj2 (getitem_nonneg cmb (Z.shiftr i 2) b ltac:(lia)) Hb).
  cbn [mbind result_bind]. unfold mode_field in Hfield. rewrite Hb in Hfield.
  cbn [default from_option id] in Hfield. rewrite Hfield, ChannelMode_of_value_value.
  reflexivity.
Qed.

(** What a settings write that goes through leaves in the extended
    variant. *)
Lemma setUscSettings_stored_extended (self : Usc) (settings : UscSettings)
    (d d' : usb) :
  microMaestro self = false -> 0 <= servoCount self <= 24 ->
  setUscSettings self settings false d = (Ok tt, d') ->
  exists cmb,
    written (log d') PARAMETER_SERIAL_MODE (serialMode settings) /\
    written (log d') PARAMETER_SERIAL_FIXED_BAUD_RATE
      (_convertBpsToSpbrg (fixedBaudRate settings)) /\
    written (log d') PARAMETER_SERIAL_ENABLE_CRC (int_of_bool (enableCrc settings)) /\
    written (log d') PARAMETER_SERIAL_NEVER_SUSPEND (int_of_bool (neverSuspend settings)) /\
    written (log d') PARAMETER_SERIAL_DEVICE_NUMBER (serialDeviceNumber settings) /\
    written (log d') PARAMETER_SERIAL_MINI_SSC_OFFSET (miniSscOffset settings) /\
    written (log d') PARAMETER_SERIAL_TIMEOUT (serialTimeout settings) /\
    written (log d') PARAMETER_SCRIPT_DONE (int_of_bool (Settings.scriptDone settings)) /\
    written (log d') PARAMETER_MINI_MAESTRO_SERVO_PERIOD_L
      (Z.land (miniMaestroServoPeriod settings) 0xFF) /\
    written (log d') PARAMETER_MINI_MAESTRO_SERVO_PERIOD_HU
      (Z.shiftr (miniMaestroServoPeriod settings) 8) /\
    written (log d') PARAMETER_SERVO_MULTIPLIER
      (if servoMultiplier settings <? 1 then 0
       else if servoMultiplier settings >? 256 then 255
       else servoMultiplier settings - 1) /\
    ((servoCount self >? 18) = true ->
     written (log d') PARAMETER_ENABLE_PULLUPS (int_of_bool (enablePullups settings))) /\
    length cmb = 6%nat /\
    (forall i, 0 <= i < 6 ->
       exists b, cmb !! Z.to_nat i = Some b /\
                 written (log d') (PARAMETER_CHANNEL_MODES_0_3 + i) b) /\
    forall i, 0 <= i < servoCount self ->
      exists c, channelSettings settings !! Z.to_nat i = Some c /\ channel_in_range c /\
        mode_field cmb i = ChannelMode_value (mode c) /\
        forall o v, channel_raw c (encoded_speed c) o = Some v ->
                    stored (log d') (30 + 9 * i + o) = Some v.
Proof.
  intros Hmicro Hcount Hrun.
  unfold setUscSettings in Hrun. rewrite Hmicro in Hrun.
  apply bind_Ok_inv in Hrun as ([] & d1 & W1 & Hrun).
  apply bind_Ok_inv in Hrun as ([] & d2 & W2 & Hrun).
  apply bind_Ok_inv in Hrun as ([] & d3 & W3 & Hrun).
  apply bind_Ok_inv in Hrun as ([] & d4 & W4 & Hrun).
  apply bind_Ok_inv in Hrun as ([] & d5 & W5 & Hrun).
  apply bind_Ok_inv in Hrun as ([] & d6 & W6 & Hrun).
  apply bind_Ok_inv in Hrun as ([] & d7 & W7 & Hrun).
  apply bind_Ok_inv in Hrun as ([] & d8 & W8 & Hrun).
  apply bind_Ok_inv in Hrun as ([] & d11 & Wblock & Hrun).
  apply bind_Ok_inv in Wblock as ([] & d9 & W9 & Wblock).
  apply bind_Ok_inv in Wblock as ([] & d10 & W10 & W11).
  apply bind_Ok_inv in Hrun as ([] & dp & Wpull & Hrun).
  apply bind_Ok_inv in Hrun as (st & dl & Hloop & Hrun).
  apply bind_Ok_inv in Hrun as ([] & dt & Htail & Hret).
  injection Hret as <-.
  apply setRawParameter_stored in W1 as (_ & I1 & S1); [| vm_compute; intuition congruence].
  apply setRawParameter_stored in W2 as (_ & I2 & S2); [| vm_compute; intuition congruence].
  apply setRawParameter_stored in W3 as (_ & I3 & S3); [| vm_compute; intuition congruence].
  apply setRawParameter_stored in W4 as (_ & I4 & S4); [| vm_compute; intuition congruence].
  apply setRawParameter_stored in W5 as (_ & I5 & S5); [| vm_compute; intuition congruence].
  apply setRawParameter_stored in W6 as (_ & I6 & S6); [| vm_compute; intuition congruence].
  apply setRawParameter_stored in W7 as (_ & I7 & S7); [| vm_compute; intuition congruence].
  apply setRawParameter_stored in W8 as (_ & I8 & S8); [| vm_compute; intuition congruence].
  apply setRawParameter_stored in W9 as (_ & I9 & S9); [| vm_compute; intuition congruence].
  apply setRawParameter_stored in W10 as (_ & I10 & S10); [| vm_compute; intuition congruence].
  apply setRawParameter_stored in W11 as (_ & I11 & S11); [| vm_compute; intuition congruence].
  assert (Hpull : ((servoCount self >? 18) = true ->
                   in_range PARAMETER_ENABLE_PULLUPS (int_of_bool (enablePullups settings))) /\
                  forall q, stored (log dp) q =
                    if (q =? PARAMETER_ENABLE_PULLUPS) && (servoCount self >? 18)
                    then Some (int_of_bool (enablePullups settings))
                    else stored (log d11) q).
  { destruct (servoCount self >? 18).
    - apply setRawParameter_stored in Wpull as (_ & Ip & Sp);
        [| vm_compute; intuition congruence].
      split; [intros _; exact Ip |]. intros q. rewrite Sp, andb_true_r. reflexivity.
    - injection Wpull as <-. split; [discriminate |].
      intros q. rewrite andb_false_r. reflexivity. }
  destruct Hpull as [Ipull Spull].
  remember (Z.to_nat (servoCount self)) as n eqn:Hn.
  assert (Hcn : servoCount self = Z.of_nat n) by lia.
  unfold range_ in Hloop. rewrite Hcn in Hloop.
  assert (Hn24 : Z.of_nat n <= 24) by lia.
  pose proof (mini_modes_loop self settings n st dp dl Hmicro Hn24 Hloop)
    as (Hlen & _ & Hfields).
  apply setUscSettings_loop_stored in Hloop as (_ & Hlow & Hchan); [| exact Hn24].
  rewrite <- Hcn in Hfields, Hchan.
  apply mode_bytes_written in Htail as [Hframe Hmodes].
  assert (Hdev : forall q, q < 12 \/ 18 <= q -> q < 30 ->
            stored (log dt) q =
              if (q =? PARAMETER_ENABLE_PULLUPS) && (servoCount self >? 18)
              then Some (int_of_bool (enablePullups settings))
              else if q =? PARAMETER_SERVO_MULTIPLIER
                   then Some (if servoMultiplier settings <? 1 then 0
                              else if servoMultiplier settings >? 256 then 255
                              else servoMultiplier settings - 1)
              else if q =? PARAMETER_MINI_MAESTRO_SERVO_PERIOD_HU
                   then Some (Z.shiftr (miniMaestroServoPeriod settings) 8)
              else if q =? PARAMETER_MINI_MAESTRO_SERVO_PERIOD_L
                   then Some (Z.land (miniMaestroServoPeriod settings) 0xFF)
              else if q =? PARAMETER_SCRIPT_DONE
                   then Some (int_of_bool (Settings.scriptDone settings))
              else if q =? PARAMETER_SERIAL_TIMEOUT then Some (serialTimeout settings)
              else if q =? PARAMETER_SERIAL_MINI_SSC_OFFSET then Some (miniSscOffset settings)
              else if q =? PARAMETER_SERIAL_DEVICE_NUMBER
                   then Some (serialDeviceNumber settings)
              else if q =? PARAMETER_SERIAL_NEVER_SUSPEND
                   then Some (int_of_bool (neverSuspend settings))
              else if q =? PARAMETER_SERIAL_ENABLE_CRC
                   then Some (int_of_bool (enableCrc settings))
              else if q =? PARAMETER_SERIAL_FIXED_BAUD_RATE
                   then Some (_convertBpsToSpbrg (fixedBaudRate settings))
              else if q =? PARAMETER_SERIAL_MODE then Some (serialMode settings)
              else stored (log d) q).
  { intros q Hq Hq'.
    rewrite (Hframe q Hq), (Hlow q Hq'), Spull, S11, S10, S9, S8, S7, S6, S5, S4, S3, S2, S1.
    reflexivity. }
  exists (channelModeBytes st).
  repeat match goal with
         | |- written _ _ _ /\ _ =>
             split; [split; [rewrite Hdev by (vm_compute; intuition congruence); reflexivity
                            | assumption] |]
         end.
  split.
  { intros Hp. split; [| apply Ipull; exact Hp].
    rewrite Hdev by (vm_compute; intuition congruence).
    change (PARAMETER_ENABLE_PULLUPS =? PARAMETER_ENABLE_PULLUPS) with true.
    cbn [andb]. rewrite Hp. reflexivity. }
  split; [exact Hlen |]. split; [exact Hmodes |].
  intros i Hi. destruct (Hchan i Hi) as (c & Hc & Hin & Hst).
  exists c. split; [exact Hc |]. split; [exact Hin |].
  split; [apply Hfields; [exact Hi | exact Hc] |].
  intros o v Hv.
  assert (Ho : 0 <= o <= 8).
  { revert Hv. unfold channel_raw.
    repeat match goal with
           | |- context [?a =? ?b] => destruct (Z.eqb_spec a b); [lia |]
           end. discriminate. }
  rewrite Hframe by lia. apply Hst. exact Hv.
Qed.

(** On the extended variant, a settings read on a device that remembers a
    settings write returns what was written, as [read_back] has it. *)
Lemma getUscSettings_returns_extended (self : Usc) (settings : UscSettings)
    (d d' : usb) :
  microMaestro self = false -> 0 <= servoCount self <= 24 ->
  setUscSettings self settings false d = (Ok tt, d') ->
  returns (log d') (getUscSettings self) (read_back self settings).
Proof.
  intros Hmicro Hcount Hrun.
  destruct (setUscSettings_stored_extended self settings d d' Hmicro Hcount Hrun)
    as (cmb & Wmode & Wbaud & Wcrc & Wsuspend & Wnumber & Wssc & Wtimeout & Wdone
        & Wlow & Whigh & Wmult & Wpull & Hlen & Wmodes & Hchan).
  assert (Hspbrg : 0 <= _convertBpsToSpbrg (fixedBaudRate settings)).
  { destruct Wbaud as [_ (r & Hr & Hv)]. vm_compute in Hr. injection Hr as <-.
    cbn [minimumValue] in Hv. lia. }
  unfold getUscSettings. rewrite Hmicro.
  eapply returns_bind; [apply returns_getRawParameter; exact Wmode |].
  eapply returns_bind; [apply returns_getRawParameter; exact Wbaud |].
  eapply returns_bind; [apply returns_lift, convertSpbrgToBps_returns; exact Hspbrg |].
  eapply returns_bind; [apply returns_getRawParameter; exact Wcrc |].
  eapply returns_bind; [apply returns_getRawParameter; exact Wsuspend |].
  eapply returns_bind; [apply returns_getRawParameter; exact Wnumber |].
  eapply returns_bind; [apply returns_getRawParameter; exact Wssc |].
  eapply returns_bind; [apply returns_getRawParameter; exact Wtimeout |].
  eapply returns_bind; [apply returns_getRawParameter; exact Wdone |].
  eapply returns_bind.
  { eapply returns_bind; [apply returns_getRawParameter; exact Whigh |].
    eapply returns_bind; [apply returns_getRawParameter; exact Wlow |].
    eapply returns_bind; [apply returns_getRawParameter; exact Wmult |].
    apply returns_ret. reflexivity. }
  cbv beta iota.
  eapply returns_bind.
  { instantiate (1 := if servoCount self >? 18 then enablePullups settings
                      else enablePullups UscSettings_init).
    destruct (servoCount self >? 18).
    - eapply returns_bind; [apply returns_getRawParameter; apply Wpull; reflexivity |].
      apply returns_ret. apply negb_int_of_bool.
    - apply returns_ret. reflexivity. }
  cbv beta.
  eapply returns_bind.
  { eapply returns_bind; [apply returns_mode_bytes; [exact Hlen | exact Wmodes] |].
    apply returns_ret. reflexivity. }
  cbv beta iota.
  eapply returns_bind.
  { apply (returns_read_channels self (log d') 0 0 cmb (channelSettings settings)
             (servoCount self)); [lia |].
    intros i acc Hi. destruct (Hchan i Hi) as (c & Hc & Hin & Hfield & Hst).
    exists c. split; [exact Hc |].
    apply returns_getUscSettings_channel; [lia | exact Hst | exact Hin |].
    unfold written_mode. rewrite Hmicro.
    apply extended_mode_decoded; [exact Hlen | lia | exact Hfield]. }
  apply returns_ret. unfold read_back. rewrite Hmicro, !negb_int_of_bool.
  rewrite period_reassembled.
  replace ((if servoMultiplier settings <? 1 then 0
            else if servoMultiplier settings >? 256 then 255
            else servoMultiplier settings - 1) + 1)
    with (if servoMultiplier settings <? 1 then 1
          else if servoMultiplier settings >? 256 then 256
          else servoMultiplier settings)
    by (destruct (servoMultiplier settings <? 1), (servoMultiplier settings >? 256); lia).
  reflexivity.
Qed.

Lemma Usc_init_variants (productID : Z) (self : Usc) :
  Usc_init productID = Some self ->
  (microMaestro self = true /\ servoCount self = 6) \/
  (microMaestro self = false /\ 0 <= servoCount self <= 24).
Proof.
  unfold Usc_init. intros Hinit.
  repeat match type of Hinit with
         | (if ?c then _ else _) = _ => destruct c
         end;
    try discriminate; injection Hinit as <-; cbn;
    [left | right | right | right]; split; try reflexivity; lia.
Qed.

(** * Settings round trip *)

(** A settings write that goes through, followed by a settings read on a
    device that answers each read with the value last written to the
    parameter, returns the settings that were written up to what the
    parameters cannot hold: the read succeeds, on all four devices, and its
    result is [read_back] of the written settings. *)
Theorem settings_round_trip (productID : Z) (self : Usc)
    (settings : UscSettings) (d d' dr : usb) :
  Usc_init productID = Some self ->
  setUscSettings self settings false d = (Ok tt, d') ->
  remembers (log d') (reply dr) ->
  exists dr', getUscSettings self dr = (Ok (read_back self settings), dr').
Proof.
  intros Hinit Hrun Hrem.
  assert (Hret : returns (log d') (getUscSettings self) (read_back self settings)).
  { destruct (Usc_init_variants _ _ Hinit) as [[Hmicro Hcount] | [Hmicro Hcount]].
    - exact (getUscSettings_returns_compact self settings d d' Hmicro Hcount Hrun).
    - exact (getUscSettings_returns_extended self settings d d' Hmicro Hcount Hrun). }
  destruct (Hret dr Hrem) as (dr' & Hread & _). exists dr'. exact Hread.
Qed.


Lemma settings_round_trip_witness :
  exists dr',
    getUscSettings mini12
      (echo_device
         (log (setUscSettings mini12 twelve_channel_settings false
                 silent_device).2))
      = (Ok (read_back mini12 twelve_channel_settings), dr').
Proof.
  apply (settings_round_trip 0x008a mini12 twelve_channel_settings
           silent_device
           (setUscSettings mini12 twelve_channel_settings false
              silent_device).2).
  - reflexivity.
  - vm_compute. reflexivity.
  - apply echo_device_remembers.
Defined.

(** On the extended variant a settings write that goes through leaves the
    mode of every channel in the packed mode parameters: the value of the
    mode of channel c is in the two bits at 2 * (c mod 4) of the byte at
    parameter 12 + c // 4. *)
Theorem extended_channel_modes (productID : Z) (self : Usc)
    (settings : UscSettings) (d d' : usb) :
  Usc_init productID = Some self -> microMaestro self = false ->
  setUscSettings self settings false d = (Ok tt, d') ->
  forall channel setting,
    0 <= channel < servoCount self ->
    channelSettings settings !! Z.to_nat channel = Some setting ->
    exists b,
      stored (log d') (PARAMETER_CHANNEL_MODES_0_3 + Z.shiftr channel 2) = Some b /\
      0 <= b <= 255 /\
      Z.land (Z.shiftr b (Z.shiftl (Z.land channel 3) 1)) 3
        = ChannelMode_value (mode setting).
Proof.
  intros Hinit Hmicro Hrun channel setting Hc Hs.
  destruct (Usc_init_variants _ _ Hinit) as [[Hm _] | [_ Hcount]]; [congruence |].
  destruct (setUscSettings_stored_extended self settings d d' Hmicro Hcount Hrun)
    as (cmb & _ & _ & _ & _ & _ & _ & _ & _ & _ & _ & _ & _ & Hlen & Wmodes & Hchan).
  destruct (Hchan channel Hc) as (c & Hc' & _ & Hfield & _).
  assert (c = setting) as -> by congruence.
  assert (Ha : 0 <= Z.shiftr channel 2 < 6).
  { rewrite (Z.shiftr_div_pow2 channel 2) by lia. change (2 ^ 2) with 4.
    split; [apply Z.div_pos; lia | apply Z.div_lt_upper_bound; lia]. }
  destruct (Wmodes (Z.shiftr channel 2) Ha) as (b & Hb & Hst & (r & Hr & Hv)).
  exists b. split; [exact Hst |].
  unfold mode_field in Hfield. rewrite Hb in Hfield. cbn [default from_option id] in Hfield.
  split; [| exact Hfield].
  assert (Hr8 : r = Range_u8).
  { assert (Hcases : Z.shiftr channel 2 = 0 \/ Z.shiftr channel 2 = 1 \/
                     Z.shiftr channel 2 = 2 \/ Z.shiftr channel 2 = 3 \/
                     Z.shiftr channel 2 = 4 \/ Z.shiftr channel 2 = 5) by lia.
    destruct Hcases as [He | [He | [He | [He | [He | He]]]]]; rewrite He in Hr;
      vm_compute in Hr; injection Hr as <-; reflexivity. }
  subst r. cbn in Hv. lia.
Qed.

Lemma extended_channel_modes_witness :
  exists b,
    stored (log (setUscSettings mini12 twelve_channel_settings false
                   silent_device).2) 13 = Some b /\
    0 <= b <= 255 /\
    Z.land (Z.shiftr b 4) 3 = 1.
Proof.
  apply (extended_channel_modes 0x008a mini12 twelve_channel_settings
           silent_device
           (setUscSettings mini12 twelve_channel_settings false
              silent_device).2
           eq_refl eq_refl ltac:(vm_compute; reflexivity)
           6 (channel_with_mode ServoMultiplied)).
  - vm_compute. intuition congruence.
  - reflexivity.
Defined.

(** ** A script with a value that is no byte *)

Lemma for_each_result_ext_in {A St} (l : list A) (body1 body2 : A -> St -> result St)
    (s : St) :
  (forall x s1, x ∈ l -> body1 x s1 = body2 x s1) ->
  for_each l body1 s = for_each l body2 s.
Proof.
  revert s. induction l as [| x l IH]; intros s Hext; cbn [for_each]; [reflexivity |].
  rewrite (Hext x s) by (apply elem_of_cons; left; reflexivity).
  destruct (body2 x s) as [s1 | e]; cbn [mbind result_bind]; [| reflexivity].
  apply IH. intros y s2 Hy. apply Hext. apply elem_of_cons. right. exact Hy.
Qed.

Lemma for_each_result_app {A St} (l1 l2 : list A) (body : A -> St -> result St) (s : St) :
  for_each (l1 ++ l2) body s = (s' ← for_each l1 body s; for_each l2 body s').
Proof.
  revert s. induction l1 as [| x l1 IH]; intros s; cbn [app for_each]; [reflexivity |].
  destruct (body x s) as [s1 | e]; cbn [mbind result_bind]; [apply IH | reflexivity].
Qed.

Lemma for_each_app_run {A St} (l1 l2 : list A) (body : A -> St -> M St) (s : St) (d : usb) :
  for_each (l1 ++ l2) body s d =
    match for_each l1 body s d with
    | (Ok s', d') => for_each l2 body s' d'
    | (Raise e, d') => (Raise e, d')
    end.
Proof.
  revert s d. induction l1 as [| x l1 IH]; intros s d; cbn [app for_each]; [reflexivity |].
  rewrite !bind_run. destruct (body x s d) as [[s1 | e] d1]; [apply IH | reflexivity].
Qed.

Lemma getitem_take (l : list Z) (n : nat) (i : Z) :
  0 <= i < Z.of_nat n -> (n <= length l)%nat -> getitem (take n l) i = getitem l i.
Proof.
  intros Hi Hn.
  destruct (lookup_lt_is_Some_2 l (Z.to_nat i) ltac:(lia)) as [b Hb].
  rewrite (proj2 (getitem_nonneg l i b ltac:(lia)) Hb).
  apply getitem_nonneg; [lia |]. rewrite lookup_take_lt by lia. exact Hb.
Qed.

(** The blocks before the one with the offending value are cut out as for a
    script that ends there. *)
Lemma writeScript_block_prefix (bytecode : list Z) (q i : Z) :
  0 <= i < q -> 16 * q <= Z.of_nat (length bytecode) ->
  Forall valid_byte (take (Z.to_nat (16 * q)) bytecode) ->
  writeScript_block_bytes bytecode i = Ok (block_of (take (Z.to_nat (16 * q)) bytecode) i).
Proof.
  intros Hi Hq Hvalid.
  set (p := take (Z.to_nat (16 * q)) bytecode) in *.
  assert (Hlen : Z.of_nat (length p) = 16 * q) by (subst p; rewrite length_take; lia).
  assert (Hsame : writeScript_block_bytes bytecode i = writeScript_block_bytes p i).
  { unfold writeScript_block_bytes. apply for_each_result_ext_in.
    intros j s Hj. unfold range_ in Hj. apply elem_of_seqZ in Hj.
    destruct (Z.ltb_spec (i * 16 + j) (Z.of_nat (length bytecode))); [| lia].
    destruct (Z.ltb_spec (i * 16 + j) (Z.of_nat (length p))); [| lia].
    subst p. rewrite getitem_take by lia. reflexivity. }
  rewrite Hsame, writeScript_block_bytes_spec;
    [| exact Hvalid | rewrite Hlen; Z.div_mod_to_equations; lia].
  f_equal. f_equal. unfold pad16. rewrite Hlen.
  replace (- (16 * q)) with ((- q) * 16) by lia. rewrite Z.mod_mul by lia.
  cbn [Z.to_nat replicate]. apply app_nil_r.
Qed.

(** The block with the offending value is not built. *)
Lemma writeScript_block_invalid (bytecode : list Z) (k x : Z) :
  0 <= k -> bytecode !! Z.to_nat k = Some x -> ~ valid_byte x ->
  Forall valid_byte (take (Z.to_nat k) bytecode) ->
  writeScript_block_bytes bytecode (k `div` 16) = Raise ValueError.
Proof.
  intros Hk Hx Hbad Hvalid.
  pose proof (lookup_lt_Some _ _ _ Hx) as Hklen.
  set (q := k `div` 16). set (j0 := k `mod` 16).
  assert (Hkq : k = q * 16 + j0) by (subst q j0; Z.div_mod_to_equations; lia).
  assert (Hj0 : 0 <= j0 < 16) by (subst j0; apply Z.mod_pos_bound; lia).
  unfold writeScript_block_bytes, range_.
  replace (seqZ 0 16) with (seqZ 0 (j0 + (16 - j0))) by (f_equal; lia).
  rewrite seqZ_app by lia. rewrite for_each_result_app.
  destruct (for_each_result_seqZ_run
              (fun (_ : Z) (s : list Z) => length s = 16%nat)
              (fun j block_bytes =>
                 if q * 16 + j <? Z.of_nat (length bytecode)
                 then b ← getitem bytecode (q * 16 + j); bytearray_setitem block_bytes j b
                 else bytearray_setitem block_bytes j 0xFF)
              (Z.to_nat j0) 0 (bytearray_fill 0x00 16)) as (s' & Hrun & Hlen).
  { reflexivity. }
  { intros j s1 Hj Hs1.
    destruct (Z.ltb_spec (q * 16 + j) (Z.of_nat (length bytecode))); [| lia].
    destruct (lookup_lt_is_Some_2 bytecode (Z.to_nat (q * 16 + j)) ltac:(lia)) as [b Hb].
    rewrite (proj2 (getitem_nonneg bytecode (q * 16 + j) b ltac:(lia)) Hb).
    cbn [mbind result_bind].
    assert (Hvb : valid_byte b).
    { apply (proj1 (Forall_lookup _ _) Hvalid (Z.to_nat (q * 16 + j))).
      rewrite lookup_take_lt by lia. exact Hb. }
    rewrite bytearray_setitem_Ok by (unfold valid_byte in Hvb; lia).
    eexists. split; [reflexivity |]. rewrite length_insert. exact Hs1. }
  rewrite Z2Nat.id in Hrun by lia. rewrite Hrun. cbn [mbind result_bind].
  rewrite Z.add_0_l. rewrite seqZ_cons by lia. cbn [for_each].
  destruct (Z.ltb_spec (q * 16 + j0) (Z.of_nat (length bytecode))); [| lia].
  rewrite <- Hkq.
  rewrite (proj2 (getitem_nonneg bytecode k x Hk) Hx). cbn [mbind result_bind].
  unfold bytearray_setitem, py_index. cbn zeta. rewrite Hlen.
  destruct (Z.ltb_spec j0 0); [lia |]. destruct (Z.ltb_spec j0 0); [lia |]. cbn [orb].
  destruct (Z.leb_spec (Z.of_nat 16) j0); [lia |]. cbn [mbind result_bind].
  unfold valid_byte in Hbad.
  destruct (Z.ltb_spec x 0); cbn [orb]; [reflexivity |].
  destruct (Z.ltb_spec 255 x); [reflexivity | lia].
Qed.

(** [writeScript] does not check the script before it starts sending: when
    the value at index k is the first that is not in 0..255, the k // 16
    whole blocks before it are sent, with the bytes of the script, and the
    call then raises ValueError without a further transfer. *)
Theorem writeScript_invalid_byte (bytecode : list Z) (k x : Z) (d : usb) :
  0 <= k -> bytecode !! Z.to_nat k = Some x -> ~ valid_byte x ->
  Forall valid_byte (take (Z.to_nat k) bytecode) ->
  writeScript bytecode d =
    (Raise ValueError,
     {| log := log d ++ block_transfers 0 (take (Z.to_nat (16 * (k `div` 16))) bytecode);
        reply := reply d |}).
Proof.
  intros Hk Hx Hbad Hvalid.
  pose proof (lookup_lt_Some _ _ _ Hx) as Hklen.
  set (q := k `div` 16).
  assert (Hq : 0 <= q /\ 16 * q <= k < 16 * q + 16)
    by (subst q; Z.div_mod_to_equations; lia).
  set (n := (Z.of_nat (length bytecode) + 15) `div` 16).
  assert (Hn : q < n) by (subst n; Z.div_mod_to_equations; lia).
  assert (Hvalidq : Forall valid_byte (take (Z.to_nat (16 * q)) bytecode)).
  { replace (Z.to_nat (16 * q)) with (Z.to_nat (16 * q) `min` Z.to_nat k)%nat by lia.
    rewrite <- take_take. apply Forall_take. exact Hvalid. }
  unfold writeScript, range_. fold n.
  replace n with (q + (n - q)) by lia. rewrite seqZ_app by lia.
  rewrite for_each_app_run.
  rewrite <- (Z2Nat.id q) at 1 by lia.
  rewrite (for_each_transfers
             (fun i => write_script_transfer i
                         (block_of (take (Z.to_nat (16 * q)) bytecode) i))).
  2: { intros i d1 Hi. rewrite bind_run. unfold lift at 1.
       rewrite (writeScript_block_prefix bytecode q i) by (auto; lia).
       reflexivity. }
  rewrite Z.add_0_l, seqZ_cons by lia. cbn [for_each].
  rewrite bind_run, bind_run. unfold lift at 1.
  unfold q at 1. rewrite (writeScript_block_invalid bytecode k x Hk Hx Hbad Hvalid).
  cbn [log reply]. f_equal. f_equal. f_equal.
  unfold block_transfers. rewrite length_take.
  replace (Z.of_nat (Z.to_nat (16 * q) `min` length bytecode) `div` 16) with q
    by (rewrite Nat.min_l by lia; rewrite Z2Nat.id by lia;
        rewrite Z.mul_comm, Z.div_mul; lia).
  rewrite Z2Nat.id by lia.
  apply list_fmap_ext. intros i j _. rewrite Z.add_0_r. reflexivity.
Qed.

Lemma writeScript_invalid_byte_witness :
  writeScript (replicate 20 0 ++ [256]) silent_device =
    (Raise ValueError,
     {| log := block_transfers 0 (replicate 16 0); reply := reply silent_device |}).
Proof.
  apply (writeScript_invalid_byte (replicate 20 0 ++ [256]) 20 256 silent_device).
  - lia.
  - reflexivity.
  - unfold valid_byte. lia.
  - vm_compute. repeat constructor; discriminate.
Defined.


(** ** The status reads of the extended variant *)

Lemma ctrl_transfer_run (request wLength : Z) (d : usb) :
  ctrl_transfer 0xC0 request 0 0 (LengthIn wLength) d =
    (Ok (reply d (status_read_transfer request wLength)),
     {| log := log d ++ [status_read_transfer request wLength]; reply := reply d |}).
Proof. reflexivity. Qed.

(** On the extended variant every facet is one read of its own. "stack" and
    "callStack" ask for 252 bytes and return the bytes of the answer as
    they are, whatever their number, not 16-bit values. "variables" decodes
    an answer of 8 bytes and "servos" an answer of 7 * servoCount bytes;
    an answer of another length raises the short-read error after the
    transfer, which for "servos" reports 7 as the expected length. *)
Theorem extended_status_facets (self : Usc) (d : usb) :
  microMaestro self = false -> 0 <= servoCount self ->
  let after := fun t => {| log := log d ++ [t]; reply := reply d |} in
  let tv := status_read_transfer REQUEST_GET_VARIABLES 8 in
  let ts := status_read_transfer REQUEST_GET_SERVO_SETTINGS (servoCount self * 7) in
  let tk := status_read_transfer REQUEST_GET_STACK 252 in
  let tc := status_read_transfer REQUEST_GET_CALL_STACK 252 in
  getVariables self "stack" d = (Ok (OutRaw (reply d tk)), after tk) /\
  getVariables self "callStack" d = (Ok (OutRaw (reply d tc)), after tc) /\
  (forall b0 b1 b2 b3 b4 b5 b6 b7,
     reply d tv = [b0; b1; b2; b3; b4; b5; b6; b7] ->
     getVariables self "variables" d =
       (Ok (OutMiniVariables
              {| mini_stackPointer := b0; mini_callStackPointer := b1;
                 mini_errors := b2 + 256 * b3; mini_programCounter := b4 + 256 * b5;
                 mini_scriptDone := b6; mini_performanceFlags := b7 |}), after tv)) /\
  (Z.of_nat (length (reply d tv)) <> 8 ->
   getVariables self "variables" d =
     (Raise (ShortRead (Z.of_nat (length (reply d tv))) 8), after tv)) /\
  (Z.of_nat (length (reply d ts)) = servoCount self * 7 ->
   Forall valid_byte (reply d ts) ->
   exists servos, getVariables self "servos" d = (Ok (OutServos servos), after ts) /\
     Z.of_nat (length servos) = servoCount self /\ Forall status_in_range servos) /\
  (Z.of_nat (length (reply d ts)) <> servoCount self * 7 ->
   getVariables self "servos" d =
     (Raise (ShortRead (Z.of_nat (length (reply d ts))) 7), after ts)).
Proof.
  intros Hmicro Hcount after tv ts tk tc.
  unfold getVariables. rewrite Hmicro. unfold _getVariableMiniMaestro.
  repeat match goal with
         | |- context [decide (?a = ?b)] =>
             destruct (decide (a = b)) as [? | ?]; try discriminate; try congruence
         end.
  change (struct_size MiniMaestroVariables_struct) with 8%nat.
  change (struct_size ServoStatus_struct) with 7%nat.
  change (Z.of_nat 8) with 8. change (Z.of_nat 7) with 7.
  change (2 * MiniMaestroStackSize) with 252.
  change (2 * MiniMaestroCallStackSize) with 252.
  cbv zeta. rewrite !bind_run, !ctrl_transfer_run.
  fold tv ts tk tc. fold (after tv) (after ts) (after tk) (after tc).
  split; [reflexivity |]. split; [reflexivity |].
  split; [| split; [| split]].
  - intros b0 b1 b2 b3 b4 b5 b6 b7 Hreply. rewrite Hreply. reflexivity.
  - intros Hlen. destruct (Z.eqb_spec (Z.of_nat (length (reply d tv))) 8); [lia |].
    reflexivity.
  - intros Hlen Hvalid. rewrite Hlen, (Z.mul_comm 7), Z.eqb_refl. cbn [negb].
    destruct (servos_of_range self (reply d ts) Hcount Hvalid Hlen)
      as (servos & Hservos & Hn & Hall).
    exists servos. rewrite bind_run. unfold lift at 1. rewrite Hservos.
    split; [reflexivity |]. split; [exact Hn | exact Hall].
  - intros Hlen.
    destruct (Z.eqb_spec (Z.of_nat (length (reply d ts))) (7 * servoCount self)); [lia |].
    reflexivity.
Qed.

Lemma extended_status_facets_witness :
  getVariables mini12 "stack" idle_device =
    (Ok (OutRaw (replicate 138 0)),
     {| log := [status_read_transfer REQUEST_GET_STACK 252]; reply := reply idle_device |}).
Proof.
  apply (extended_status_facets mini12 idle_device); [reflexivity | vm_compute; discriminate].
Defined.


(** * A settings write, parameter by parameter *)












(** ** The masks and packed modes are always built *)







(** ** The whole write *)







